(** * EAGLE .brd viewer: the board model, its parser, instancing and bounds

    A shallow embedding of [Brd_Viewer.py]: the data classes, the
    [EagleParser] (document to [Board]), the bounds scan
    [_compute_bounds], the package instancing of
    [BRDViewer._draw_element_shapes] and the net list of
    [BRDViewer._populate_nets].

    Numbers.  Python floats are idealised as real numbers: a decimal
    literal denotes its exact value and [+ - * / cos sin] are the
    operations of [R], exact and never out of range.  Rounding is outside
    the model.  So are the floats that are no real number: where [float()]
    gives [inf] or [nan] - for these literals or for a literal beyond the
    range of a float - [py_float] answers [Beyond], and whatever reads such
    a number ends in [Beyond] as well: the program goes on with the value,
    the model makes no statement about what it does then.  One sum is not
    idealised: the increment of the grid loops, which in the program can
    leave its operand unchanged, is a parameter of [_draw_grid].  Python
    integers are [Z].  Strings are ASCII strings.

    Exceptions.  The body of a [try] block is a [result]: a value, an
    exception ([Except]) or [Beyond]; [parse] returns an [outcome] that
    tells a returned board from a raised [RuntimeError] or [ValueError]
    and from a file beyond the model.

    Layout.  The program comes first (modules [Py], [ET], the data classes,
    [EagleParser], [BRDViewer]); then the notions the properties are stated
    in ([Geometry], [Delta], [Doc]) and concrete inputs ([Examples]); then
    the lemmas and theorems. *)

From Stdlib Require Import String Ascii List ZArith DecimalString Reals Lra Lia Bool.
From stdpp Require Import base option list gmap sets strings sorting.

Set Warnings "-register-all".

Local Open Scope string_scope.
Local Open Scope Z_scope.
Local Open Scope list_scope.

(* ===================================================================== *)
(** * Python built-ins used by the program *)
(* ===================================================================== *)

Module Py.

(** What a conversion, a [try] body or a call comes to: a value; an
    exception; or a float that is no real number has been met ([inf],
    [nan]), from where on the model does not follow the program. *)
Inductive result (A : Type) : Type :=
| Ok (a : A)
| Except
| Beyond.
Arguments Ok {A} a.
Arguments Except {A}.
Arguments Beyond {A}.

#[global] Instance result_ret : MRet result := fun A a => Ok a.

#[global] Instance result_bind : MBind result :=
  fun A B f r =>
    match r with
    | Ok a => f a
    | Except => Except
    | Beyond => Beyond
    end.

#[global] Instance result_fmap : FMap result :=
  fun A B f r =>
    match r with
    | Ok a => Ok (f a)
    | Except => Except
    | Beyond => Beyond
    end.

(** There is a value. *)
Definition is_Ok {A} (r : result A) : Prop := exists a, r = Ok a.

#[global] Instance is_Ok_dec {A} (r : result A) : Decision (is_Ok r).
Proof.
  destruct r as [a| |];
    [left; exists a; reflexivity
    |right; intros [a Ha]; discriminate Ha
    |right; intros [a Ha]; discriminate Ha].
Defined.

(** The value, if there is one, as a list. *)
Definition result_list {A} (r : result A) : list A :=
  match r with
  | Ok a => [a]
  | _ => []
  end.

(** [for x in l: s = f(s, x)], as far as the model follows it. *)
Fixpoint foldM {A S} (f : S -> A -> result S) (l : list A) (s : S)
  : result S :=
  match l with
  | [] => Ok s
  | x :: l' => s' ← f s x; foldM f l' s'
  end.

(** [r] comes to [a] wherever the model follows the program. *)
Definition gives {A} (r : result A) (a : A) : Prop := r = Beyond \/ r = Ok a.

(** [s.lstrip(c)] for a one-character set [c]. *)
Fixpoint lstrip (c : ascii) (s : string) : string :=
  match s with
  | String a s' => if Ascii.eqb a c then lstrip c s' else s
  | EmptyString => EmptyString
  end.

(** [c in s] for a one-character string [c]. *)
Fixpoint contains (c : ascii) (s : string) : bool :=
  match s with
  | String a s' => Ascii.eqb a c || contains c s'
  | EmptyString => false
  end.

(** White space skipped by [float()] and [int()] at both ends. *)
Definition is_space (a : ascii) : bool :=
  let n := Z.of_N (N_of_ascii a) in
  ((9 <=? n) && (n <=? 13)) || ((28 <=? n) && (n <=? 32)).

Fixpoint lstrip_ws (s : string) : string :=
  match s with
  | String a s' => if is_space a then lstrip_ws s' else s
  | EmptyString => EmptyString
  end.

Fixpoint rstrip_ws (s : string) : string :=
  match s with
  | String a s' =>
      let r := rstrip_ws s' in
      if is_space a && (r =? "")%string then EmptyString else String a r
  | EmptyString => EmptyString
  end.

Definition strip_ws (s : string) : string := rstrip_ws (lstrip_ws s).

(** [s.lower()] on ASCII strings. *)
Definition lower_ascii (a : ascii) : ascii :=
  let n := N_of_ascii a in
  if ((65 <=? n) && (n <=? 90))%N then ascii_of_N (n + 32) else a.

Fixpoint lower (s : string) : string :=
  match s with
  | String a s' => String (lower_ascii a) (lower s')
  | EmptyString => EmptyString
  end.

Definition digit_of (a : ascii) : option Z :=
  let n := Z.of_N (N_of_ascii a) in
  if (48 <=? n) && (n <=? 57) then Some (n - 48) else None.

Definition is_digit (a : ascii) : bool :=
  match digit_of a with Some _ => true | None => false end.

(** A run of decimal digits, a single underscore allowed between two
    digits.  Returns the accumulated value, the number of digits read
    and the rest of the string. *)
Fixpoint digit_run (s : string) (acc cnt : Z) : Z * Z * string :=
  match s with
  | String a s' =>
      match digit_of a with
      | Some d =>
          let acc' := 10 * acc + d in
          match s' with
          | String "_" (String b _ as s'') =>
              if is_digit b then digit_run s'' acc' (cnt + 1)
              else (acc', cnt + 1, s')
          | _ => digit_run s' acc' (cnt + 1)
          end
      | None => (acc, cnt, s)
      end
  | EmptyString => (acc, cnt, s)
  end.

Definition parse_sign (s : string) : bool * string :=
  match s with
  | String "-" r => (true, r)
  | String "+" r => (false, r)
  | _ => (false, s)
  end.

Definition is_e (a : ascii) : bool := Ascii.eqb a "e" || Ascii.eqb a "E".

(** The decimal literal of [float(s)]: sign, mantissa and power of ten;
    [None] when [s] is no decimal literal. *)
Definition float_literal (s : string) : option (bool * Z * Z) :=
  let s := strip_ws s in
  let '(neg, s) := parse_sign s in
  let '(m1, n1, s) := digit_run s 0 0 in
  let '(m2, n2, s) :=
    match s with
    | String "." r => digit_run r m1 0
    | _ => (m1, 0, s)
    end in
  if n1 + n2 =? 0 then None
  else
    match s with
    | EmptyString => Some (neg, m2, - n2)
    | String c r =>
        if is_e c then
          let '(eneg, r) := parse_sign r in
          let '(ex, n3, r) := digit_run r 0 0 in
          if (n3 =? 0) || negb (r =? "")%string then None
          else Some (neg, m2, (if eneg then - ex else ex) - n2)
        else None
    end.

(** The real number a decimal literal denotes. *)
Definition dec_R (neg : bool) (m e : Z) : R :=
  let v := if 0 <=? e then IZR (m * 10 ^ e)
           else (IZR m / IZR (10 ^ (- e)))%R in
  if neg then (- v)%R else v.

(** The words [float()] reads as no real number: [inf], [infinity] and
    [nan], in any case and with an optional sign. *)
Definition not_a_real (s : string) : bool :=
  let w := lower (snd (parse_sign (strip_ws s))) in
  (w =? "inf")%string || (w =? "infinity")%string || (w =? "nan")%string.

(** A decimal literal [m * 10 ^ e] that rounds to [inf]: it is no less
    than [2 ^ 1024 - 2 ^ 970], half way between the largest float and
    [2 ^ 1024]. *)
Definition overflows (m e : Z) : bool :=
  let limit := 2 ^ 1024 - 2 ^ 970 in
  if 0 <=? e then limit <=? m * 10 ^ e
  else limit * 10 ^ (- e) <=? m.

(** [float(s)]: [Except] is its [ValueError]. *)
Definition py_float (s : string) : result R :=
  if not_a_real s then Beyond
  else
    match float_literal s with
    | Some (neg, m, e) =>
        if overflows m e then Beyond else Ok (dec_R neg m e)
    | None => Except
    end.

(** [int(s)] in base ten: [Except] is its [ValueError]. *)
Definition py_int (s : string) : result Z :=
  let s := strip_ws s in
  let '(neg, s) := parse_sign s in
  let '(m, n, r) := digit_run s 0 0 in
  if (n =? 0) || negb (r =? "")%string then Except
  else Ok (if neg then - m else m).

(** [str(n)] for an integer, as used in an f-string. *)
Definition py_str (n : Z) : string := NilZero.string_of_int (Z.to_int n).

(** [math.radians]. *)
Definition radians (d : R) : R := (d * (PI / 180))%R.

(** [s.strip()] *)
Definition strip (s : string) : string := strip_ws s.

(** [q in s] for strings: [q] occurs in [s] as a substring. *)
Fixpoint str_in (q s : string) : bool :=
  String.prefix q s
  || match s with
     | String _ s' => str_in q s'
     | EmptyString => false
     end.

(** [s.endswith(suffix)] *)
Fixpoint endswith (s suffix : string) : bool :=
  (s =? suffix)%string
  || match s with
     | String _ s' => endswith s' suffix
     | EmptyString => false
     end.

(** [l[i]] for [0 <= i < len(l)]. *)
Definition index {A} (l : list A) (i : Z) : option A :=
  if (0 <=? i) && (i <? Z.of_nat (length l)) then nth_error l (Z.to_nat i)
  else None.

End Py.

(* ===================================================================== *)
(** * The XML tree of [xml.etree.ElementTree] *)
(* ===================================================================== *)

Module ET.

Inductive element : Type :=
  Node (tag : string) (attrib : list (string * string))
       (text : option string) (children : list element).

Definition tag (el : element) : string :=
  let 'Node t _ _ _ := el in t.
Definition attrib (el : element) : list (string * string) :=
  let 'Node _ a _ _ := el in a.
Definition text (el : element) : option string :=
  let 'Node _ _ t _ := el in t.
Definition children (el : element) : list element :=
  let 'Node _ _ _ c := el in c.

Fixpoint lookup_attr (k : string) (a : list (string * string)) : option string :=
  match a with
  | (k', v) :: a' => if (k' =? k)%string then Some v else lookup_attr k a'
  | [] => None
  end.

(** [el.get(key)] *)
Definition get_opt (el : element) (k : string) : option string :=
  lookup_attr k (attrib el).

(** [el.get(key, default)] *)
Definition get (el : element) (k dflt : string) : string :=
  match get_opt el k with Some v => v | None => dflt end.

(** [el.findall(tag)]: the direct children with that tag, in order. *)
Definition findall (el : element) (t : string) : list element :=
  List.filter (fun c => (tag c =? t)%string) (children el).

(** [el.find(tag)]: the first such child. *)
Definition find (el : element) (t : string) : option element :=
  head (findall el t).

End ET.

(* ===================================================================== *)
(** * Data structures *)
(* ===================================================================== *)

Module Layer.
Record t := mk
  { number : Z; name : string; color : Z; visible : bool; active : bool }.
End Layer.

Module Wire.
Record t := mk
  { x1 : R; y1 : R; x2 : R; y2 : R; width : R; layer : Z;
    kind : string; net : string }.
Definition set_net (w : t) (n : string) : t :=
  mk (x1 w) (y1 w) (x2 w) (y2 w) (width w) (layer w) (kind w) n.
End Wire.

Module Via.
Record t := mk
  { x : R; y : R; drill : R; diameter : R; extent : string; net : string }.
End Via.

Module Pad.
Record t := mk
  { name : string; x : R; y : R; drill : R; diameter : R; dx : R; dy : R;
    shape : string; layer : Z; rot : R }.
End Pad.

Module SMD.
Record t := mk
  { name : string; x : R; y : R; dx : R; dy : R; layer : Z;
    roundness : R; rot : R }.
End SMD.

Module Circle.
Record t := mk { x : R; y : R; radius : R; width : R; layer : Z }.
End Circle.

Module Rect.
Record t := mk { x1 : R; y1 : R; x2 : R; y2 : R; layer : Z; rot : R }.
End Rect.

Module Element.
Record t := mk
  { name : string; value : string; library : string; package : string;
    x : R; y : R; rot : string }.
End Element.

Module Polygon.
Record t := mk
  { vertices : list (R * R); layer : Z; width : R; net : string;
    fill : bool; is_outline : bool }.
End Polygon.

Module Text.
Record t := mk
  { x : R; y : R; text : string; layer : Z; size : R; rot : R }.
End Text.

(** [Union[Wire, Pad, SMD, Circle, Rect, Polygon]]: what a package holds and
    what [isinstance] tells apart. *)
Inductive shape : Type :=
| SWire (w : Wire.t)
| SPad (p : Pad.t)
| SSMD (s : SMD.t)
| SCircle (c : Circle.t)
| SRect (r : Rect.t)
| SPolygon (p : Polygon.t).

Module Board.
Record t := mk
  { layers : gmap Z Layer.t;
    wires : list Wire.t;
    vias : list Via.t;
    pads : list Pad.t;
    smds : list SMD.t;
    elements : list Element.t;
    polygons : list Polygon.t;
    texts : list Text.t;
    packages : gmap string (list shape);
    bounds : option (R * R * R * R) }.

(** [Board()] *)
Definition empty : t := mk ∅ [] [] [] [] [] [] [] ∅ None.

Definition set_layers (b : t) v :=
  mk v (wires b) (vias b) (pads b) (smds b) (elements b) (polygons b)
     (texts b) (packages b) (bounds b).
Definition set_wires (b : t) v :=
  mk (layers b) v (vias b) (pads b) (smds b) (elements b) (polygons b)
     (texts b) (packages b) (bounds b).
Definition set_vias (b : t) v :=
  mk (layers b) (wires b) v (pads b) (smds b) (elements b) (polygons b)
     (texts b) (packages b) (bounds b).
Definition set_pads (b : t) v :=
  mk (layers b) (wires b) (vias b) v (smds b) (elements b) (polygons b)
     (texts b) (packages b) (bounds b).
Definition set_smds (b : t) v :=
  mk (layers b) (wires b) (vias b) (pads b) v (elements b) (polygons b)
     (texts b) (packages b) (bounds b).
Definition set_elements (b : t) v :=
  mk (layers b) (wires b) (vias b) (pads b) (smds b) v (polygons b)
     (texts b) (packages b) (bounds b).
Definition set_polygons (b : t) v :=
  mk (layers b) (wires b) (vias b) (pads b) (smds b) (elements b) v
     (texts b) (packages b) (bounds b).
Definition set_texts (b : t) v :=
  mk (layers b) (wires b) (vias b) (pads b) (smds b) (elements b)
     (polygons b) v (packages b) (bounds b).
Definition set_packages (b : t) v :=
  mk (layers b) (wires b) (vias b) (pads b) (smds b) (elements b)
     (polygons b) (texts b) v (bounds b).
Definition set_bounds (b : t) v :=
  mk (layers b) (wires b) (vias b) (pads b) (smds b) (elements b)
     (polygons b) (texts b) (packages b) v.
End Board.

(** Exceptions that leave [parse]. *)
Inductive exn : Type :=
| RuntimeError (msg : string)
| ValueError.

(** What [ET.parse(path)] gives: a syntax error, another failure to read
    the file, or the root of the tree. *)
Inductive source : Type :=
| SrcParseError
| SrcOpenError
| SrcTree (root : ET.element).

(** How [parse] ends: with a board, with an exception, or beyond the model
    (a float that is no real number has been read, see [Py.result]). *)
Inductive outcome : Type :=
| Returns (b : Board.t)
| Raises (e : exn)
| OutOfModel.

(* ===================================================================== *)
(** * Parser for EAGLE XML .brd *)
(* ===================================================================== *)

Module EagleParser.
Import Py.

(** The body of each [try] block is a chain of conversions, any of which
    may raise ([Except], the [except] branch) or read a float that is no
    real number ([Beyond]). *)

Definition wire_of_xml (w_el : ET.element) (kind : string) : result Wire.t :=
  x1 ← py_float (ET.get w_el "x1" "0");
  y1 ← py_float (ET.get w_el "y1" "0");
  x2 ← py_float (ET.get w_el "x2" "0");
  y2 ← py_float (ET.get w_el "y2" "0");
  width ← py_float (ET.get w_el "width" "0.1");
  layer ← py_int (ET.get w_el "layer" "0");
  Ok (Wire.mk x1 y1 x2 y2 width layer kind "").

Definition _add_wire_from_xml (b : Board.t) (w_el : ET.element) (kind : string)
  : result (Board.t * option Wire.t) :=
  match wire_of_xml w_el kind with
  | Ok w => Ok (Board.set_wires b (Board.wires b ++ [w]), Some w)
  | Except => Ok (b, None)
  | Beyond => Beyond
  end.

Definition via_of_xml (v_el : ET.element) (net : string) : result Via.t :=
  x ← py_float (ET.get v_el "x" "0");
  y ← py_float (ET.get v_el "y" "0");
  drill ← py_float (ET.get v_el "drill" "0");
  diameter ← match ET.get_opt v_el "diameter" with
              | None | Some EmptyString => Ok 0%R
              | Some _ => py_float (ET.get v_el "diameter" "0")
              end;
  Ok (Via.mk x y drill diameter (ET.get v_el "extent" "") net).

Definition _add_via_from_xml (b : Board.t) (v_el : ET.element) (net : string)
  : result Board.t :=
  match via_of_xml v_el net with
  | Ok v => Ok (Board.set_vias b (Board.vias b ++ [v]))
  | Except => Ok b
  | Beyond => Beyond
  end.

(** [float(rot_str.lstrip('R').lstrip('M'))], as the shape readers write
    it. *)
Definition shape_rot_of (rot_str : string) : result R :=
  py_float (lstrip "M" (lstrip "R" rot_str)).

Definition pad_of_xml (p_el : ET.element) : result Pad.t :=
  let name := ET.get p_el "name" "" in
  x ← py_float (ET.get p_el "x" "0");
  y ← py_float (ET.get p_el "y" "0");
  drill ← py_float (ET.get p_el "drill" "0");
  diameter ← py_float (ET.get p_el "diameter" "0");
  let shape := ET.get p_el "shape" "round" in
  layer ← py_int (ET.get p_el "layer" "0");
  let rot_str := ET.get p_el "rot" "R0" in
  rot ← shape_rot_of rot_str;
  let dx := if negb (shape =? "round")%string then diameter else 0%R in
  let dy := if negb (shape =? "round")%string then diameter else 0%R in
  Ok (Pad.mk name x y drill diameter dx dy shape layer rot).

Definition _add_pad_from_xml (b : Board.t) (p_el : ET.element)
  : result (Board.t * option Pad.t) :=
  match pad_of_xml p_el with
  | Ok p => Ok (Board.set_pads b (Board.pads b ++ [p]), Some p)
  | Except => Ok (b, None)
  | Beyond => Beyond
  end.

Definition smd_of_xml (s_el : ET.element) : result SMD.t :=
  let name := ET.get s_el "name" "" in
  x ← py_float (ET.get s_el "x" "0");
  y ← py_float (ET.get s_el "y" "0");
  dx ← py_float (ET.get s_el "dx" "0");
  dy ← py_float (ET.get s_el "dy" "0");
  layer ← py_int (ET.get s_el "layer" "0");
  roundness ← py_float (ET.get s_el "roundness" "0");
  let rot_str := ET.get s_el "rot" "R0" in
  rot ← shape_rot_of rot_str;
  Ok (SMD.mk name x y dx dy layer roundness rot).

Definition _add_smd_from_xml (b : Board.t) (s_el : ET.element)
  : result (Board.t * option SMD.t) :=
  match smd_of_xml s_el with
  | Ok s => Ok (Board.set_smds b (Board.smds b ++ [s]), Some s)
  | Except => Ok (b, None)
  | Beyond => Beyond
  end.

(** [Except] is the [None] that the [except] branch returns. *)
Definition _add_circle_from_xml (c_el : ET.element) : result Circle.t :=
  x ← py_float (ET.get c_el "x" "0");
  y ← py_float (ET.get c_el "y" "0");
  radius ← py_float (ET.get c_el "radius" "0");
  width ← py_float (ET.get c_el "width" "0.1");
  layer ← py_int (ET.get c_el "layer" "0");
  Ok (Circle.mk x y radius width layer).

Definition _add_rect_from_xml (r_el : ET.element) : result Rect.t :=
  x1 ← py_float (ET.get r_el "x1" "0");
  y1 ← py_float (ET.get r_el "y1" "0");
  x2 ← py_float (ET.get r_el "x2" "0");
  y2 ← py_float (ET.get r_el "y2" "0");
  layer ← py_int (ET.get r_el "layer" "0");
  let rot_str := ET.get r_el "rot" "R0" in
  rot ← shape_rot_of rot_str;
  Ok (Rect.mk x1 y1 x2 y2 layer rot).

(** The loop over [p_el.findall('vertex')]. *)
Fixpoint vertices_of_xml (vs : list ET.element) : result (list (R * R)) :=
  match vs with
  | [] => Ok []
  | v :: vs' =>
      vx ← py_float (ET.get v "x" "0");
      vy ← py_float (ET.get v "y" "0");
      rest ← vertices_of_xml vs';
      Ok ((vx, vy) :: rest)
  end.

(** [Except] also stands for the [None] returned for fewer than three
    vertices. *)
Definition polygon_of_xml (p_el : ET.element) (net : string) : result Polygon.t :=
  layer ← py_int (ET.get p_el "layer" "0");
  width ← py_float (ET.get p_el "width" "0.1");
  verts ← vertices_of_xml (ET.findall p_el "vertex");
  if (2 <? length verts)%nat then
    let is_outline := (layer =? 20) in
    let fill := negb (net =? "")%string && negb is_outline in
    Ok (Polygon.mk verts layer width net fill is_outline)
  else Except.

Definition _add_polygon_from_xml (b : Board.t) (p_el : ET.element)
    (net : string) (in_package : bool) : result (Board.t * option Polygon.t) :=
  match polygon_of_xml p_el net with
  | Ok p =>
      if in_package then Ok (b, Some p)
      else Ok (Board.set_polygons b (Board.polygons b ++ [p]), Some p)
  | Except => Ok (b, None)
  | Beyond => Beyond
  end.

Definition text_of_xml (t_el : ET.element) : result Text.t :=
  x ← py_float (ET.get t_el "x" "0");
  y ← py_float (ET.get t_el "y" "0");
  layer ← py_int (ET.get t_el "layer" "0");
  size ← py_float (ET.get t_el "size" "1.27");
  let rot_str := ET.get t_el "rot" "R0" in
  rot ← shape_rot_of rot_str;
  let text := match ET.text t_el with
              | Some (String _ _ as s) => s
              | _ => ""
              end in
  Ok (Text.mk x y text layer size rot).

Definition _add_text_from_xml (b : Board.t) (t_el : ET.element) : result Board.t :=
  match text_of_xml t_el with
  | Ok t => Ok (Board.set_texts b (Board.texts b ++ [t]))
  | Except => Ok b
  | Beyond => Beyond
  end.

(** [Except] is the [ValueError] of [float], which leaves the function. *)
Definition _parse_rot (rot_str : string) : result R :=
  match rot_str with
  | EmptyString => Ok 0%R
  | String c _ =>
      let mirror := Ascii.eqb c "M" in
      let rot_str := lstrip "M" rot_str in
      rot ← match rot_str with
             | EmptyString => Ok 0%R
             | _ => py_float (lstrip "R" rot_str)
             end;
      Ok (if mirror then (- rot)%R else rot)
  end.

(* ------------------------------------------------------------------- *)
(** ** The passes of [parse] *)

Definition layer_of_xml (l : ET.element) : result Layer.t :=
  num ← py_int (ET.get l "number" "0");
  let name := ET.get l "name" ("L" ++ py_str num)%string in
  color ← py_int (ET.get l "color" "7");
  let visible := (ET.get l "visible" "yes" =? "yes")%string in
  let active := (ET.get l "active" "yes" =? "yes")%string in
  Ok (Layer.mk num name color visible active).

Definition _parse_layers (b : Board.t) (drawing : ET.element) : result Board.t :=
  match ET.find drawing "layers" with
  | None => Ok b
  | Some layers =>
      foldM
        (fun b l =>
           match layer_of_xml l with
           | Ok ly =>
               Ok (Board.set_layers b (<[Layer.number ly := ly]> (Board.layers b)))
           | Except => Ok b
           | Beyond => Beyond
           end)
        (ET.findall layers "layer") b
  end.

(** One step of each of the six loops over a package's children; the
    state is the board and the [shapes] list being built. *)
Definition pkg_wire (st : Board.t * list shape) (w : ET.element)
  : result (Board.t * list shape) :=
  '(b', w_obj) ← _add_wire_from_xml (fst st) w "package";
  Ok (b', match w_obj with Some o => snd st ++ [SWire o] | None => snd st end).
Definition pkg_pad (st : Board.t * list shape) (pad : ET.element)
  : result (Board.t * list shape) :=
  '(b', pad_obj) ← _add_pad_from_xml (fst st) pad;
  Ok (b', match pad_obj with Some o => snd st ++ [SPad o] | None => snd st end).
Definition pkg_smd (st : Board.t * list shape) (smd : ET.element)
  : result (Board.t * list shape) :=
  '(b', smd_obj) ← _add_smd_from_xml (fst st) smd;
  Ok (b', match smd_obj with Some o => snd st ++ [SSMD o] | None => snd st end).
Definition pkg_circle (st : Board.t * list shape) (c : ET.element)
  : result (Board.t * list shape) :=
  match _add_circle_from_xml c with
  | Ok o => Ok (fst st, snd st ++ [SCircle o])
  | Except => Ok (fst st, snd st)
  | Beyond => Beyond
  end.
Definition pkg_rect (st : Board.t * list shape) (r : ET.element)
  : result (Board.t * list shape) :=
  match _add_rect_from_xml r with
  | Ok o => Ok (fst st, snd st ++ [SRect o])
  | Except => Ok (fst st, snd st)
  | Beyond => Beyond
  end.
Definition pkg_polygon (st : Board.t * list shape) (poly : ET.element)
  : result (Board.t * list shape) :=
  '(b', p_obj) ← _add_polygon_from_xml (fst st) poly "" true;
  Ok (b', match p_obj with Some o => snd st ++ [SPolygon o] | None => snd st end).

(** The body of [for pkg in packages.findall('package')]. *)
Definition parse_package (b : Board.t) (pkg : ET.element) : result Board.t :=
  let pkg_name := ET.get pkg "name" "" in
  let st := (b, []) in
  st ← foldM pkg_wire (ET.findall pkg "wire") st;
  st ← foldM pkg_pad (ET.findall pkg "pad") st;
  st ← foldM pkg_smd (ET.findall pkg "smd") st;
  st ← foldM pkg_circle (ET.findall pkg "circle") st;
  st ← foldM pkg_rect (ET.findall pkg "rectangle") st;
  st ← foldM pkg_polygon (ET.findall pkg "polygon") st;
  Ok (Board.set_packages (fst st)
        (<[pkg_name := snd st]> (Board.packages (fst st)))).

Definition parse_library (b : Board.t) (lib : ET.element) : result Board.t :=
  match ET.find lib "packages" with
  | None => Ok b
  | Some packages => foldM parse_package (ET.findall packages "package") b
  end.

Definition _parse_libraries (b : Board.t) (brd : ET.element) : result Board.t :=
  match ET.find brd "libraries" with
  | None => Ok b
  | Some libraries => foldM parse_library (ET.findall libraries "library") b
  end.

Definition _parse_plain (b : Board.t) (brd : ET.element) : result Board.t :=
  match ET.find brd "plain" with
  | None => Ok b
  | Some plain =>
      b ← foldM (fun b w => fst <$> _add_wire_from_xml b w "plain")
                (ET.findall plain "wire") b;
      b ← foldM (fun b p => fst <$> _add_pad_from_xml b p)
                (ET.findall plain "pad") b;
      b ← foldM (fun b s => fst <$> _add_smd_from_xml b s)
                (ET.findall plain "smd") b;
      b ← foldM (fun b poly => fst <$> _add_polygon_from_xml b poly "" false)
                (ET.findall plain "polygon") b;
      foldM _add_text_from_xml (ET.findall plain "text") b
  end.

Definition element_of_xml (e : ET.element) : result Element.t :=
  let name := ET.get e "name" "" in
  let value := ET.get e "value" "" in
  let library := ET.get e "library" "" in
  let package := ET.get e "package" "" in
  x ← py_float (ET.get e "x" "0");
  y ← py_float (ET.get e "y" "0");
  let rot := ET.get e "rot" "" in
  Ok (Element.mk name value library package x y rot).

Definition _parse_elements (b : Board.t) (brd : ET.element) : result Board.t :=
  match ET.find brd "elements" with
  | None => Ok b
  | Some elements =>
      foldM
        (fun b e =>
           match element_of_xml e with
           | Ok el => Ok (Board.set_elements b (Board.elements b ++ [el]))
           | Except => Ok b
           | Beyond => Beyond
           end)
        (ET.findall elements "element") b
  end.

(** [w_obj.net = name] on the wire just appended: [w_obj] is the last
    entry of [board.wires], and the assignment is seen through the list. *)
Definition set_last_net (ws : list Wire.t) (name : string) : list Wire.t :=
  match reverse ws with
  | w :: rest => reverse rest ++ [Wire.set_net w name]
  | [] => []
  end.

Definition signal_wire (name : string) (b : Board.t) (w : ET.element)
  : result Board.t :=
  '(b', w_obj) ← _add_wire_from_xml b w "signal";
  match w_obj with
  | Some _ => Ok (Board.set_wires b' (set_last_net (Board.wires b') name))
  | None => Ok b'
  end.

Definition parse_signal (b : Board.t) (s : ET.element) : result Board.t :=
  let name := ET.get s "name" "" in
  b ← foldM (signal_wire name) (ET.findall s "wire") b;
  b ← foldM (fun b v => _add_via_from_xml b v name) (ET.findall s "via") b;
  foldM (fun b poly => fst <$> _add_polygon_from_xml b poly name false)
        (ET.findall s "polygon") b.

Definition _parse_signals (b : Board.t) (brd : ET.element) : result Board.t :=
  match ET.find brd "signals" with
  | None => Ok b
  | Some signals => foldM parse_signal (ET.findall signals "signal") b
  end.

(* ------------------------------------------------------------------- *)
(** ** [_compute_bounds] *)

Local Open Scope R_scope.

(** The state of the scan: the lists [xs] and [ys]. *)
Definition coords : Type := list R * list R.

(** One iteration of [for shape in package_shapes]. *)
Definition scan_shape (e : Element.t) (angle : R) (mirror : bool)
    (acc : coords) (sh : shape) : coords :=
  let '(xs, ys) := acc in
  match sh with
  | SWire shape =>
      let rx1 := if negb mirror then Wire.x1 shape else - Wire.x1 shape in
      let ry1 := Wire.y1 shape in
      let rx1_rot := rx1 * cos angle - ry1 * sin angle in
      let ry1_rot := rx1 * sin angle + ry1 * cos angle in
      let abs_x1 := Element.x e + rx1_rot in
      let abs_y1 := Element.y e + ry1_rot in
      let rx2 := if negb mirror then Wire.x2 shape else - Wire.x2 shape in
      let ry2 := Wire.y2 shape in
      let rx2_rot := rx2 * cos angle - ry2 * sin angle in
      let ry2_rot := rx2 * sin angle + ry2 * cos angle in
      let abs_x2 := Element.x e + rx2_rot in
      let abs_y2 := Element.y e + ry2_rot in
      (xs ++ [abs_x1; abs_x2], ys ++ [abs_y1; abs_y2])
  | SPad _ | SSMD _ | SCircle _ =>
      let '(sx, sy) :=
        match sh with
        | SPad p => (Pad.x p, Pad.y p)
        | SSMD s => (SMD.x s, SMD.y s)
        | SCircle c => (Circle.x c, Circle.y c)
        | _ => (0, 0)
        end in
      let rx := if negb mirror then sx else - sx in
      let ry := sy in
      let rx_rot := rx * cos angle - ry * sin angle in
      let ry_rot := rx * sin angle + ry * cos angle in
      let abs_x := Element.x e + rx_rot in
      let abs_y := Element.y e + ry_rot in
      (xs ++ [abs_x], ys ++ [abs_y])
  | SRect shape =>
      let x1 := if negb mirror then Rect.x1 shape else - Rect.x1 shape in
      let y1 := Rect.y1 shape in
      let x2 := if negb mirror then Rect.x2 shape else - Rect.x2 shape in
      let y2 := Rect.y2 shape in
      fold_left
        (fun '(xs, ys) '(rx, ry) =>
           let rx_rot := rx * cos angle - ry * sin angle in
           let ry_rot := rx * sin angle + ry * cos angle in
           let abs_x := Element.x e + rx_rot in
           let abs_y := Element.y e + ry_rot in
           (xs ++ [abs_x], ys ++ [abs_y]))
        [(Rmin x1 x2, Rmin y1 y2); (Rmin x1 x2, Rmax y1 y2);
         (Rmax x1 x2, Rmin y1 y2); (Rmax x1 x2, Rmax y1 y2)]
        (xs, ys)
  | SPolygon shape =>
      fold_left
        (fun '(xs, ys) '(vx, vy) =>
           let rx := if negb mirror then vx else - vx in
           let ry := vy in
           let rx_rot := rx * cos angle - ry * sin angle in
           let ry_rot := rx * sin angle + ry * cos angle in
           let abs_x := Element.x e + rx_rot in
           let abs_y := Element.y e + ry_rot in
           (xs ++ [abs_x], ys ++ [abs_y]))
        (Polygon.vertices shape) (xs, ys)
  end.

(** One iteration of [for e in self.board.elements]; [Except] when
    [_parse_rot] raises. *)
Definition scan_element (packages : gmap string (list shape))
    (acc : coords) (e : Element.t) : result coords :=
  let '(xs, ys) := acc in
  let xs := xs ++ [Element.x e] in
  let ys := ys ++ [Element.y e] in
  let package_shapes := default [] (packages !! Element.package e) in
  a ← _parse_rot (Element.rot e);
  let angle := radians a in
  let mirror := contains "M" (Element.rot e) in
  Ok (fold_left (scan_shape e angle mirror) package_shapes (xs, ys)).

Fixpoint scan_elements (packages : gmap string (list shape))
    (es : list Element.t) (acc : coords) : result coords :=
  match es with
  | [] => Ok acc
  | e :: es' =>
      acc' ← scan_element packages acc e;
      scan_elements packages es' acc'
  end.

(** The five loops that fill [xs] and [ys]. *)
Definition scan (b : Board.t) : result coords :=
  let acc : coords := ([], []) in
  let acc := fold_left
    (fun '(xs, ys) w =>
       (xs ++ [Wire.x1 w; Wire.x2 w], ys ++ [Wire.y1 w; Wire.y2 w]))
    (Board.wires b) acc in
  let acc := fold_left
    (fun '(xs, ys) v => (xs ++ [Via.x v], ys ++ [Via.y v]))
    (Board.vias b) acc in
  let acc := fold_left
    (fun '(xs, ys) p => (xs ++ [Pad.x p], ys ++ [Pad.y p]))
    (Board.pads b) acc in
  let acc := fold_left
    (fun '(xs, ys) s => (xs ++ [SMD.x s], ys ++ [SMD.y s]))
    (Board.smds b) acc in
  acc ← scan_elements (Board.packages b) (Board.elements b) acc;
  Ok (fold_left
    (fun acc poly =>
       fold_left (fun '(xs, ys) '(vx, vy) => (xs ++ [vx], ys ++ [vy]))
                 (Polygon.vertices poly) acc)
    (Board.polygons b) acc).

(** [min(l)] and [max(l)] of a list whose first entry is [x]. *)
Definition py_min (x : R) (l : list R) : R := fold_left Rmin l x.
Definition py_max (x : R) (l : list R) : R := fold_left Rmax l x.

Definition bounds_of (c : coords) : R * R * R * R :=
  match c with
  | (x :: xs, y :: ys) => (py_min x xs, py_min y ys, py_max x xs, py_max y ys)
  | _ => (0, 0, 100, 100)
  end.

Definition _compute_bounds (b : Board.t) : result Board.t :=
  c ← scan b;
  Ok (Board.set_bounds b (Some (bounds_of c))).

Local Close Scope R_scope.

(* ------------------------------------------------------------------- *)
(** ** [parse] *)

Definition parse (src : source) : outcome :=
  match src with
  | SrcParseError => Raises (RuntimeError "XML parse error")
  | SrcOpenError => Raises (RuntimeError "Failed to open file")
  | SrcTree root =>
      match ET.find root "drawing" with
      | None => Raises (RuntimeError "Not an EAGLE XML file (missing <drawing> root)")
      | Some drawing =>
          match ET.find drawing "board" with
          | None => Raises (RuntimeError "Not a board file (missing <board> element)")
          | Some brd =>
              let b := Board.empty in
              match (b ← _parse_layers b drawing;
                     b ← _parse_libraries b brd;
                     b ← _parse_plain b brd;
                     b ← _parse_elements b brd;
                     b ← _parse_signals b brd;
                     _compute_bounds b) with
              | Ok b => Returns b
              | Except => Raises ValueError
              | Beyond => OutOfModel
              end
          end
      end
  end.

End EagleParser.

(* ===================================================================== *)
(** * Viewer: package instancing and the net list *)
(* ===================================================================== *)

Module BRDViewer.
Import Py.

Definition _parse_rot (rot_str : string) : result R :=
  match rot_str with
  | EmptyString => Ok 0%R
  | String c _ =>
      let mirror := Ascii.eqb c "M" in
      let rot_str := lstrip "M" rot_str in
      rot ← match rot_str with
             | EmptyString => Ok 0%R
             | _ => py_float (lstrip "R" rot_str)
             end;
      Ok (if mirror then (- rot)%R else rot)
  end.

Definition flip_map : gmap Z Z :=
  list_to_map [(1, 16); (16, 1); (21, 22); (22, 21);
               (25, 26); (26, 25); (29, 30); (30, 29)].

Definition _flip_layer (layer : Z) : Z := default layer (flip_map !! layer).

(** What [_draw_element_shapes] hands to the drawing routines: the
    instanced shape, or for a rectangle the world points [points_rot]
    given to [create_polygon] with the layer that colours them. *)
Inductive drawn : Type :=
| DrawWire (w : Wire.t)
| DrawCircle (c : Circle.t)
| DrawRectPoints (points_rot : list (R * R)) (shape_layer : Z)
| DrawPolygon (p : Polygon.t)
| DrawPad (p : Pad.t)
| DrawSMD (s : SMD.t).

Local Open Scope R_scope.

(** One iteration of [for shape in package_shapes]; [prot] is the value
    of [self._parse_rot(e.rot)].  The [highlight] flag only picks the
    colour and is left out. *)
Definition draw_shape (e : Element.t) (prot angle : R) (mirror : bool)
    (visible_layers : gset Z) (sh : shape) : list drawn :=
  match sh with
  | SWire shape =>
      let rx1 := if negb mirror then Wire.x1 shape else - Wire.x1 shape in
      let ry1 := Wire.y1 shape in
      let rx1_rot := rx1 * cos angle - ry1 * sin angle in
      let ry1_rot := rx1 * sin angle + ry1 * cos angle in
      let abs_x1 := Element.x e + rx1_rot in
      let abs_y1 := Element.y e + ry1_rot in
      let rx2 := if negb mirror then Wire.x2 shape else - Wire.x2 shape in
      let ry2 := Wire.y2 shape in
      let rx2_rot := rx2 * cos angle - ry2 * sin angle in
      let ry2_rot := rx2 * sin angle + ry2 * cos angle in
      let abs_x2 := Element.x e + rx2_rot in
      let abs_y2 := Element.y e + ry2_rot in
      let w_transformed :=
        Wire.mk abs_x1 abs_y1 abs_x2 abs_y2 (Wire.width shape)
                (if mirror then _flip_layer (Wire.layer shape) else Wire.layer shape)
                "plain" "" in
      if decide (Wire.layer w_transformed ∈ visible_layers)
      then [DrawWire w_transformed] else []
  | SCircle shape =>
      let rx := if negb mirror then Circle.x shape else - Circle.x shape in
      let ry := Circle.y shape in
      let rx_rot := rx * cos angle - ry * sin angle in
      let ry_rot := rx * sin angle + ry * cos angle in
      let abs_x := Element.x e + rx_rot in
      let abs_y := Element.y e + ry_rot in
      let shape_layer :=
        if mirror then _flip_layer (Circle.layer shape) else Circle.layer shape in
      if decide (shape_layer ∈ visible_layers)
      then [DrawCircle (Circle.mk abs_x abs_y (Circle.radius shape)
                                  (Circle.width shape) shape_layer)]
      else []
  | SRect shape =>
      let x1 := if negb mirror then Rect.x1 shape else - Rect.x1 shape in
      let y1 := Rect.y1 shape in
      let x2 := if negb mirror then Rect.x2 shape else - Rect.x2 shape in
      let y2 := Rect.y2 shape in
      let x_min := Rmin x1 x2 in
      let x_max := Rmax x1 x2 in
      let y_min := Rmin y1 y2 in
      let y_max := Rmax y1 y2 in
      let cx := (x_min + x_max) / 2 in
      let cy := (y_min + y_max) / 2 in
      let cx_rot := cx * cos angle - cy * sin angle in
      let cy_rot := cx * sin angle + cy * cos angle in
      let abs_cx := Element.x e + cx_rot in
      let abs_cy := Element.y e + cy_rot in
      let shape_rot := Rect.rot shape + (if negb mirror then prot else - prot) in
      let shape_layer :=
        if mirror then _flip_layer (Rect.layer shape) else Rect.layer shape in
      if decide (shape_layer ∈ visible_layers) then
        let points_rel :=
          [(x_min - cx, y_min - cy); (x_min - cx, y_max - cy);
           (x_max - cx, y_min - cy); (x_max - cx, y_max - cy)] in
        let points_rot :=
          fold_left
            (fun points_rot '(px, py) =>
               let pxr := px * cos angle - py * sin angle in
               let pyr := px * sin angle + py * cos angle in
               let abs_x := Element.x e + pxr in
               let abs_y := Element.y e + pyr in
               points_rot ++ [(abs_x, abs_y)])
            points_rel [] in
        [DrawRectPoints points_rot shape_layer]
      else []
  | SPolygon shape =>
      let verts_transformed :=
        fold_left
          (fun verts_transformed '(vx, vy) =>
             let rx := if negb mirror then vx else - vx in
             let ry := vy in
             let rx_rot := rx * cos angle - ry * sin angle in
             let ry_rot := rx * sin angle + ry * cos angle in
             let abs_x := Element.x e + rx_rot in
             let abs_y := Element.y e + ry_rot in
             verts_transformed ++ [(abs_x, abs_y)])
          (Polygon.vertices shape) [] in
      let shape_layer :=
        if mirror then _flip_layer (Polygon.layer shape) else Polygon.layer shape in
      if decide (shape_layer ∈ visible_layers) then
        [DrawPolygon (Polygon.mk verts_transformed shape_layer
                        (Polygon.width shape) (Polygon.net shape)
                        (Polygon.fill shape) (Polygon.is_outline shape))]
      else []
  | SPad _ | SSMD _ =>
      let '(sx, sy, srot, slayer) :=
        match sh with
        | SPad p => (Pad.x p, Pad.y p, Pad.rot p, Pad.layer p)
        | SSMD s => (SMD.x s, SMD.y s, SMD.rot s, SMD.layer s)
        | _ => (0, 0, 0, 0%Z)
        end in
      let rx := if negb mirror then sx else - sx in
      let ry := sy in
      let rx_rot := rx * cos angle - ry * sin angle in
      let ry_rot := rx * sin angle + ry * cos angle in
      let abs_x := Element.x e + rx_rot in
      let abs_y := Element.y e + ry_rot in
      let shape_rot := srot + (if negb mirror then prot else - prot) in
      let shape_layer := if mirror then _flip_layer slayer else slayer in
      if decide (shape_layer ∉ visible_layers) then []
      else
        match sh with
        | SPad shape =>
            [DrawPad (Pad.mk (Pad.name shape) abs_x abs_y (Pad.drill shape)
                             (Pad.diameter shape) (Pad.dx shape) (Pad.dy shape)
                             (Pad.shape shape) shape_layer shape_rot)]
        | SSMD shape =>
            [DrawSMD (SMD.mk (SMD.name shape) abs_x abs_y (SMD.dx shape)
                             (SMD.dy shape) shape_layer (SMD.roundness shape)
                             shape_rot)]
        | _ => []
        end
  end.

(** [Except] when [_parse_rot] raises. *)
Definition _draw_element_shapes (board : Board.t) (e : Element.t)
    (visible_layers : gset Z) : result (list drawn) :=
  let package_shapes := default [] (Board.packages board !! Element.package e) in
  prot ← _parse_rot (Element.rot e);
  let angle := radians prot in
  let mirror := contains "M" (Element.rot e) in
  Ok (concat (map (draw_shape e prot angle mirror visible_layers)
                  package_shapes)).

Local Close Scope R_scope.

(** The set [nets] that [_populate_nets] collects. *)
Definition collect_nets (board : Board.t) : gset string :=
  let nets : gset string := ∅ in
  let nets := fold_left
    (fun nets w => if negb (Wire.net w =? "")%string then nets ∪ {[Wire.net w]} else nets)
    (Board.wires board) nets in
  let nets := fold_left
    (fun nets v => if negb (Via.net v =? "")%string then nets ∪ {[Via.net v]} else nets)
    (Board.vias board) nets in
  fold_left
    (fun nets poly =>
       if negb (Polygon.net poly =? "")%string then nets ∪ {[Polygon.net poly]} else nets)
    (Board.polygons board) nets.

(** The order of [sorted] on strings. *)
Definition str_le (a c : string) : Prop := String.leb a c = true.

#[local] Instance str_le_dec : RelDecision str_le.
Proof. intros a c; unfold str_le; apply _. Defined.

(** The entries of the net list box after [_populate_nets]: nothing
    without a board, else the collected names in sorted order. *)
Definition _populate_nets (board : option Board.t) : list string :=
  match board with
  | None => []
  | Some b => merge_sort str_le (elements (collect_nets b))
  end.

(* ------------------------------------------------------------------- *)
(** ** The view: fields of the viewer and the handlers that change them *)

(** The fields of [self] that the handlers below read or write. *)
Record self_t := Self
  { board : option Board.t;
    file_path : option string;
    scale : R;
    offset_x : R;
    offset_y : R;
    measure_mode : bool;
    measure_points : list (R * R);
    selected_element : option Element.t;
    selected_net : option string;
    _drag_start : option (Z * Z * R * R);
    search_var : string;
    net_search_var : string }.

(** [BRDViewer()] before a file is opened. *)
Definition init : self_t :=
  Self None None 5 100 100 false [] None None None "" "".

Definition set_view (self : self_t) (sc ox oy : R) : self_t :=
  Self (board self) (file_path self) sc ox oy (measure_mode self)
       (measure_points self) (selected_element self) (selected_net self)
       (_drag_start self) (search_var self) (net_search_var self).

Definition set_measure_points (self : self_t) (pts : list (R * R)) : self_t :=
  Self (board self) (file_path self) (scale self) (offset_x self)
       (offset_y self) (measure_mode self) pts (selected_element self)
       (selected_net self) (_drag_start self) (search_var self)
       (net_search_var self).

Definition set_drag_start (self : self_t) (d : option (Z * Z * R * R)) : self_t :=
  Self (board self) (file_path self) (scale self) (offset_x self)
       (offset_y self) (measure_mode self) (measure_points self)
       (selected_element self) (selected_net self) d (search_var self)
       (net_search_var self).

Definition set_selection (self : self_t) (e : option Element.t)
    (n : option string) : self_t :=
  Self (board self) (file_path self) (scale self) (offset_x self)
       (offset_y self) (measure_mode self) (measure_points self) e n
       (_drag_start self) (search_var self) (net_search_var self).

(** A mouse event: the pointer position in pixels and, for a wheel event,
    [delta] (absent on some platforms) and the button number [num]. *)
Record event := Event
  { ev_x : Z; ev_y : Z; ev_delta : option Z; ev_num : option Z }.

Local Open Scope R_scope.

Definition world_to_screen (self : self_t) (x y : R) : R * R :=
  let sx := offset_x self + x * scale self in
  let sy := offset_y self + (- y) * scale self in
  (sx, sy).

(** [None] stands for the [ZeroDivisionError] of a zero scale. *)
Definition screen_to_world (self : self_t) (sx sy : R) : option (R * R) :=
  if Req_dec_T (scale self) 0 then None
  else
    let x := (sx - offset_x self) / scale self in
    let y := - (sy - offset_y self) / scale self in
    Some (x, y).


Definition reset_view (self : self_t) : self_t := set_view self 5 100 100.


Definition clear_measure (self : self_t) : self_t := set_measure_points self [].

(** [l[-2:]] *)
Definition last_two {A} (l : list A) : list A := drop (length l - 2) l.

(** [None] when [screen_to_world] raises. *)
Definition _on_left_down (self : self_t) (ev : event) : option self_t :=
  if measure_mode self then
    p ← screen_to_world self (IZR (ev_x ev)) (IZR (ev_y ev));
    let pts := measure_points self ++ [p] in
    let pts := if (2 <? length pts)%nat then last_two pts else pts in
    Some (set_measure_points self pts)
  else
    Some (set_drag_start self
            (Some (ev_x ev, ev_y ev, offset_x self, offset_y self))).

Definition _on_left_drag (self : self_t) (ev : event) : self_t :=
  match _drag_start self with
  | None => self
  | Some (sx0, sy0, ox0, oy0) =>
      let dx := (ev_x ev - sx0)%Z in
      let dy := (ev_y ev - sy0)%Z in
      set_view self (scale self) (ox0 + IZR dx) (oy0 + IZR dy)
  end.

Definition _on_mid_down (self : self_t) (ev : event) : self_t :=
  set_drag_start self (Some (ev_x ev, ev_y ev, offset_x self, offset_y self)).

Definition _on_mid_drag (self : self_t) (ev : event) : self_t :=
  match _drag_start self with
  | None => self
  | Some (sx0, sy0, ox0, oy0) =>
      let dx := (ev_x ev - sx0)%Z in
      let dy := (ev_y ev - sy0)%Z in
      set_view self (scale self) (ox0 + IZR dx) (oy0 + IZR dy)
  end.

(** [None] when the first [screen_to_world] raises; the second is called
    with the new scale. *)
Definition _on_mouse_wheel (self : self_t) (ev : event) : option self_t :=
  let delta :=
    match ev_delta ev with
    | Some d => if (d =? 0)%Z
                then (if (default 0%Z (ev_num ev) =? 4)%Z then 120 else -120)%Z
                else d
    | None => (if (default 0%Z (ev_num ev) =? 4)%Z then 120 else -120)%Z
    end in
  let factor := 1 + (if (0 <? delta)%Z then 1 / 10 else - (1 / 10)) in
  before ← screen_to_world self (IZR (ev_x ev)) (IZR (ev_y ev));
  let '(xw_before, yw_before) := before in
  let self1 := set_view self (Rmax (5 / 100) (Rmin (scale self * factor) 200))
                        (offset_x self) (offset_y self) in
  after ← screen_to_world self1 (IZR (ev_x ev)) (IZR (ev_y ev));
  let '(xw_after, yw_after) := after in
  Some (set_view self1 (scale self1)
          (offset_x self1 + (xw_after - xw_before) * scale self1)
          (offset_y self1 + (- yw_after + yw_before) * scale self1)).



Local Close Scope R_scope.

(* ------------------------------------------------------------------- *)
(** ** Colours *)

Definition palette : gmap Z string :=
  list_to_map
    [(1, "#0000FF"); (2, "#00FF00"); (3, "#00FFFF"); (4, "#FF0000");
     (5, "#FF00FF"); (6, "#FFFF00"); (7, "#FFFFFF"); (8, "#808080");
     (9, "#800000"); (10, "#808000"); (11, "#800080"); (12, "#000080");
     (13, "#008000"); (14, "#008080"); (15, "#8080FF")].

Definition _get_eagle_palette_color (index : Z) : string :=
  default "#FFFFFF" (palette !! index).

Definition map_ : gmap Z string :=
  list_to_map
    [(1, "#C33427"); (16, "#37965C"); (21, "#CCC3B7"); (22, "#CCC3B7");
     (29, "#A013A0"); (30, "#A013A0"); (20, "#FFFF00"); (43, "#808080")].

Definition _get_kicad_layer_color (num : Z) : string :=
  default "#00FFD1" (map_ !! num).

(** Called while a board is loaded; without one the attribute access on
    [self.board] raises, which [None] stands for. *)
Definition _layer_color (self : self_t) (layer_num : Z) : option string :=
  match file_path self with
  | Some (String _ _ as p) =>
      if endswith (lower p) ".brd" then
        b ← board self;
        let color_index :=
          Layer.color (default (Layer.mk 0 "" 7 true true)
                               (Board.layers b !! layer_num)) in
        Some (_get_eagle_palette_color color_index)
      else Some (_get_kicad_layer_color layer_num)
  | _ => Some (_get_kicad_layer_color layer_num)
  end.

(** Whether [s] is ['#'] followed by six hexadecimal digits, the form that
    [_color_to_rgb] and [_lighten_color] take apart. *)
Definition is_hex_digit (a : ascii) : bool :=
  let n := N_of_ascii a in
  (((48 <=? n) && (n <=? 57)) || ((65 <=? n) && (n <=? 70))
   || ((97 <=? n) && (n <=? 102)))%N.

Definition is_hex_color (s : string) : bool :=
  match s with
  | String "#" r =>
      (String.length r =? 6)%nat && forallb is_hex_digit (list_ascii_of_string r)
  | _ => false
  end.

(* ------------------------------------------------------------------- *)
(** ** Searching and selecting *)

(** The entries of the net list box after [_on_net_search]. *)
Definition _on_net_search (self : self_t) (shown : list string) : list string :=
  match board self with
  | None => shown
  | Some b =>
      let q := lower (strip (net_search_var self)) in
      List.filter (fun net => (q =? "")%string || str_in q (lower net))
                  (merge_sort str_le (elements (collect_nets b)))
  end.

(** [idx] is the selected row, [None] when nothing is selected. *)
Definition _on_net_select (self : self_t) (curselection : option Z) : self_t :=
  match board self with
  | None => self
  | Some b =>
      match curselection with
      | None => self
      | Some idx =>
          let q := lower (strip (net_search_var self)) in
          let filtered :=
            List.filter (fun n => (q =? "")%string || str_in q (lower n))
                        (merge_sort str_le (elements (collect_nets b))) in
          match index filtered idx with
          | Some n => set_selection self None (Some n)
          | None => self
          end
      end
  end.


(* ------------------------------------------------------------------- *)
(** ** The layer check boxes *)

(** The order of [sorted(..., key=lambda L: L.number)]. *)
Definition layer_le (a c : Layer.t) : Prop :=
  (Layer.number a <= Layer.number c)%Z.

#[local] Instance layer_le_dec : RelDecision layer_le.
Proof. intros a c; unfold layer_le; apply _. Defined.

(** [self.layer_checks] after [_populate_layers], each [BooleanVar] given
    by its value: no box without a board, else one box per layer of the
    table, entered under the number of the layer in the order of the
    numbers and ticked when the layer is visible.  (The table holds each
    layer under its own number, so no two entries tie in that order.) *)
Definition _populate_layers (board : option Board.t) : gmap Z bool :=
  match board with
  | None => ∅
  | Some b =>
      let layers_sorted :=
        merge_sort layer_le (map_to_list (Board.layers b)).*2 in
      fold_left
        (fun layer_checks L =>
           <[Layer.number L := Layer.visible L]> layer_checks)
        layers_sorted ∅
  end.

(** [{num for num, var in self.layer_checks.items() if var.get()}] *)
Definition visible_layers (layer_checks : gmap Z bool) : gset Z :=
  dom (filter (fun kv => kv.2 = true) layer_checks).

(* ------------------------------------------------------------------- *)
(** ** The grid *)

Local Open Scope R_scope.





Local Close Scope R_scope.

(* ------------------------------------------------------------------- *)
(** ** Opening a file *)



End BRDViewer.

(* ===================================================================== *)
(** * Plane geometry of placements *)
(* ===================================================================== *)

Module Geometry.
Local Open Scope R_scope.

Definition point : Type := R * R.

(** The standard counter-clockwise rotation matrix applied to a point. *)
Definition rotate (angle : R) (p : point) : point :=
  (p.1 * cos angle - p.2 * sin angle, p.1 * sin angle + p.2 * cos angle).

(** Negate the x-coordinate only. *)
Definition mirror_x (p : point) : point := (- p.1, p.2).

Definition mirror_if (m : bool) (p : point) : point :=
  if m then mirror_x p else p.

Definition translate (o p : point) : point := (o.1 + p.1, o.2 + p.2).

Definition position (e : Element.t) : point := (Element.x e, Element.y e).

(** Mirror, then rotate, then translate to the placement's position. *)
Definition place (e : Element.t) (angle : R) (m : bool) (p : point) : point :=
  translate (position e) (rotate angle (mirror_if m p)).

(** The mirror image of a point across the vertical line [x = x0]. *)
Definition reflect_about (x0 : R) (p : point) : point := (2 * x0 - p.1, p.2).

Definition rect_corners (r : Rect.t) : list point :=
  [(Rect.x1 r, Rect.y1 r); (Rect.x1 r, Rect.y2 r);
   (Rect.x2 r, Rect.y1 r); (Rect.x2 r, Rect.y2 r)].

(** The package-local points of a shape: end points, centre, corners or
    vertices. *)
Definition local_points (sh : shape) : list point :=
  match sh with
  | SWire w => [(Wire.x1 w, Wire.y1 w); (Wire.x2 w, Wire.y2 w)]
  | SPad p => [(Pad.x p, Pad.y p)]
  | SSMD s => [(SMD.x s, SMD.y s)]
  | SCircle c => [(Circle.x c, Circle.y c)]
  | SRect r => rect_corners r
  | SPolygon p => Polygon.vertices p
  end.

(** The world points the bounds scan adds for one shape: the coordinates
    [scan_shape] appends, paired up again. *)
Definition instance_points (e : Element.t) (angle : R) (m : bool) (sh : shape)
  : list point :=
  let c := EagleParser.scan_shape e angle m ([], []) sh in
  zip c.1 c.2.

(** The world points of what the viewer draws. *)
Definition drawn_points (d : BRDViewer.drawn) : list point :=
  match d with
  | BRDViewer.DrawWire w => [(Wire.x1 w, Wire.y1 w); (Wire.x2 w, Wire.y2 w)]
  | BRDViewer.DrawCircle c => [(Circle.x c, Circle.y c)]
  | BRDViewer.DrawRectPoints pts _ => pts
  | BRDViewer.DrawPolygon p => Polygon.vertices p
  | BRDViewer.DrawPad p => [(Pad.x p, Pad.y p)]
  | BRDViewer.DrawSMD s => [(SMD.x s, SMD.y s)]
  end.

(** The corners of the axis-parallel box spanned by two points, in the
    order both paths enumerate them. *)
Definition bbox_corners (p1 p2 : point) : list point :=
  [(Rmin p1.1 p2.1, Rmin p1.2 p2.2); (Rmin p1.1 p2.1, Rmax p1.2 p2.2);
   (Rmax p1.1 p2.1, Rmin p1.2 p2.2); (Rmax p1.1 p2.1, Rmax p1.2 p2.2)].

(** Closed form of [instance_points]. *)
Definition shape_points (e : Element.t) (angle : R) (m : bool) (sh : shape)
  : list point :=
  match sh with
  | SRect r =>
      place e angle false <$>
        bbox_corners (mirror_if m (Rect.x1 r, Rect.y1 r))
                     (mirror_if m (Rect.x2 r, Rect.y2 r))
  | _ => place e angle m <$> local_points sh
  end.

Definition shape_layer (sh : shape) : Z :=
  match sh with
  | SWire w => Wire.layer w
  | SPad p => Pad.layer p
  | SSMD s => SMD.layer s
  | SCircle c => Circle.layer c
  | SRect r => Rect.layer r
  | SPolygon p => Polygon.layer p
  end.

(** The layer an instanced shape is drawn on. *)
Definition placed_layer (m : bool) (sh : shape) : Z :=
  if m then BRDViewer._flip_layer (shape_layer sh) else shape_layer sh.

(** The world points the viewer draws for one shape. *)
Definition draw_points (e : Element.t) (prot angle : R) (m : bool)
    (visible_layers : gset Z) (sh : shape) : list point :=
  BRDViewer.draw_shape e prot angle m visible_layers sh ≫= drawn_points.

(** The centre of the box spanned by two points. *)
Definition bbox_centre (p1 p2 : point) : point :=
  ((Rmin p1.1 p2.1 + Rmax p1.1 p2.1) / 2, (Rmin p1.2 p2.2 + Rmax p1.2 p2.2) / 2).

Definition minus_point (c p : point) : point := (p.1 - c.1, p.2 - c.2).

(** Closed form of [draw_points] for a visible shape. *)
Definition render_points (e : Element.t) (angle : R) (m : bool) (sh : shape)
  : list point :=
  match sh with
  | SRect r =>
      let c1 := mirror_if m (Rect.x1 r, Rect.y1 r) in
      let c2 := mirror_if m (Rect.x2 r, Rect.y2 r) in
      place e angle false <$> (minus_point (bbox_centre c1 c2) <$> bbox_corners c1 c2)
  | _ => place e angle m <$> local_points sh
  end.

(** The points a placement contributes: its position, then the shapes of
    its package (none when the package is not in the table) put in place -
    mirrored when the descriptor holds an 'M', rotated by the angle of the
    descriptor and moved to the position of the placement. *)
Definition element_points (packages : gmap string (list shape))
    (e : Element.t) : list point :=
  position e ::
  match EagleParser._parse_rot (Element.rot e) with
  | Py.Ok a =>
      default [] (packages !! Element.package e)
        ≫= shape_points e (Py.radians a) (Py.contains "M" (Element.rot e))
  | _ => []
  end.

(** The points of a board: the end points of its wires, the centres of
    its vias, pads and surface-mount pads, what its placements contribute
    and the vertices of its polygons. *)
Definition observed_points (b : Board.t) : list point :=
  (Board.wires b ≫= fun w => [(Wire.x1 w, Wire.y1 w); (Wire.x2 w, Wire.y2 w)])
  ++ ((fun v => (Via.x v, Via.y v)) <$> Board.vias b)
  ++ ((fun p => (Pad.x p, Pad.y p)) <$> Board.pads b)
  ++ ((fun s => (SMD.x s, SMD.y s)) <$> Board.smds b)
  ++ (Board.elements b ≫= element_points (Board.packages b))
  ++ (Board.polygons b ≫= Polygon.vertices).

(** Every placement has a rotation descriptor [_parse_rot] can read. *)
Definition rotations_readable (b : Board.t) : Prop :=
  Forall (fun e => Py.is_Ok (EagleParser._parse_rot (Element.rot e)))
         (Board.elements b).

(** The rotation field of a rotation-bearing drawn shape. *)
Definition drawn_rot (d : BRDViewer.drawn) : option R :=
  match d with
  | BRDViewer.DrawPad p => Some (Pad.rot p)
  | BRDViewer.DrawSMD s => Some (SMD.rot s)
  | _ => None
  end.

(** The layer of what the viewer draws. *)
Definition drawn_layer (d : BRDViewer.drawn) : Z :=
  match d with
  | BRDViewer.DrawWire w => Wire.layer w
  | BRDViewer.DrawCircle c => Circle.layer c
  | BRDViewer.DrawRectPoints _ shape_layer => shape_layer
  | BRDViewer.DrawPolygon p => Polygon.layer p
  | BRDViewer.DrawPad p => Pad.layer p
  | BRDViewer.DrawSMD s => SMD.layer s
  end.

End Geometry.

(* ===================================================================== *)
(** * Concrete placements, shapes and documents *)
(* ===================================================================== *)

Module Examples.
Local Open Scope R_scope.

(** A placement at the origin, mirrored and turned by 90 degrees. *)
Definition e_MR90 : Element.t := Element.mk "U1" "" "" "P" 0 0 "MR90".

(** A pad one unit right of the package origin, on the top copper layer. *)
Definition pad_east : Pad.t := Pad.mk "1" 1 0 0 0 0 0 "round" 1 0.

(** An unrotated, unmirrored placement at (10, 10). *)
Definition e_R0 : Element.t := Element.mk "U2" "" "" "P" 10 10 "R0".

(** The same placement, mirrored. *)
Definition e_MR0 : Element.t := Element.mk "U2" "" "" "P" 10 10 "MR0".

(** A rectangle away from the package origin, on layer 21. *)
Definition rect_off : Rect.t := Rect.mk 1 1 3 2 21 0.

(** [<pad name="1" x="0" y="0" drill="0.8" rot=.../>] *)
Definition pad_xml (rot : string) : ET.element :=
  ET.Node "pad" [("name", "1"); ("x", "0"); ("y", "0"); ("drill", "0.8");
                 ("rot", rot)] None [].

(** [<smd name="1" x="0" y="0" dx="1" dy="2" layer="1" rot=.../>] *)
Definition smd_xml (rot : string) : ET.element :=
  ET.Node "smd" [("name", "1"); ("x", "0"); ("y", "0"); ("dx", "1");
                 ("dy", "2"); ("layer", "1"); ("rot", rot)] None [].

(** [<rectangle x1="1" y1="1" x2="3" y2="2" layer="21" rot=.../>] *)
Definition rect_xml (rot : string) : ET.element :=
  ET.Node "rectangle" [("x1", "1"); ("y1", "1"); ("x2", "3"); ("y2", "2");
                       ("layer", "21"); ("rot", rot)] None [].

(** [<text x="0" y="0" layer="21" rot=...>U1</text>] *)
Definition text_xml (rot : string) : ET.element :=
  ET.Node "text" [("x", "0"); ("y", "0"); ("layer", "21"); ("rot", rot)]
          (Some "U1") [].

(** A board file with one placement and nothing else:
    [<eagle><drawing><board><elements>
       <element name="U1" package="P" x="1" y="2" rot=.../>
     </elements></board></drawing></eagle>] *)
Definition one_element_doc (rot : string) : ET.element :=
  ET.Node "eagle" [] None
    [ET.Node "drawing" [] None
       [ET.Node "board" [] None
          [ET.Node "elements" [] None
             [ET.Node "element"
                [("name", "U1"); ("package", "P"); ("x", "1"); ("y", "2");
                 ("rot", rot)] None []]]]].

(** The board that reaches [_compute_bounds] when [one_element_doc rot] is
    parsed: that one placement and nothing else. *)
Definition one_element_board (rot : string) : Board.t :=
  Board.mk ∅ [] [] [] [] [Element.mk "U1" "" "" "P" 1 2 rot] [] [] ∅ None.

Definition vertex_xml (x y : string) : ET.element :=
  ET.Node "vertex" [("x", x); ("y", y)] None [].

(** A triangle [<polygon layer=... width="0.2">] with three vertices. *)
Definition triangle_xml (layer : string) : ET.element :=
  ET.Node "polygon" [("layer", layer); ("width", "0.2")] None
          [vertex_xml "0" "0"; vertex_xml "4" "0"; vertex_xml "0" "3"].

Definition wire_xml (x1 y1 x2 y2 layer : string) : ET.element :=
  ET.Node "wire" [("x1", x1); ("y1", y1); ("x2", x2); ("y2", y2);
                  ("width", "0.2"); ("layer", layer)] None [].

(** A package with one shape of each kind. *)
Definition package_xml : ET.element :=
  ET.Node "package" [("name", "P")] None
    [wire_xml "-1" "-1" "1" "-1" "21"; pad_xml "R90"; smd_xml "R0";
     ET.Node "circle" [("x", "0"); ("y", "0"); ("radius", "2");
                       ("width", "0.1"); ("layer", "21")] None [];
     rect_xml "R0"; triangle_xml "21"].

(** A small board: one layer, an outline triangle and a wire in [plain], the
    package above in a library, one mirrored placement of it, and a signal
    GND with a wire, a via, a copper triangle and a triangle on the outline
    layer. *)
Definition board_xml : ET.element :=
  ET.Node "eagle" [] None
    [ET.Node "drawing" [] None
       [ET.Node "layers" [] None
          [ET.Node "layer" [("number", "1"); ("name", "Top"); ("color", "4")]
                   None []];
        ET.Node "board" [] None
          [ET.Node "plain" [] None
             [triangle_xml "20"; wire_xml "0" "0" "50" "0" "20"];
           ET.Node "libraries" [] None
             [ET.Node "library" [("name", "lib")] None
                [ET.Node "packages" [] None [package_xml]]];
           ET.Node "elements" [] None
             [ET.Node "element"
                [("name", "U1"); ("library", "lib"); ("package", "P");
                 ("x", "10"); ("y", "10"); ("rot", "MR90")] None []];
           ET.Node "signals" [] None
             [ET.Node "signal" [("name", "GND")] None
                [wire_xml "0" "5" "20" "5" "1";
                 ET.Node "via" [("x", "20"); ("y", "5"); ("drill", "0.4")] None [];
                 triangle_xml "1"; triangle_xml "20"]]]]].

(** Two libraries that each declare a package named P, the first with a
    wire, the second with a circle:
    [<eagle><drawing><board><libraries>
       <library name="a"><packages><package name="P">
         <wire x1="0" y1="0" x2="1" y2="0" width="0.2" layer="21"/>
       </package></packages></library>
       <library name="b"><packages><package name="P">
         <circle x="0" y="0" radius="2" width="0.1" layer="21"/>
       </package></packages></library>
     </libraries></board></drawing></eagle>] *)
Definition twin_packages_doc : ET.element :=
  ET.Node "eagle" [] None
    [ET.Node "drawing" [] None
       [ET.Node "board" [] None
          [ET.Node "libraries" [] None
             [ET.Node "library" [("name", "a")] None
                [ET.Node "packages" [] None
                   [ET.Node "package" [("name", "P")] None
                      [wire_xml "0" "0" "1" "0" "21"]]];
              ET.Node "library" [("name", "b")] None
                [ET.Node "packages" [] None
                   [ET.Node "package" [("name", "P")] None
                      [ET.Node "circle"
                         [("x", "0"); ("y", "0"); ("radius", "2");
                          ("width", "0.1"); ("layer", "21")] None []]]]]]]].

(** The board a source parses to (the empty board if [parse] returns
    none). *)
Definition board_of (src : source) : Board.t :=
  match EagleParser.parse src with
  | Returns b => b
  | _ => Board.empty
  end.

(** A board with one outline wire and one mirrored placement of a package
    that holds a single pad. *)
Definition bounds_board : Board.t :=
  Board.mk ∅ [Wire.mk 0 0 50 0 (2 / 10) 20 "plain" ""] [] [] []
           [Element.mk "U1" "" "lib" "P" 10 10 "MR90"] [] []
           {[ "P" := [SPad pad_east] ]} None.

(** Whether [parse] returned a board. *)
Definition returned (o : outcome) : bool :=
  match o with
  | Returns _ => true
  | _ => false
  end.

(** A viewer in measure mode that holds two measured points already. *)
Definition measuring : BRDViewer.self_t :=
  BRDViewer.Self None None 5 100 100 true [(1, 2); (3, 4)] None None None "" "".

(** A viewer that shows the board [b], loaded from an EAGLE file. *)
Definition viewing (b : Board.t) : BRDViewer.self_t :=
  BRDViewer.Self (Some b) (Some "demo.brd") 5 100 100 false [] None None None
                 "" "".


(** A viewer that shows [b] with text typed into the two search boxes. *)
Definition searching (b : Board.t) (search net_search : string)
  : BRDViewer.self_t :=
  BRDViewer.Self (Some b) (Some "demo.brd") 5 100 100 false [] None None None
                 search net_search.

End Examples.

(* ===================================================================== *)
(** * The document as the parser reads it *)
(* ===================================================================== *)

(** The root containers [parse] insists on. *)
Definition has_containers (src : source) : Prop :=
  exists root drawing brd,
    src = SrcTree root /\
    ET.find root "drawing" = Some drawing /\
    ET.find drawing "board" = Some brd.


(* ===================================================================== *)
(** * What the passes of the parser add to a board *)
(* ===================================================================== *)

(** The records a stretch of parsing appends to the board's lists, and the
    layers and packages it enters in the two tables, in order. *)
Module Delta.

Record t := mk
  { layers : list Layer.t;
    wires : list Wire.t;
    vias : list Via.t;
    pads : list Pad.t;
    smds : list SMD.t;
    elements : list Element.t;
    polygons : list Polygon.t;
    texts : list Text.t;
    packages : list (string * list shape) }.

Definition empty : t := mk [] [] [] [] [] [] [] [] [].

Definition app (d1 d2 : t) : t :=
  mk (layers d1 ++ layers d2) (wires d1 ++ wires d2) (vias d1 ++ vias d2)
     (pads d1 ++ pads d2) (smds d1 ++ smds d2) (elements d1 ++ elements d2)
     (polygons d1 ++ polygons d2) (texts d1 ++ texts d2)
     (packages d1 ++ packages d2).

Definition concat (l : list t) : t := fold_right app empty l.

Definition enter_layers (ls : list Layer.t) (m : gmap Z Layer.t) : gmap Z Layer.t :=
  fold_left (fun m ly => <[Layer.number ly := ly]> m) ls m.

Definition enter_packages (ps : list (string * list shape))
    (m : gmap string (list shape)) : gmap string (list shape) :=
  fold_left (fun m kv => <[kv.1 := kv.2]> m) ps m.

(** The board after the additions. *)
Definition extend (b : Board.t) (d : t) : Board.t :=
  Board.mk (enter_layers (layers d) (Board.layers b))
           (Board.wires b ++ wires d)
           (Board.vias b ++ vias d)
           (Board.pads b ++ pads d)
           (Board.smds b ++ smds d)
           (Board.elements b ++ elements d)
           (Board.polygons b ++ polygons d)
           (Board.texts b ++ texts d)
           (enter_packages (packages d) (Board.packages b))
           (Board.bounds b).

Definition of_layers (l : list Layer.t) : t := mk l [] [] [] [] [] [] [] [].
Definition of_wires (l : list Wire.t) : t := mk [] l [] [] [] [] [] [] [].
Definition of_vias (l : list Via.t) : t := mk [] [] l [] [] [] [] [] [].
Definition of_pads (l : list Pad.t) : t := mk [] [] [] l [] [] [] [] [].
Definition of_smds (l : list SMD.t) : t := mk [] [] [] [] l [] [] [] [].
Definition of_elements (l : list Element.t) : t := mk [] [] [] [] [] l [] [] [].
Definition of_polygons (l : list Polygon.t) : t := mk [] [] [] [] [] [] l [] [].
Definition of_texts (l : list Text.t) : t := mk [] [] [] [] [] [] [] l [].
Definition of_packages (l : list (string * list shape)) : t :=
  mk [] [] [] [] [] [] [] [] l.

End Delta.

(** The document read declaratively: which records each part of the file
    contributes. *)
Module Doc.
Import EagleParser.

(** All the children [el.findall(t)] that a reader [f] accepts. *)
Definition read {A} (f : ET.element -> Py.result A) (el : ET.element) (t : string)
  : list A :=
  ET.findall el t ≫= (fun c => Py.result_list (f c)).

Definition pkg_wires (pkg : ET.element) : list Wire.t :=
  read (fun el => wire_of_xml el "package") pkg "wire".
Definition pkg_pads (pkg : ET.element) : list Pad.t :=
  read pad_of_xml pkg "pad".
Definition pkg_smds (pkg : ET.element) : list SMD.t :=
  read smd_of_xml pkg "smd".
Definition pkg_circles (pkg : ET.element) : list Circle.t :=
  read _add_circle_from_xml pkg "circle".
Definition pkg_rects (pkg : ET.element) : list Rect.t :=
  read _add_rect_from_xml pkg "rectangle".
Definition pkg_polygons (pkg : ET.element) : list Polygon.t :=
  read (fun el => polygon_of_xml el "") pkg "polygon".

(** The shape list stored for a package. *)
Definition pkg_shapes (pkg : ET.element) : list shape :=
  (SWire <$> pkg_wires pkg) ++ (SPad <$> pkg_pads pkg)
  ++ (SSMD <$> pkg_smds pkg) ++ (SCircle <$> pkg_circles pkg)
  ++ (SRect <$> pkg_rects pkg) ++ (SPolygon <$> pkg_polygons pkg).

Definition package_delta (pkg : ET.element) : Delta.t :=
  Delta.mk [] (pkg_wires pkg) [] (pkg_pads pkg) (pkg_smds pkg) [] [] []
           [(ET.get pkg "name" "", pkg_shapes pkg)].

(** The [<package>] elements of a library and of the whole board, in
    document order. *)
Definition library_packages (lib : ET.element) : list ET.element :=
  match ET.find lib "packages" with
  | None => []
  | Some packages => ET.findall packages "package"
  end.

Definition lib_packages (brd : ET.element) : list ET.element :=
  match ET.find brd "libraries" with
  | None => []
  | Some libraries => ET.findall libraries "library" ≫= library_packages
  end.

Definition libraries_delta (brd : ET.element) : Delta.t :=
  Delta.concat (package_delta <$> lib_packages brd).

Definition layers_delta (drawing : ET.element) : Delta.t :=
  match ET.find drawing "layers" with
  | None => Delta.empty
  | Some layers => Delta.of_layers (read layer_of_xml layers "layer")
  end.

Definition plain_delta (brd : ET.element) : Delta.t :=
  match ET.find brd "plain" with
  | None => Delta.empty
  | Some plain =>
      Delta.mk [] (read (fun el => wire_of_xml el "plain") plain "wire") []
               (read pad_of_xml plain "pad") (read smd_of_xml plain "smd") []
               (read (fun el => polygon_of_xml el "") plain "polygon")
               (read text_of_xml plain "text") []
  end.

Definition elements_delta (brd : ET.element) : Delta.t :=
  match ET.find brd "elements" with
  | None => Delta.empty
  | Some elements => Delta.of_elements (read element_of_xml elements "element")
  end.

Definition signal_delta (s : ET.element) : Delta.t :=
  let name := ET.get s "name" "" in
  Delta.mk []
    (read (fun el => (fun w => Wire.set_net w name) <$> wire_of_xml el "signal")
          s "wire")
    (read (fun el => via_of_xml el name) s "via") [] [] []
    (read (fun el => polygon_of_xml el name) s "polygon") [] [].

Definition signals_delta (brd : ET.element) : Delta.t :=
  match ET.find brd "signals" with
  | None => Delta.empty
  | Some signals => Delta.concat (signal_delta <$> ET.findall signals "signal")
  end.

(** The [<layer>] elements of the drawing and the [<signal>] elements of
    the board, in document order. *)
Definition layer_elements (drawing : ET.element) : list ET.element :=
  match ET.find drawing "layers" with
  | None => []
  | Some layers => ET.findall layers "layer"
  end.

Definition signal_elements (brd : ET.element) : list ET.element :=
  match ET.find brd "signals" with
  | None => []
  | Some signals => ET.findall signals "signal"
  end.

(** The layers the file declares readably, in document order. *)
Definition declared_layers (drawing : ET.element) : list Layer.t :=
  layer_elements drawing ≫= fun l => Py.result_list (layer_of_xml l).

(** Everything the five passes of [parse] add, in their order. *)
Definition doc_delta (drawing brd : ET.element) : Delta.t :=
  Delta.app (layers_delta drawing)
    (Delta.app (libraries_delta brd)
       (Delta.app (plain_delta brd)
          (Delta.app (elements_delta brd) (signals_delta brd)))).

(** The board that reaches [_compute_bounds]. *)
Definition parsed_board (drawing brd : ET.element) : Board.t :=
  Delta.extend Board.empty (doc_delta drawing brd).

(** The polygon classification rule. *)
Definition classified (p : Polygon.t) : Prop :=
  (Polygon.is_outline p = true <-> Polygon.layer p = 20) /\
  (Polygon.fill p = true <->
   Polygon.net p <> "" /\ Polygon.is_outline p = false).

End Doc.

(* ===================================================================== *)
(** * The characters of a number *)
(* ===================================================================== *)

(** A string that [float] accepts holds white space, signs, digits,
    underscores, a point and an exponent letter, and nothing else; in
    particular no mirror marker. *)
Section NumberCharacters.
Import Py.

Variable c : ascii.
Hypothesis c_not_space : is_space c = false.
Hypothesis c_not_digit : digit_of c = None.
Hypothesis c_not_minus : Ascii.eqb "-" c = false.
Hypothesis c_not_plus : Ascii.eqb "+" c = false.
Hypothesis c_not_underscore : Ascii.eqb "_" c = false.
Hypothesis c_not_point : Ascii.eqb "." c = false.
Hypothesis c_not_e : is_e c = false.

Lemma eqb_of_space (a : ascii) : is_space a = true -> Ascii.eqb a c = false.
Proof.
  intros Ha. destruct (Ascii.eqb_spec a c) as [->|]; [congruence | reflexivity].
Qed.

Lemma eqb_of_digit (a : ascii) (d : Z) :
  digit_of a = Some d -> Ascii.eqb a c = false.
Proof.
  intros Ha. destruct (Ascii.eqb_spec a c) as [->|]; [congruence | reflexivity].
Qed.

Lemma eqb_of_e (a : ascii) : is_e a = true -> Ascii.eqb a c = false.
Proof.
  intros Ha. destruct (Ascii.eqb_spec a c) as [->|]; [congruence | reflexivity].
Qed.

Lemma contains_lstrip_ws (s : string) :
  contains c (lstrip_ws s) = false -> contains c s = false.
Proof.
  induction s as [|a s IH]; [auto|]. cbn [lstrip_ws].
  destruct (is_space a) eqn:Ha; [|auto].
  intros H. cbn [contains]. rewrite (eqb_of_space a Ha), (IH H). reflexivity.
Qed.

Lemma contains_rstrip_ws (s : string) :
  contains c (rstrip_ws s) = false -> contains c s = false.
Proof.
  induction s as [|a s IH]; [auto|]. cbn [rstrip_ws].
  destruct (is_space a) eqn:Ha; cbn [andb].
  - destruct (String.eqb_spec (rstrip_ws s) "") as [Hr|Hr].
    + intros _. cbn [contains]. rewrite (eqb_of_space a Ha), IH; [reflexivity|].
      rewrite Hr. reflexivity.
    + cbn [contains]. intros H. apply orb_false_iff in H as [-> H].
      rewrite (IH H). reflexivity.
  - cbn [contains]. intros H. apply orb_false_iff in H as [-> H].
    rewrite (IH H). reflexivity.
Qed.

Lemma contains_parse_sign (s : string) :
  contains c (parse_sign s).2 = false -> contains c s = false.
Proof.
  destruct s as [|a s]; [auto|].
  destruct (Ascii.eqb_spec "-" a) as [<-|Hm].
  { cbn [parse_sign snd contains]. rewrite c_not_minus. auto. }
  destruct (Ascii.eqb_spec "+" a) as [<-|Hp].
  { cbn [parse_sign snd contains]. rewrite c_not_plus. auto. }
  destruct a as [[] [] [] [] [] [] [] []];
    try exact (fun H => H); congruence.
Qed.

Lemma contains_digit_run (n : nat) :
  forall (s : string) (acc cnt : Z),
    (String.length s <= n)%nat ->
    contains c (digit_run s acc cnt).2 = false -> contains c s = false.
Proof.
  induction n as [|n IH]; intros s acc cnt Hlen.
  - destruct s; [auto | cbn in Hlen; lia].
  - destruct s as [|a s]; [auto|]. cbn [digit_run].
    destruct (digit_of a) as [d|] eqn:Ha; [|auto].
    cbn [String.length] in Hlen.
    assert (Hs : forall acc' cnt',
               contains c (digit_run s acc' cnt').2 = false ->
               contains c (String a s) = false).
    { intros acc' cnt' H. cbn [contains].
      rewrite (eqb_of_digit a d Ha), (IH s acc' cnt'); [reflexivity|lia|exact H]. }
    destruct s as [|u s]; [apply Hs|].
    destruct (Ascii.eqb_spec "_" u) as [<-|Hu].
    + destruct s as [|b s].
      * exact (Hs _ _).
      * destruct (digit_of b) as [db|] eqn:Hb.
        -- unfold is_digit. rewrite Hb. intros H.
           cbn [contains]. rewrite (eqb_of_digit a d Ha), c_not_underscore.
           cbn [orb]. apply (IH _ _ _) in H; [exact H|cbn in *; lia].
        -- unfold is_digit. rewrite Hb. cbn [snd]. intros H.
           cbn [contains]. rewrite (eqb_of_digit a d Ha). exact H.
    + intros H. apply (Hs (10 * acc + d) (cnt + 1)).
      revert H. clear -Hu.
      destruct u as [[] [] [] [] [] [] [] []]; try exact (fun H => H);
        congruence.
Qed.

Lemma float_literal_chars (s : string) :
  is_Some (float_literal s) -> contains c s = false.
Proof.
  intros [v Hv]. apply contains_lstrip_ws, contains_rstrip_ws.
  fold (strip_ws s). unfold float_literal in Hv.
  set (t := strip_ws s) in *. clearbody t.
  apply contains_parse_sign.
  destruct (parse_sign t) as [neg t1]. cbn [snd].
  apply (contains_digit_run (String.length t1) t1 0 0 (le_n _)).
  destruct (digit_run t1 0 0) as [[m1 n1] t2]. cbn [snd].
  assert (Hrest : forall m2 n2 t3,
             (if n1 + n2 =? 0 then None
              else match t3 with
                   | EmptyString => Some (neg, m2, - n2)
                   | String e r =>
                       if is_e e
                       then let '(eneg, r) := parse_sign r in
                            let '(ex, n3, r) := digit_run r 0 0 in
                            if (n3 =? 0) || negb (r =? "")%string then None
                            else Some (neg, m2, (if eneg then - ex else ex) - n2)
                       else None
                   end) = Some v ->
             contains c t3 = false).
  { intros m2 n2 t3 H. destruct (n1 + n2 =? 0); [discriminate|].
    destruct t3 as [|e r]; [reflexivity|].
    destruct (is_e e) eqn:He; [|discriminate].
    cbn [contains]. rewrite (eqb_of_e e He). cbn [orb].
    apply contains_parse_sign.
    destruct (parse_sign r) as [eneg r1]. cbn [snd].
    apply (contains_digit_run (String.length r1) r1 0 0 (le_n _)).
    destruct (digit_run r1 0 0) as [[ex n3] r2]. cbn [snd].
    destruct (n3 =? 0); [discriminate|]. cbn [orb] in H.
    destruct (String.eqb_spec r2 "") as [Hr|Hr];
      [rewrite Hr; reflexivity | discriminate]. }
  destruct t2 as [|p t2].
  { exact (Hrest m1 0 EmptyString Hv). }
  destruct (Ascii.eqb_spec "." p) as [<-|Hp].
  - cbn [contains]. rewrite c_not_point. cbn [orb].
    apply (contains_digit_run (String.length t2) t2 m1 0 (le_n _)).
    cbv beta iota in Hv.
    destruct (digit_run t2 m1 0) as [[m2 n2] t3]. cbn [snd].
    exact (Hrest m2 n2 t3 Hv).
  - apply (Hrest m1 0). revert Hv. clear -Hp.
    destruct p as [[] [] [] [] [] [] [] []]; try exact (fun H => H); congruence.
Qed.

Lemma py_float_chars (s : string) :
  is_Ok (py_float s) -> contains c s = false.
Proof.
  intros [v Hv]. apply float_literal_chars. unfold py_float in Hv.
  destruct (not_a_real s); [discriminate|].
  destruct (float_literal s) as [x|]; [eauto | discriminate].
Qed.

End NumberCharacters.
(* ===================================================================== *)
(** * Rotation descriptors *)
(* ===================================================================== *)

Section Descriptor.
Import Py.

Lemma lstrip_absent (c : ascii) (s : string) :
  contains c s = false -> lstrip c s = s.
Proof.
  destruct s as [|a s]; simpl; [reflexivity|].
  intros H. apply orb_false_iff in H as [-> _]. reflexivity.
Qed.

(** The two copies of [_parse_rot] are the same function. *)
Lemma parse_rot_same (s : string) :
  BRDViewer._parse_rot s = EagleParser._parse_rot s.
Proof. reflexivity. Qed.

(** A descriptor without the marker, read again behind a marker, gives the
    opposite angle. *)
Lemma parse_rot_marked (s : string) (d : R) :
  contains "M" s = false ->
  EagleParser._parse_rot s = Ok d ->
  EagleParser._parse_rot (String "M" s) = Ok (- d)%R.
Proof.
  intros HM Hs.
  unfold EagleParser._parse_rot.
  change (lstrip "M" (String "M" s)) with (lstrip "M" s).
  rewrite (lstrip_absent _ _ HM).
  change (Ascii.eqb "M" "M") with true. cbv beta iota zeta.
  destruct s as [|a s].
  - simpl in Hs. injection Hs as <-. reflexivity.
  - unfold EagleParser._parse_rot in Hs.
    simpl in HM. apply orb_false_iff in HM as [Ha HM].
    rewrite Ha in Hs. cbv beta iota zeta in Hs.
    assert (Hl : lstrip "M" (String a s) = String a s).
    { simpl. rewrite Ha. reflexivity. }
    rewrite Hl in Hs.
    destruct (py_float (lstrip "R" (String a s))) as [r| |]; simpl in Hs |- *;
      [injection Hs as <-; reflexivity | discriminate | discriminate].
Qed.

Lemma contains_marked (s : string) : contains "M" (String "M" s) = true.
Proof. reflexivity. Qed.

(** [lstrip] leaves no stripped character in front. *)
Lemma lstrip_head (c : ascii) (s : string) :
  match lstrip c s with
  | String u _ => Ascii.eqb u c = false
  | EmptyString => True
  end.
Proof.
  induction s as [|a s IH]; [exact I|]. cbn [lstrip].
  destruct (Ascii.eqb a c) eqn:Ha; [exact IH | exact Ha].
Qed.

(** Stripping one character does not change whether another occurs. *)
Lemma contains_lstrip_other (c d : ascii) (s : string) :
  Ascii.eqb d c = false -> contains c (lstrip d s) = contains c s.
Proof.
  intros Hdc. induction s as [|a s IH]; [reflexivity|]. cbn [lstrip].
  destruct (Ascii.eqb_spec a d) as [->|]; [|reflexivity].
  cbn [contains]. rewrite Hdc, IH. reflexivity.
Qed.

(** No number holds the mirror marker. *)
Lemma py_float_no_marker (s : string) :
  is_Ok (py_float s) -> contains "M" s = false.
Proof. apply py_float_chars; reflexivity. Qed.

(** Reading a descriptor: [_parse_rot] reads the degree value [d] of the
    descriptor without its marker, and returns it negated exactly when the
    marker occurs in the descriptor. *)
Lemma parse_rot_degrees (s : string) (a : R) :
  EagleParser._parse_rot s = Ok a ->
  exists d,
    EagleParser._parse_rot (lstrip "M" s) = Ok d /\
    contains "M" (lstrip "M" s) = false /\
    a = (if contains "M" s then - d else d)%R.
Proof.
  destruct s as [|c s]; intros H.
  { injection H as <-. exists 0%R. auto. }
  unfold EagleParser._parse_rot in H.
  pose proof (lstrip_head "M" (String c s)) as Hhead.
  destruct (lstrip "M" (String c s)) as [|u t] eqn:Ht.
  - cbn [mbind result_bind] in H. injection H as <-.
    exists 0%R. split; [reflexivity|]. split; [reflexivity|].
    destruct (Ascii.eqb c "M"), (contains "M" (String c s));
      rewrite ?Ropp_0; reflexivity.
  - destruct (py_float (lstrip "R" (String u t))) as [rot| |] eqn:Hf;
      [|discriminate|discriminate].
    cbn [mbind result_bind] in H. injection H as <-.
    assert (HM : contains "M" (String u t) = false).
    { rewrite <- (contains_lstrip_other "M" "R") by reflexivity.
      apply py_float_no_marker. rewrite Hf. exists rot. reflexivity. }
    exists rot. split; [|split; [exact HM|]].
    + unfold EagleParser._parse_rot. rewrite Hhead.
      rewrite (lstrip_absent _ _ HM), Hf. reflexivity.
    + destruct (Ascii.eqb_spec c "M") as [->|Hc]; [reflexivity|].
      assert (Hs : lstrip "M" (String c s) = String c s).
      { cbn [lstrip]. destruct (Ascii.eqb_spec c "M"); [contradiction|reflexivity]. }
      rewrite <- Hs, Ht, HM. reflexivity.
Qed.

End Descriptor.

(* ===================================================================== *)
(** * Instancing: the bounds path *)
(* ===================================================================== *)

Section BoundsPath.
Import Py Geometry.
Local Open Scope R_scope.

(** A loop that appends one x and one y per item keeps the two lists the
    projections of one list of points. *)
Lemma fold_coords {A} (step : EagleParser.coords -> A -> EagleParser.coords)
    (f : A -> list point) :
  (forall pts a, step (pts.*1, pts.*2) a = ((pts ++ f a).*1, (pts ++ f a).*2)) ->
  forall (l : list A) (pts : list point),
    fold_left step l (pts.*1, pts.*2)
    = ((pts ++ l ≫= f).*1, (pts ++ l ≫= f).*2).
Proof.
  intros Hstep l. induction l as [|a l IH]; intros pts; simpl.
  - rewrite app_nil_r. reflexivity.
  - rewrite Hstep, IH, <- app_assoc. reflexivity.
Qed.

Lemma scan_shape_points (e : Element.t) (angle : R) (m : bool)
    (pts : list point) (sh : shape) :
  EagleParser.scan_shape e angle m (pts.*1, pts.*2) sh
  = ((pts ++ shape_points e angle m sh).*1, (pts ++ shape_points e angle m sh).*2).
Proof.
  destruct sh as [w|p|s|c|r|p]; unfold EagleParser.scan_shape, shape_points.
  - rewrite !fmap_app. destruct m; reflexivity.
  - rewrite !fmap_app. destruct m; reflexivity.
  - rewrite !fmap_app. destruct m; reflexivity.
  - rewrite !fmap_app. destruct m; reflexivity.
  - rewrite (fold_coords _ (fun p => [place e angle false p])).
    + f_equal; f_equal; f_equal; destruct m; reflexivity.
    + intros pts0 [rx ry]. rewrite !fmap_app. reflexivity.
  - rewrite (fold_coords _ (fun p => [place e angle m p])).
    + f_equal; f_equal; f_equal; simpl;
        induction (Polygon.vertices p); simpl; congruence.
    + intros pts0 [vx vy]. rewrite !fmap_app. destruct m; reflexivity.
Qed.

Lemma instance_points_closed (e : Element.t) (angle : R) (m : bool) (sh : shape) :
  instance_points e angle m sh = shape_points e angle m sh.
Proof.
  unfold instance_points.
  change (EagleParser.scan_shape e angle m ([], []) sh)
    with (EagleParser.scan_shape e angle m
            ((@nil point).*1, (@nil point).*2) sh).
  rewrite scan_shape_points, app_nil_l. cbn [fst snd].
  apply zip_fst_snd.
Qed.

End BoundsPath.

Section PlacedPoints.
Import Py Geometry.
Local Open Scope R_scope.

Lemma radians_opp (d : R) : radians (- d) = - radians d.
Proof. unfold radians. ring. Qed.

Lemma radians_0 : radians 0 = 0.
Proof. unfold radians. ring. Qed.

Lemma radians_90 : radians 90 = PI / 2.
Proof. unfold radians. field. Qed.

(** The box spanned by two points has the four coordinate combinations
    as its corners. *)
Lemma bbox_corners_spec (p1 p2 q : point) :
  q ∈ bbox_corners p1 p2 <->
  q ∈ [(p1.1, p1.2); (p1.1, p2.2); (p2.1, p1.2); (p2.1, p2.2)].
Proof.
  unfold bbox_corners, Rmin, Rmax.
  destruct (Rle_dec p1.1 p2.1), (Rle_dec p1.2 p2.2);
    rewrite !elem_of_cons, !elem_of_nil; tauto.
Qed.

Lemma place_mirror_if (e : Element.t) (angle : R) (m : bool) (p : point) :
  place e angle false (mirror_if m p) = place e angle m p.
Proof. reflexivity. Qed.

(** Every point the bounds scan adds for a shape is a local point of the
    shape, mirrored if asked, rotated and translated; and every local
    point is added so. *)
Lemma shape_points_spec (e : Element.t) (angle : R) (m : bool) (sh : shape)
    (q : point) :
  q ∈ shape_points e angle m sh <->
  exists p, p ∈ local_points sh /\ q = place e angle m p.
Proof.
  destruct sh as [w|p|s|c|r|p]; unfold shape_points;
    try (rewrite list_elem_of_fmap; split; intros (p0 & H1 & H2); eauto; fail).
  rewrite list_elem_of_fmap. split.
  - intros (p' & -> & Hp'). apply bbox_corners_spec in Hp'.
    unfold local_points, rect_corners.
    rewrite !elem_of_cons, elem_of_nil in Hp'.
    destruct Hp' as [->|[->|[->|[->|[]]]]].
    + exists (Rect.x1 r, Rect.y1 r). split; [set_solver | destruct m; reflexivity].
    + exists (Rect.x1 r, Rect.y2 r). split; [set_solver | destruct m; reflexivity].
    + exists (Rect.x2 r, Rect.y1 r). split; [set_solver | destruct m; reflexivity].
    + exists (Rect.x2 r, Rect.y2 r). split; [set_solver | destruct m; reflexivity].
  - intros (p & Hp & ->). exists (mirror_if m p). split; [reflexivity|].
    apply bbox_corners_spec.
    unfold local_points, rect_corners in Hp.
    rewrite !elem_of_cons, elem_of_nil in Hp.
    destruct Hp as [->|[->|[->|[->|[]]]]]; destruct m; simpl; set_solver.
Qed.

(** Rotating the mirrored point by the opposite angle is reflecting the
    rotated point. *)
Lemma place_mirrored_opp (e : Element.t) (theta : R) (p : point) :
  place e (- theta) true p
  = (Element.x e - (rotate theta p).1, Element.y e + (rotate theta p).2).
Proof.
  unfold place, translate, rotate, mirror_if, mirror_x, position.
  cbn [fst snd]. rewrite cos_neg, sin_neg. f_equal; ring.
Qed.

Lemma place_unmirrored (e : Element.t) (theta : R) (p : point) :
  place e theta false p
  = (Element.x e + (rotate theta p).1, Element.y e + (rotate theta p).2).
Proof. reflexivity. Qed.

Lemma reflect_about_involutive (x0 : R) (p : point) :
  reflect_about x0 (reflect_about x0 p) = p.
Proof.
  destruct p as [a b]. unfold reflect_about. cbn [fst snd]. f_equal. ring.
Qed.

Lemma place_reflect (e1 e2 : Element.t) (theta : R) (p : point) :
  position e1 = position e2 ->
  place e1 (- theta) true p = reflect_about (Element.x e2) (place e2 theta false p).
Proof.
  intros Hpos. injection Hpos as Hx Hy.
  rewrite place_mirrored_opp, place_unmirrored.
  unfold reflect_about. cbn [fst snd]. rewrite Hx, Hy. f_equal. ring.
Qed.

End PlacedPoints.

(* ===================================================================== *)
(** * Instancing: the drawing path *)
(* ===================================================================== *)

Section DrawPath.
Import Py Geometry.
Local Open Scope R_scope.

Lemma fold_snoc_map {A B} (step : list B -> A -> list B) (g : A -> B) :
  (forall acc a, step acc a = acc ++ [g a]) ->
  forall (l : list A) (acc : list B), fold_left step l acc = acc ++ (g <$> l).
Proof.
  intros Hstep l. induction l as [|a l IH]; intros acc; simpl.
  - rewrite app_nil_r. reflexivity.
  - rewrite Hstep, IH, <- app_assoc. reflexivity.
Qed.

(** A shape whose placed layer is hidden is not drawn. *)
Lemma draw_shape_hidden (e : Element.t) (prot angle : R) (m : bool)
    (vis : gset Z) (sh : shape) :
  placed_layer m sh ∉ vis -> BRDViewer.draw_shape e prot angle m vis sh = [].
Proof.
  intros Hv. unfold placed_layer in Hv.
  destruct sh; unfold BRDViewer.draw_shape; cbn [shape_layer Wire.layer] in *.
  - rewrite decide_False by exact Hv. reflexivity.
  - rewrite decide_True by exact Hv. reflexivity.
  - rewrite decide_True by exact Hv. reflexivity.
  - rewrite decide_False by exact Hv. reflexivity.
  - rewrite decide_False by exact Hv. reflexivity.
  - rewrite decide_False by exact Hv. reflexivity.
Qed.

(** The points drawn for a visible shape. *)
Lemma draw_points_visible (e : Element.t) (prot angle : R) (m : bool)
    (vis : gset Z) (sh : shape) :
  placed_layer m sh ∈ vis ->
  draw_points e prot angle m vis sh = render_points e angle m sh.
Proof.
  intros Hv. unfold placed_layer in Hv. unfold draw_points.
  destruct sh as [w|p|s|c|r|p]; unfold BRDViewer.draw_shape;
    cbn [shape_layer Wire.layer] in *.
  - rewrite decide_True by exact Hv. destruct m; reflexivity.
  - rewrite decide_False by (intros H; exact (H Hv)). destruct m; reflexivity.
  - rewrite decide_False by (intros H; exact (H Hv)). destruct m; reflexivity.
  - rewrite decide_True by exact Hv. destruct m; reflexivity.
  - rewrite decide_True by exact Hv.
    rewrite (fold_snoc_map _ (place e angle false))
      by (intros acc [px py]; reflexivity).
    unfold render_points. destruct m; simpl; rewrite ?app_nil_r; reflexivity.
  - rewrite decide_True by exact Hv.
    rewrite (fold_snoc_map _ (place e angle m))
      by (intros acc [vx vy]; destruct m; reflexivity).
    simpl. rewrite app_nil_r. reflexivity.
Qed.

Lemma draw_shape_visible_iff (e : Element.t) (prot angle : R) (m : bool)
    (vis : gset Z) (sh : shape) :
  BRDViewer.draw_shape e prot angle m vis sh <> [] <-> placed_layer m sh ∈ vis.
Proof.
  split.
  - intros Hne. destruct (decide (placed_layer m sh ∈ vis)) as [|Hn]; [done|].
    exfalso. apply Hne. apply draw_shape_hidden. exact Hn.
  - intros Hv. unfold placed_layer in Hv.
    destruct sh; unfold BRDViewer.draw_shape; cbn [shape_layer Wire.layer] in *.
    + rewrite decide_True by exact Hv. discriminate.
    + rewrite decide_False by (intros H; exact (H Hv)). discriminate.
    + rewrite decide_False by (intros H; exact (H Hv)). discriminate.
    + rewrite decide_True by exact Hv. discriminate.
    + rewrite decide_True by exact Hv. discriminate.
    + rewrite decide_True by exact Hv. discriminate.
Qed.

(** The rotation given to an instanced pad or surface-mount pad. *)
Lemma draw_pad_rot (e : Element.t) (prot angle : R) (m : bool)
    (vis : gset Z) (p : Pad.t) :
  placed_layer m (SPad p) ∈ vis ->
  exists p', BRDViewer.draw_shape e prot angle m vis (SPad p) = [BRDViewer.DrawPad p']
             /\ Pad.rot p' = Pad.rot p + (if m then - prot else prot).
Proof.
  intros Hv. unfold placed_layer in Hv. cbn [shape_layer] in Hv.
  unfold BRDViewer.draw_shape.
  rewrite decide_False by (intros H; exact (H Hv)).
  eexists. split; [reflexivity|]. destruct m; reflexivity.
Qed.

Lemma draw_smd_rot (e : Element.t) (prot angle : R) (m : bool)
    (vis : gset Z) (s : SMD.t) :
  placed_layer m (SSMD s) ∈ vis ->
  exists s', BRDViewer.draw_shape e prot angle m vis (SSMD s) = [BRDViewer.DrawSMD s']
             /\ SMD.rot s' = SMD.rot s + (if m then - prot else prot).
Proof.
  intros Hv. unfold placed_layer in Hv. cbn [shape_layer] in Hv.
  unfold BRDViewer.draw_shape.
  rewrite decide_False by (intros H; exact (H Hv)).
  eexists. split; [reflexivity|]. destruct m; reflexivity.
Qed.

End DrawPath.

(* ===================================================================== *)
(** * Instancing: angle and rotation field under the mirror marker *)
(* ===================================================================== *)

Section InstancingClaims.
Import Py Geometry Examples.
Local Open Scope R_scope.

Ltac same_points :=
  repeat match goal with
         | |- _ :: _ = _ :: _ => apply (f_equal2 cons)
         | |- (_, _) = (_, _) => apply (f_equal2 pair)
         | |- @nil _ = @nil _ => reflexivity
         | |- @eq R _ _ => lra
         end.

(** C1, as stated, fails: for the placement "MR90" at the origin and a pad at
    (1, 0) the bounds scan adds the point (0, 1), not
    position + R(90 degrees) (-1, 0) = (0, -1); 90 is the degree value of
    the descriptor. *)
Lemma C1_counterexample :
  EagleParser._parse_rot "R90" = Ok 90 /\
  exists a,
    EagleParser._parse_rot (Element.rot e_MR90) = Ok a /\
    instance_points e_MR90 (radians a) (contains "M" (Element.rot e_MR90))
                    (SPad pad_east)
    <> [translate (position e_MR90) (rotate (radians 90) (mirror_x (1, 0)))].
Proof.
  split; [reflexivity|].
  exists (- (90)). split; [reflexivity|].
  rewrite instance_points_closed.
  change (contains "M" (Element.rot e_MR90)) with true.
  unfold shape_points, local_points, place, translate, rotate, mirror_if,
    mirror_x, position, e_MR90, pad_east.
  cbn [fmap list_fmap fst snd Pad.x Pad.y Element.x Element.y].
  rewrite radians_opp, cos_neg, sin_neg, radians_90, cos_PI2, sin_PI2.
  intros H. injection H as _ Hy. lra.
Qed.

(** C1, amended: for a placement with the mirror marker in its descriptor,
    let [d] be the degree value of the descriptor, that is what [_parse_rot]
    reads from it once the marker is stripped.  The angle [_parse_rot] returns
    for the placement is [- d], and the points the bounds scan adds for a
    package shape are exactly position + R(radians (- d)) (-x, y) for the
    local points (x, y) of the shape: the x-coordinate alone is negated, then
    the rotation matrix for the NEGATED degree value is applied, then the
    position is added. *)
Theorem C1_mirrored_instancing (e : Element.t) (a : R) (sh : shape) :
  contains "M" (Element.rot e) = true ->
  EagleParser._parse_rot (Element.rot e) = Ok a ->
  exists d,
    EagleParser._parse_rot (lstrip "M" (Element.rot e)) = Ok d /\
    contains "M" (lstrip "M" (Element.rot e)) = false /\
    a = - d /\
    forall q : point,
      q ∈ instance_points e (radians a) true sh <->
      exists p, p ∈ local_points sh /\
                q = translate (position e) (rotate (radians (- d)) (mirror_x p)).
Proof.
  intros HM Ha.
  destruct (parse_rot_degrees _ _ Ha) as (d & Hd & Hno & Heq).
  rewrite HM in Heq. exists d.
  split; [exact Hd|]. split; [exact Hno|]. split; [exact Heq|].
  intros q. rewrite instance_points_closed, Heq. apply shape_points_spec.
Qed.

Lemma C1_mirrored_instancing_witness :
  exists d,
    EagleParser._parse_rot (lstrip "M" (Element.rot e_MR90)) = Ok d /\
    contains "M" (lstrip "M" (Element.rot e_MR90)) = false /\
    - (90) = - d /\
    forall q : point,
      q ∈ instance_points e_MR90 (radians (- (90))) true (SPad pad_east) <->
      exists p, p ∈ local_points (SPad pad_east) /\
                q = translate (position e_MR90)
                      (rotate (radians (- d)) (mirror_x p)).
Proof.
  apply (C1_mirrored_instancing e_MR90 (- (90)) (SPad pad_east));
    reflexivity.
Defined.

(** C2, as stated, fails: under the placement "MR90" (degree value 90,
    mirrored) a pad of rotation 0 is drawn with rotation 0 + 90, not
    0 - 90. *)
Lemma C2_counterexample :
  EagleParser._parse_rot "R90" = Ok 90 /\
  contains "M" (Element.rot e_MR90) = true /\
  exists p',
    BRDViewer._draw_element_shapes
      (Board.set_packages Board.empty {[ "P" := [SPad pad_east] ]})
      e_MR90 {[ 16%Z ]}
    = Ok [BRDViewer.DrawPad p'] /\
    Pad.rot p' <> Pad.rot pad_east - 90.
Proof.
  split; [reflexivity|]. split; [reflexivity|].
  destruct (draw_pad_rot e_MR90 (- (90)) (radians (- (90))) true {[ 16%Z ]} pad_east)
    as (p' & Hdraw & Hrot).
  { unfold placed_layer. cbn [shape_layer pad_east Pad.layer].
    change (BRDViewer._flip_layer 1) with 16%Z. set_solver. }
  exists p'. split.
  - unfold BRDViewer._draw_element_shapes.
    cbn [Board.packages Board.set_packages Element.package e_MR90].
    rewrite lookup_singleton_eq.
    change (BRDViewer._parse_rot (Element.rot e_MR90)) with (Ok (- (90))).
    change (contains "M" (Element.rot e_MR90)) with true.
    cbn [mbind result_bind default Datatypes.id map concat].
    rewrite Hdraw. reflexivity.
  - rewrite Hrot. cbn [pad_east Pad.rot]. lra.
Qed.

(** C2, amended: let [a] be what [_parse_rot] returns for the placement's
    descriptor and [d] the degree value of the descriptor (what
    [_parse_rot] reads from it once the marker is stripped); [a] is [d] for
    an unmirrored placement and [- d] for a mirrored one.  A visible pad or
    surface-mount pad is drawn with rotation [shape.rot + a] when unmirrored
    and [shape.rot - a] when mirrored, which is [shape.rot + d] in both
    cases. *)
Theorem C2_instanced_rotation (e : Element.t) (a : R) (vis : gset Z) :
  BRDViewer._parse_rot (Element.rot e) = Ok a ->
  let m := contains "M" (Element.rot e) in
  exists d,
    EagleParser._parse_rot (lstrip "M" (Element.rot e)) = Ok d /\
    contains "M" (lstrip "M" (Element.rot e)) = false /\
    a = (if m then - d else d) /\
    (forall p : Pad.t,
        placed_layer m (SPad p) ∈ vis ->
        exists p',
          BRDViewer.draw_shape e a (radians a) m vis (SPad p)
          = [BRDViewer.DrawPad p'] /\
          Pad.rot p' = Pad.rot p + (if m then - a else a) /\
          Pad.rot p' = Pad.rot p + d) /\
    (forall q : SMD.t,
        placed_layer m (SSMD q) ∈ vis ->
        exists q',
          BRDViewer.draw_shape e a (radians a) m vis (SSMD q)
          = [BRDViewer.DrawSMD q'] /\
          SMD.rot q' = SMD.rot q + (if m then - a else a) /\
          SMD.rot q' = SMD.rot q + d).
Proof.
  intros Ha m. rewrite parse_rot_same in Ha.
  destruct (parse_rot_degrees _ _ Ha) as (d & Hd & Hno & Heq).
  fold m in Heq. exists d.
  split; [exact Hd|]. split; [exact Hno|]. split; [exact Heq|]. split.
  - intros p Hv.
    destruct (draw_pad_rot e a (radians a) m vis p Hv) as (p' & H1 & H2).
    exists p'. split; [exact H1|]. split; [exact H2|].
    rewrite H2, Heq. destruct m; ring.
  - intros q Hv.
    destruct (draw_smd_rot e a (radians a) m vis q Hv) as (q' & H1 & H2).
    exists q'. split; [exact H1|]. split; [exact H2|].
    rewrite H2, Heq. destruct m; ring.
Qed.

Lemma C2_instanced_rotation_witness :
  let m := contains "M" (Element.rot e_MR90) in
  exists d,
    EagleParser._parse_rot (lstrip "M" (Element.rot e_MR90)) = Ok d /\
    contains "M" (lstrip "M" (Element.rot e_MR90)) = false /\
    - (90) = (if m then - d else d) /\
    (forall p : Pad.t,
        placed_layer m (SPad p) ∈ ({[ 16%Z ]} : gset Z) ->
        exists p',
          BRDViewer.draw_shape e_MR90 (- (90)) (radians (- (90))) m
                               {[ 16%Z ]} (SPad p)
          = [BRDViewer.DrawPad p'] /\
          Pad.rot p' = Pad.rot p + (if m then - - (90) else - (90)) /\
          Pad.rot p' = Pad.rot p + d) /\
    (forall q : SMD.t,
        placed_layer m (SSMD q) ∈ ({[ 16%Z ]} : gset Z) ->
        exists q',
          BRDViewer.draw_shape e_MR90 (- (90)) (radians (- (90))) m
                               {[ 16%Z ]} (SSMD q)
          = [BRDViewer.DrawSMD q'] /\
          SMD.rot q' = SMD.rot q + (if m then - - (90) else - (90)) /\
          SMD.rot q' = SMD.rot q + d).
Proof.
  apply (C2_instanced_rotation e_MR90 (- (90)) {[ 16%Z ]}). reflexivity.
Defined.

End InstancingClaims.

(* ===================================================================== *)
(** * Mirroring is a reflection *)
(* ===================================================================== *)

Section Reflection.
Import Py Geometry.
Local Open Scope R_scope.

Lemma reflect_set (x0 : R) (lm lu : list point) :
  (forall q, q ∈ lm <-> exists u, u ∈ lu /\ q = reflect_about x0 u) ->
  forall q, q ∈ lm <-> reflect_about x0 q ∈ lu.
Proof.
  intros H q. rewrite H. split.
  - intros (u & Hu & ->). rewrite reflect_about_involutive. exact Hu.
  - intros Hq. exists (reflect_about x0 q). split; [exact Hq|].
    symmetry. apply reflect_about_involutive.
Qed.

(** Bounds path: the points of a mirrored placement are the reflections of
    the points of the unmirrored one. *)
Lemma shape_points_reflect (e_u e_m : Element.t) (theta : R) (sh : shape)
    (q : point) :
  position e_m = position e_u ->
  q ∈ shape_points e_m (- theta) true sh <->
  exists u, u ∈ shape_points e_u theta false sh /\ q = reflect_about (Element.x e_u) u.
Proof.
  intros Hpos. rewrite shape_points_spec. split.
  - intros (p & Hp & ->). exists (place e_u theta false p). split.
    + apply shape_points_spec. eauto.
    + apply place_reflect. exact Hpos.
  - intros (u & Hu & ->). apply shape_points_spec in Hu as (p & Hp & ->).
    exists p. split; [exact Hp|]. symmetry. apply place_reflect. exact Hpos.
Qed.

(** Drawing path, rectangle: the four drawn points of the mirrored
    placement are the reflections of those of the unmirrored one. *)
Lemma render_rect_reflect (e_u e_m : Element.t) (theta : R) (r : Rect.t)
    (q : point) :
  position e_m = position e_u ->
  q ∈ render_points e_m (- theta) true (SRect r) <->
  exists u, u ∈ render_points e_u theta false (SRect r)
            /\ q = reflect_about (Element.x e_u) u.
Proof.
  intros Hpos. injection Hpos as Hx Hy.
  unfold render_points, bbox_corners, bbox_centre, minus_point, mirror_if,
    mirror_x, place, translate, rotate, position, reflect_about.
  cbn [fst snd fmap list_fmap].
  rewrite <- !Ropp_Rmax, <- !Ropp_Rmin, Hx, Hy, cos_neg, sin_neg.
  generalize (Rmin (Rect.x1 r) (Rect.x2 r)) (Rmax (Rect.x1 r) (Rect.x2 r))
             (Rmin (Rect.y1 r) (Rect.y2 r)) (Rmax (Rect.y1 r) (Rect.y2 r))
             (cos theta) (sin theta) (Element.x e_u) (Element.y e_u).
  intros a b c d co si ex ey.
  split.
  - rewrite !elem_of_cons, !elem_of_nil.
    intros [->|[->|[->|[->|[]]]]]; eexists.
    + split; [apply list_elem_of_further, list_elem_of_further, list_elem_of_here|].
      cbn [mirror_if fst snd]; apply (f_equal2 pair); field.
    + split; [do 3 apply list_elem_of_further; apply list_elem_of_here|].
      cbn [mirror_if fst snd]; apply (f_equal2 pair); field.
    + split; [apply list_elem_of_here|].
      cbn [mirror_if fst snd]; apply (f_equal2 pair); field.
    + split; [apply list_elem_of_further, list_elem_of_here|].
      cbn [mirror_if fst snd]; apply (f_equal2 pair); field.
  - intros (u & Hu & ->). rewrite !elem_of_cons, !elem_of_nil in Hu.
    rewrite !elem_of_cons, !elem_of_nil.
    destruct Hu as [->|[->|[->|[->|[]]]]]; cbn [mirror_if fst snd].
    + right; right; left. apply (f_equal2 pair); field.
    + right; right; right; left. apply (f_equal2 pair); field.
    + left. apply (f_equal2 pair); field.
    + right; left. apply (f_equal2 pair); field.
Qed.

Lemma render_points_reflect (e_u e_m : Element.t) (theta : R) (sh : shape)
    (q : point) :
  position e_m = position e_u ->
  q ∈ render_points e_m (- theta) true sh <->
  exists u, u ∈ render_points e_u theta false sh
            /\ q = reflect_about (Element.x e_u) u.
Proof.
  intros Hpos.
  destruct sh as [w|p|s|c|r|p].
  - exact (shape_points_reflect e_u e_m theta (SWire w) q Hpos).
  - exact (shape_points_reflect e_u e_m theta (SPad p) q Hpos).
  - exact (shape_points_reflect e_u e_m theta (SSMD s) q Hpos).
  - exact (shape_points_reflect e_u e_m theta (SCircle c) q Hpos).
  - apply render_rect_reflect. exact Hpos.
  - exact (shape_points_reflect e_u e_m theta (SPolygon p) q Hpos).
Qed.

End Reflection.

Section ReflectionClaims.
Import Py Geometry Examples.
Local Open Scope R_scope.

Ltac same_points :=
  repeat match goal with
         | |- _ :: _ = _ :: _ => apply (f_equal2 cons)
         | |- (_, _) = (_, _) => apply (f_equal2 pair)
         | |- @nil _ = @nil _ => reflexivity
         | |- @eq R _ _ => lra
         end.

(** C3, at the failing input: the rectangle (1,1)-(3,2) of a package under
    the mirrored placement at (10, 10) with descriptor "MR0".  The
    specification puts its corners at (P.x - x, P.y + y), the points (7,11)
    (7,12) (9,11) (9,12), and these are the coordinates the bounds scan
    appends.
    The viewer hands the points (9,9.5) (9,10.5) (11,9.5) (11,10.5) to the
    canvas: the corners taken relative to the rectangle's centre, with the
    rotated centre never added back.  The drawn corner (11, 10.5) is the
    image of no corner of the rectangle. *)
Theorem C3_mirrored_rect_drawn_off_formula :
  BRDViewer._parse_rot (Element.rot e_MR0) = Ok (- 0) /\
  contains "M" (Element.rot e_MR0) = true /\
  EagleParser.scan_shape e_MR0 (radians (- 0)) true ([], []) (SRect rect_off)
  = ([7; 7; 9; 9], [11; 12; 11; 12]) /\
  (forall q : point,
     q ∈ [(7, 11); (7, 12); (9, 11); ((9, 12) : point)] <->
     exists p, p ∈ rect_corners rect_off /\
               q = (Element.x e_MR0 - (rotate (radians 0) p).1,
                    Element.y e_MR0 + (rotate (radians 0) p).2)) /\
  BRDViewer.draw_shape e_MR0 (- 0) (radians (- 0)) true {[ 22%Z ]}
                       (SRect rect_off)
  = [BRDViewer.DrawRectPoints
       [(9, 19 / 2); (9, 21 / 2); (11, 19 / 2); (11, 21 / 2)] 22] /\
  ~ (exists p, p ∈ rect_corners rect_off /\
               ((11, 21 / 2) : point)
               = (Element.x e_MR0 - (rotate (radians 0) p).1,
                  Element.y e_MR0 + (rotate (radians 0) p).2)).
Proof.
  assert (Hm : Rmin (- (1)) (- (3)) = - (3) /\
               Rmax (- (1)) (- (3)) = - (1) /\
               Rmin 1 2 = 1 /\ Rmax 1 2 = 2).
  { rewrite Rmin_right, Rmax_left, Rmin_left, Rmax_right by lra. auto. }
  destruct Hm as (Ha & Hb & Hc & Hd).
  assert (Hang : radians (- 0) = 0) by (unfold radians; ring).
  assert (Hformula : forall p : point,
            p ∈ rect_corners rect_off ->
            (Element.x e_MR0 - (rotate (radians 0) p).1,
             Element.y e_MR0 + (rotate (radians 0) p).2)
            = (10 - p.1, 10 + p.2)).
  { intros p _. unfold rotate. rewrite radians_0, cos_0, sin_0.
    cbn [fst snd e_MR0 Element.x Element.y]. apply (f_equal2 pair); ring. }
  split; [reflexivity|]. split; [reflexivity|].
  split; [|split; [|split]].
  - unfold EagleParser.scan_shape, rect_off.
    cbn [negb Rect.x1 Rect.x2 Rect.y1 Rect.y2 fold_left e_MR0
         Element.x Element.y app].
    rewrite Ha, Hb, Hc, Hd, Hang, cos_0, sin_0.
    apply (f_equal2 pair); same_points.
  - intros q. split.
    + rewrite !elem_of_cons, elem_of_nil.
      intros [->|[->|[->|[->|[]]]]].
      * exists (3, 1). split; [unfold rect_corners, rect_off; set_solver|].
        rewrite Hformula by (unfold rect_corners, rect_off; set_solver).
        cbn [fst snd]. apply (f_equal2 pair); lra.
      * exists (3, 2). split; [unfold rect_corners, rect_off; set_solver|].
        rewrite Hformula by (unfold rect_corners, rect_off; set_solver).
        cbn [fst snd]. apply (f_equal2 pair); lra.
      * exists (1, 1). split; [unfold rect_corners, rect_off; set_solver|].
        rewrite Hformula by (unfold rect_corners, rect_off; set_solver).
        cbn [fst snd]. apply (f_equal2 pair); lra.
      * exists (1, 2). split; [unfold rect_corners, rect_off; set_solver|].
        rewrite Hformula by (unfold rect_corners, rect_off; set_solver).
        cbn [fst snd]. apply (f_equal2 pair); lra.
    + intros (p & Hp & ->). rewrite (Hformula p Hp).
      unfold rect_corners, rect_off in Hp.
      cbn [Rect.x1 Rect.x2 Rect.y1 Rect.y2] in Hp.
      rewrite !elem_of_cons, elem_of_nil in Hp.
      rewrite !elem_of_cons, elem_of_nil.
      destruct Hp as [->|[->|[->|[->|[]]]]]; cbn [fst snd].
      * right; right; left. apply (f_equal2 pair); lra.
      * right; right; right; left. apply (f_equal2 pair); lra.
      * left. apply (f_equal2 pair); lra.
      * right; left. apply (f_equal2 pair); lra.
  - unfold BRDViewer.draw_shape, rect_off.
    cbn [negb Rect.x1 Rect.x2 Rect.y1 Rect.y2 Rect.layer Rect.rot].
    change (BRDViewer._flip_layer 21) with 22%Z.
    rewrite decide_True by set_solver.
    cbn [fold_left app e_MR0 Element.x Element.y].
    rewrite Ha, Hb, Hc, Hd, Hang, cos_0, sin_0.
    f_equal. f_equal. same_points.
  - intros (p & Hp & Hq). rewrite (Hformula p Hp) in Hq.
    unfold rect_corners, rect_off in Hp.
    cbn [Rect.x1 Rect.x2 Rect.y1 Rect.y2] in Hp.
    rewrite !elem_of_cons, elem_of_nil in Hp.
    destruct Hp as [->|[->|[->|[->|[]]]]]; cbn [fst snd] in Hq;
      injection Hq as Hx Hy; lra.
Qed.

(** C5, at the failing input: for the rectangle (1,1)-(3,2) under the
    unrotated, unmirrored placement at (10, 10) the bounds scan adds the four
    transformed corners (11,11) (11,12) (13,11) (13,12), which is
    position + R(angle) corner, but the viewer draws the points
    (9,9.5) (9,10.5) (11,9.5) (11,10.5): the corners taken relative to the
    rectangle's centre, with the rotated centre never added back.  The two
    paths do not give the same set of points. *)
Theorem C5_rect_paths_disagree :
  BRDViewer._parse_rot (Element.rot e_R0) = Ok 0 /\
  contains "M" (Element.rot e_R0) = false /\
  instance_points e_R0 (radians 0) false (SRect rect_off)
    = place e_R0 (radians 0) false <$> rect_corners rect_off /\
  instance_points e_R0 (radians 0) false (SRect rect_off)
    = [(11, 11); (11, 12); (13, 11); (13, 12)] /\
  draw_points e_R0 0 (radians 0) false {[ 21%Z ]} (SRect rect_off)
    = [(9, 19 / 2); (9, 21 / 2); (11, 19 / 2); (11, 21 / 2)] /\
  ~ (forall q : point,
       q ∈ instance_points e_R0 (radians 0) false (SRect rect_off) <->
       q ∈ draw_points e_R0 0 (radians 0) false {[ 21%Z ]} (SRect rect_off)).
Proof.
  cut (BRDViewer._parse_rot (Element.rot e_R0) = Ok 0 /\
       contains "M" (Element.rot e_R0) = false /\
       instance_points e_R0 (radians 0) false (SRect rect_off)
         = place e_R0 (radians 0) false <$> rect_corners rect_off /\
       instance_points e_R0 (radians 0) false (SRect rect_off)
         = [(11, 11); (11, 12); (13, 11); (13, 12)] /\
       draw_points e_R0 0 (radians 0) false {[ 21%Z ]} (SRect rect_off)
         = [(9, 19 / 2); (9, 21 / 2); (11, 19 / 2); (11, 21 / 2)]).
  { intros (H1 & H2 & H3 & H4 & H5). repeat (split; [assumption|]).
    rewrite H4, H5. intros H. specialize (H (13, 12)).
    destruct H as [H _].
    assert (Hin : ((13, 12) : point) ∈ [(11, 11); (11, 12); (13, 11); ((13, 12) : point)])
      by (do 3 apply list_elem_of_further; apply list_elem_of_here).
    apply H in Hin. rewrite !elem_of_cons, elem_of_nil in Hin.
    destruct Hin as [Hq|[Hq|[Hq|[Hq|[]]]]]; injection Hq as Hx Hy; lra. }
  split; [reflexivity|]. split; [reflexivity|].
  assert (H13 : Rmin 1 3 = 1 /\ Rmax 1 3 = 3 /\ Rmin 1 2 = 1 /\ Rmax 1 2 = 2).
  { rewrite !Rmin_left, !Rmax_right by lra. auto. }
  destruct H13 as (Ha & Hb & Hc & Hd).
  split; [|split].
  - rewrite instance_points_closed.
    unfold shape_points, bbox_corners, rect_corners, mirror_if, rect_off.
    cbn [fst snd Rect.x1 Rect.x2 Rect.y1 Rect.y2].
    rewrite Ha, Hb, Hc, Hd. reflexivity.
  - rewrite instance_points_closed.
    unfold shape_points, bbox_corners, mirror_if, rect_off, place, translate,
      rotate, position, e_R0.
    cbn [fst snd Rect.x1 Rect.x2 Rect.y1 Rect.y2 fmap list_fmap
         Element.x Element.y].
    rewrite Ha, Hb, Hc, Hd, radians_0, cos_0, sin_0.
    cbn [mirror_if fst snd]. same_points.
  - rewrite draw_points_visible
      by (unfold placed_layer; cbn [shape_layer rect_off Rect.layer]; set_solver).
    unfold render_points, bbox_corners, bbox_centre, minus_point, mirror_if,
      rect_off, place, translate, rotate, position, e_R0.
    cbn [fst snd Rect.x1 Rect.x2 Rect.y1 Rect.y2 fmap list_fmap
         Element.x Element.y mirror_if].
    rewrite Ha, Hb, Hc, Hd, radians_0, cos_0, sin_0.
    cbn [mirror_if fst snd]. same_points.
Qed.

End ReflectionClaims.

(* ===================================================================== *)
(** * The readers of rotation strings and the fatal error *)
(* ===================================================================== *)

Section ParserFailures.
Import Py Examples.
Local Open Scope R_scope.

(** No number starts with the letter R. *)
Lemma py_float_R (s : string) : py_float (String "R" s) = Except.
Proof. reflexivity. Qed.

(** A rotation string that starts with MR never gets through the shape
    readers: stripping R first leaves the M in front, stripping M then
    leaves the R in front of the number. *)
Lemma shape_rot_of_MR (s : string) :
  EagleParser.shape_rot_of (String "M" (String "R" s)) = Except.
Proof. reflexivity. Qed.

Lemma shape_rot_of_R90 : EagleParser.shape_rot_of "R90" = Ok 90.
Proof. reflexivity. Qed.

(** C4, at the failing input: a pad, a surface-mount pad, a rectangle and a
    text with [rot="MR90"] are all skipped, the board staying as it was,
    though [_parse_rot] reads the same string as -90 and the same elements
    with [rot="R90"] are stored. *)
Theorem C4_mirrored_rot_is_skipped (b : Board.t) :
  EagleParser._parse_rot "MR90" = Ok (- (90)) /\
  EagleParser._add_pad_from_xml b (pad_xml "MR90") = Ok (b, None) /\
  EagleParser._add_smd_from_xml b (smd_xml "MR90") = Ok (b, None) /\
  EagleParser._add_rect_from_xml (rect_xml "MR90") = Except /\
  EagleParser._add_text_from_xml b (text_xml "MR90") = Ok b /\
  (exists p, EagleParser._add_pad_from_xml b (pad_xml "R90")
             = Ok (Board.set_pads b (Board.pads b ++ [p]), Some p)
             /\ Pad.rot p = 90) /\
  (exists s, EagleParser._add_smd_from_xml b (smd_xml "R90")
             = Ok (Board.set_smds b (Board.smds b ++ [s]), Some s)
             /\ SMD.rot s = 90) /\
  (exists r, EagleParser._add_rect_from_xml (rect_xml "R90") = Ok r
             /\ Rect.rot r = 90) /\
  (exists t, EagleParser._add_text_from_xml b (text_xml "R90")
             = Ok (Board.set_texts b (Board.texts b ++ [t]))
             /\ Text.rot t = 90).
Proof.
  repeat split; try reflexivity.
  - eexists. split; reflexivity.
  - eexists. split; reflexivity.
  - eexists. split; reflexivity.
  - eexists. split; reflexivity.
Qed.

(** [parse] raises its [RuntimeError] exactly when the file is unreadable or
    a root container is missing. *)
Lemma parse_runtime_error_iff (src : source) :
  (exists msg, EagleParser.parse src = Raises (RuntimeError msg)) <->
  ~ has_containers src.
Proof.
  unfold has_containers, EagleParser.parse. split.
  - intros (msg & H) (root & drawing & brd & -> & Hd & Hb).
    rewrite Hd, Hb in H.
    match type of H with
    | match ?r with _ => _ end = _ => destruct r; discriminate H
    end.
  - intros Hn. destruct src as [| |root]; [eauto | eauto |].
    destruct (ET.find root "drawing") as [drawing|] eqn:Hd; [|eauto].
    destruct (ET.find drawing "board") as [brd|] eqn:Hb; [|eauto].
    exfalso. apply Hn. eauto 6.
Qed.

End ParserFailures.

(* ===================================================================== *)
(** * The net list *)
(* ===================================================================== *)

Section NetIndex.

(** One collecting loop of [_populate_nets]. *)
Lemma collect_loop {A} (f : A -> string) (l : list A) (nets : gset string)
    (n : string) :
  n ∈ fold_left
        (fun nets x =>
           if negb (f x =? "")%string then nets ∪ {[ f x ]} else nets)
        l nets
  <-> n ∈ nets \/ (n <> "" /\ exists x, x ∈ l /\ f x = n).
Proof.
  revert nets. induction l as [|a l IH]; intros nets; simpl.
  - split; [auto|]. intros [H|(_ & x & Hx & _)]; [exact H|].
    apply elem_of_nil in Hx. destruct Hx.
  - rewrite IH. destruct (String.eqb_spec (f a) "") as [Ha|Ha]; simpl.
    + split.
      * intros [H|(Hn & x & Hx & Hf)]; [auto|].
        right. split; [exact Hn|]. exists x. split; [|exact Hf].
        apply elem_of_cons. auto.
      * intros [H|(Hn & x & Hx & Hf)]; [auto|].
        apply elem_of_cons in Hx as [->|Hx]; [congruence|].
        right. eauto.
    + rewrite elem_of_union, elem_of_singleton. split.
      * intros [[H| ->]|(Hn & x & Hx & Hf)]; [auto| |].
        -- right. split; [exact Ha|]. exists a. split; [|reflexivity].
           apply elem_of_cons. auto.
        -- right. split; [exact Hn|]. exists x. split; [|exact Hf].
           apply elem_of_cons. auto.
      * intros [H|(Hn & x & Hx & Hf)]; [auto|].
        apply elem_of_cons in Hx as [->|Hx]; [auto|].
        right. eauto.
Qed.

(** C9: a name is in the collected set exactly when it is not empty and is
    the net of some wire, via or polygon of the board; the empty name is
    never in it; and the list box shows exactly the collected names, each
    once. *)
Theorem C9_net_index (b : Board.t) :
  (forall n : string,
      n ∈ BRDViewer.collect_nets b <->
      n <> "" /\
      ((exists w, w ∈ Board.wires b /\ Wire.net w = n) \/
       (exists v, v ∈ Board.vias b /\ Via.net v = n) \/
       (exists p, p ∈ Board.polygons b /\ Polygon.net p = n))) /\
("" ∉ BRDViewer.collect_nets b) /\
  (forall n : string,
      n ∈ BRDViewer._populate_nets (Some b) <-> n ∈ BRDViewer.collect_nets b) /\
  NoDup (BRDViewer._populate_nets (Some b)).
Proof.
  assert (Hspec : forall n : string,
      n ∈ BRDViewer.collect_nets b <->
      n <> "" /\
      ((exists w, w ∈ Board.wires b /\ Wire.net w = n) \/
       (exists v, v ∈ Board.vias b /\ Via.net v = n) \/
       (exists p, p ∈ Board.polygons b /\ Polygon.net p = n))).
  { intros n. unfold BRDViewer.collect_nets.
    rewrite (collect_loop Polygon.net), (collect_loop Via.net),
            (collect_loop Wire.net), elem_of_empty.
    tauto. }
  split; [exact Hspec|]. split; [|split].
  - intros H. apply Hspec in H as [H _]. congruence.
  - intros n. unfold BRDViewer._populate_nets.
    rewrite merge_sort_Permutation. apply elem_of_elements.
  - unfold BRDViewer._populate_nets.
    rewrite merge_sort_Permutation. apply NoDup_elements.
Qed.

End NetIndex.

(* ===================================================================== *)
(** * The parser adds what the document declares *)
(* ===================================================================== *)

Section ParserModel.
Import Py EagleParser Doc.

Lemma extend_empty (b : Board.t) : Delta.extend b Delta.empty = b.
Proof.
  destruct b. unfold Delta.extend. cbn. rewrite !app_nil_r. reflexivity.
Qed.

Lemma extend_app (b : Board.t) (d1 d2 : Delta.t) :
  Delta.extend (Delta.extend b d1) d2 = Delta.extend b (Delta.app d1 d2).
Proof.
  unfold Delta.extend, Delta.app, Delta.enter_layers, Delta.enter_packages.
  cbn. rewrite !fold_left_app, !app_assoc. reflexivity.
Qed.

Lemma app_empty_l (d : Delta.t) : Delta.app Delta.empty d = d.
Proof. destruct d. reflexivity. Qed.

Lemma app_empty_r (d : Delta.t) : Delta.app d Delta.empty = d.
Proof. destruct d. unfold Delta.app. cbn. rewrite !app_nil_r. reflexivity. Qed.

Lemma gives_bind {A B} (r : result A) (a : A) (k : A -> result B) (c : B) :
  gives r a -> gives (k a) c -> gives (r ≫= k) c.
Proof.
  intros [->| ->] Hk; [left; reflexivity | exact Hk].
Qed.

Lemma gives_to {A} (r : result A) (a a' : A) :
  a = a' -> gives r a -> gives r a'.
Proof. intros <- H. exact H. Qed.

Lemma gives_fst {A B} (r : result (A * B)) (a : A) (b : B) :
  gives r (a, b) -> gives (fst <$> r) a.
Proof.
  intros [->| ->]; [left | right]; reflexivity.
Qed.

(** A loop whose every step adds something adds the lot. *)
Lemma fold_extend {A} (step : Board.t -> A -> result Board.t) (f : A -> Delta.t) :
  (forall b x, gives (step b x) (Delta.extend b (f x))) ->
  forall (l : list A) (b : Board.t),
    gives (foldM step l b) (Delta.extend b (Delta.concat (f <$> l))).
Proof.
  intros Hstep l. induction l as [|x l IH]; intros b; cbn [foldM].
  - right. rewrite extend_empty. reflexivity.
  - apply (gives_bind _ _ _ _ (Hstep b x)).
    cbn [fmap list_fmap Delta.concat fold_right].
    fold (Delta.concat (f <$> l)). rewrite <- extend_app. apply IH.
Qed.

(** The same for the loops of a package, which also build [shapes]. *)
Lemma fold_extend_shapes {A}
    (step : Board.t * list shape -> A -> result (Board.t * list shape))
    (f : A -> Delta.t) (g : A -> list shape) :
  (forall b sh x, gives (step (b, sh) x) (Delta.extend b (f x), sh ++ g x)) ->
  forall (l : list A) (b : Board.t) (sh : list shape),
    gives (foldM step l (b, sh))
          (Delta.extend b (Delta.concat (f <$> l)), sh ++ l ≫= g).
Proof.
  intros Hstep l. induction l as [|x l IH]; intros b sh; cbn [foldM].
  - right. rewrite extend_empty. cbn. rewrite app_nil_r. reflexivity.
  - apply (gives_bind _ _ _ _ (Hstep b sh x)).
    cbn [fmap list_fmap Delta.concat fold_right].
    fold (Delta.concat (f <$> l)).
    rewrite <- extend_app, bind_cons, app_assoc. apply IH.
Qed.

Lemma concat_fields (l : list Delta.t) :
  Delta.concat l
  = Delta.mk (l ≫= Delta.layers) (l ≫= Delta.wires) (l ≫= Delta.vias)
             (l ≫= Delta.pads) (l ≫= Delta.smds) (l ≫= Delta.elements)
             (l ≫= Delta.polygons) (l ≫= Delta.texts) (l ≫= Delta.packages).
Proof.
  induction l as [|d l IH]; [reflexivity|].
  cbn [Delta.concat fold_right]. fold (Delta.concat l). rewrite IH.
  reflexivity.
Qed.

Lemma bind_nil_fun {A B} (l : list A) : l ≫= (fun _ : A => @nil B) = [].
Proof. induction l; [reflexivity|]. rewrite bind_cons. exact IHl. Qed.

Lemma bind_ext_fun {A B} (f g : A -> list B) (l : list A) :
  (forall x, f x = g x) -> l ≫= f = l ≫= g.
Proof.
  intros H. induction l as [|x l IH]; [reflexivity|].
  rewrite !bind_cons, H, IH. reflexivity.
Qed.

Lemma bind_fmap_result_list {A B C} (k : B -> C) (f : A -> result B) (l : list A) :
  l ≫= (fun x => k <$> result_list (f x)) = k <$> (l ≫= (fun x => result_list (f x))).
Proof.
  induction l as [|x l IH]; [reflexivity|].
  rewrite !bind_cons, fmap_app, IH. reflexivity.
Qed.

Lemma concat_empty {A} (l : list A) :
  Delta.concat ((fun _ => Delta.empty) <$> l) = Delta.empty.
Proof.
  induction l as [|x l IH]; [reflexivity|]. cbn.
  fold (Delta.concat ((fun _ => Delta.empty) <$> l)).
  rewrite IH. reflexivity.
Qed.

Ltac concat_of :=
  let l := fresh "l" in let x := fresh "x" in let IH := fresh "IH" in
  intros l; induction l as [|x l IH]; [reflexivity|];
  cbn [fmap list_fmap Delta.concat fold_right];
  match goal with
  | |- Delta.app _ (fold_right Delta.app Delta.empty ?t) = _ =>
      change (fold_right Delta.app Delta.empty t) with (Delta.concat t)
  end;
  rewrite IH, bind_cons; reflexivity.

Lemma concat_of_layers {A} (f : A -> list Layer.t) :
  forall l, Delta.concat ((fun x => Delta.of_layers (f x)) <$> l)
            = Delta.of_layers (l ≫= f).
Proof. concat_of. Qed.

Lemma concat_of_wires {A} (f : A -> list Wire.t) :
  forall l, Delta.concat ((fun x => Delta.of_wires (f x)) <$> l)
            = Delta.of_wires (l ≫= f).
Proof. concat_of. Qed.

Lemma concat_of_vias {A} (f : A -> list Via.t) :
  forall l, Delta.concat ((fun x => Delta.of_vias (f x)) <$> l)
            = Delta.of_vias (l ≫= f).
Proof. concat_of. Qed.

Lemma concat_of_pads {A} (f : A -> list Pad.t) :
  forall l, Delta.concat ((fun x => Delta.of_pads (f x)) <$> l)
            = Delta.of_pads (l ≫= f).
Proof. concat_of. Qed.

Lemma concat_of_smds {A} (f : A -> list SMD.t) :
  forall l, Delta.concat ((fun x => Delta.of_smds (f x)) <$> l)
            = Delta.of_smds (l ≫= f).
Proof. concat_of. Qed.

Lemma concat_of_elements {A} (f : A -> list Element.t) :
  forall l, Delta.concat ((fun x => Delta.of_elements (f x)) <$> l)
            = Delta.of_elements (l ≫= f).
Proof. concat_of. Qed.

Lemma concat_of_polygons {A} (f : A -> list Polygon.t) :
  forall l, Delta.concat ((fun x => Delta.of_polygons (f x)) <$> l)
            = Delta.of_polygons (l ≫= f).
Proof. concat_of. Qed.

Lemma concat_of_texts {A} (f : A -> list Text.t) :
  forall l, Delta.concat ((fun x => Delta.of_texts (f x)) <$> l)
            = Delta.of_texts (l ≫= f).
Proof. concat_of. Qed.

(* ------------------------------------------------------------------- *)
(** ** The readers that append to the board *)

Ltac step_of b :=
  cbn [mbind result_bind fmap result_fmap fst snd result_list];
  first
    [ left; reflexivity
    | right; destruct b;
      unfold Delta.extend, Delta.enter_layers, Delta.enter_packages;
      cbn; rewrite ?app_nil_r; reflexivity ].

Lemma add_wire_extend (b : Board.t) (w : ET.element) (kind : string) :
  gives (fst <$> _add_wire_from_xml b w kind)
        (Delta.extend b (Delta.of_wires (result_list (wire_of_xml w kind)))).
Proof.
  unfold _add_wire_from_xml. destruct (wire_of_xml w kind); step_of b.
Qed.

Lemma add_via_extend (b : Board.t) (v : ET.element) (net : string) :
  gives (_add_via_from_xml b v net)
        (Delta.extend b (Delta.of_vias (result_list (via_of_xml v net)))).
Proof.
  unfold _add_via_from_xml. destruct (via_of_xml v net); step_of b.
Qed.

Lemma add_pad_extend (b : Board.t) (p : ET.element) :
  gives (fst <$> _add_pad_from_xml b p)
        (Delta.extend b (Delta.of_pads (result_list (pad_of_xml p)))).
Proof.
  unfold _add_pad_from_xml. destruct (pad_of_xml p); step_of b.
Qed.

Lemma add_smd_extend (b : Board.t) (s : ET.element) :
  gives (fst <$> _add_smd_from_xml b s)
        (Delta.extend b (Delta.of_smds (result_list (smd_of_xml s)))).
Proof.
  unfold _add_smd_from_xml. destruct (smd_of_xml s); step_of b.
Qed.

Lemma add_polygon_extend (b : Board.t) (p : ET.element) (net : string) :
  gives (fst <$> _add_polygon_from_xml b p net false)
        (Delta.extend b (Delta.of_polygons (result_list (polygon_of_xml p net)))).
Proof.
  unfold _add_polygon_from_xml. destruct (polygon_of_xml p net); step_of b.
Qed.

Lemma add_text_extend (b : Board.t) (t : ET.element) :
  gives (_add_text_from_xml b t)
        (Delta.extend b (Delta.of_texts (result_list (text_of_xml t)))).
Proof.
  unfold _add_text_from_xml. destruct (text_of_xml t); step_of b.
Qed.

Lemma set_last_net_snoc (ws : list Wire.t) (w : Wire.t) (name : string) :
  set_last_net (ws ++ [w]) name = ws ++ [Wire.set_net w name].
Proof.
  unfold set_last_net. rewrite reverse_snoc, reverse_involutive. reflexivity.
Qed.

Lemma signal_wire_extend (name : string) (b : Board.t) (w : ET.element) :
  gives (signal_wire name b w)
        (Delta.extend b
           (Delta.of_wires
              (result_list ((fun o => Wire.set_net o name)
                              <$> wire_of_xml w "signal")))).
Proof.
  unfold signal_wire, _add_wire_from_xml.
  destruct (wire_of_xml w "signal") as [o| |];
    cbn [mbind result_bind fmap result_fmap result_list].
  - cbn [Board.wires Board.set_wires]. rewrite set_last_net_snoc. step_of b.
  - step_of b.
  - left. reflexivity.
Qed.

(** The steps of the six loops over a package. *)
Lemma pkg_wire_extend (b : Board.t) (sh : list shape) (x : ET.element) :
  gives (pkg_wire (b, sh) x)
        (Delta.extend b (Delta.of_wires (result_list (wire_of_xml x "package"))),
         sh ++ (SWire <$> result_list (wire_of_xml x "package"))).
Proof.
  unfold pkg_wire, _add_wire_from_xml. cbn [fst snd].
  destruct (wire_of_xml x "package"); step_of b.
Qed.

Lemma pkg_pad_extend (b : Board.t) (sh : list shape) (x : ET.element) :
  gives (pkg_pad (b, sh) x)
        (Delta.extend b (Delta.of_pads (result_list (pad_of_xml x))),
         sh ++ (SPad <$> result_list (pad_of_xml x))).
Proof.
  unfold pkg_pad, _add_pad_from_xml. cbn [fst snd].
  destruct (pad_of_xml x); step_of b.
Qed.

Lemma pkg_smd_extend (b : Board.t) (sh : list shape) (x : ET.element) :
  gives (pkg_smd (b, sh) x)
        (Delta.extend b (Delta.of_smds (result_list (smd_of_xml x))),
         sh ++ (SSMD <$> result_list (smd_of_xml x))).
Proof.
  unfold pkg_smd, _add_smd_from_xml. cbn [fst snd].
  destruct (smd_of_xml x); step_of b.
Qed.

Lemma pkg_circle_extend (b : Board.t) (sh : list shape) (x : ET.element) :
  gives (pkg_circle (b, sh) x)
        (Delta.extend b Delta.empty,
         sh ++ (SCircle <$> result_list (_add_circle_from_xml x))).
Proof.
  unfold pkg_circle. cbn [fst snd].
  destruct (_add_circle_from_xml x); step_of b.
Qed.

Lemma pkg_rect_extend (b : Board.t) (sh : list shape) (x : ET.element) :
  gives (pkg_rect (b, sh) x)
        (Delta.extend b Delta.empty,
         sh ++ (SRect <$> result_list (_add_rect_from_xml x))).
Proof.
  unfold pkg_rect. cbn [fst snd].
  destruct (_add_rect_from_xml x); step_of b.
Qed.

(** A polygon of a package leaves the board alone. *)
Lemma pkg_polygon_extend (b : Board.t) (sh : list shape) (x : ET.element) :
  gives (pkg_polygon (b, sh) x)
        (Delta.extend b Delta.empty,
         sh ++ (SPolygon <$> result_list (polygon_of_xml x ""))).
Proof.
  unfold pkg_polygon, _add_polygon_from_xml. cbn [fst snd].
  destruct (polygon_of_xml x ""); step_of b.
Qed.

(* ------------------------------------------------------------------- *)
(** ** The passes *)

Lemma parse_package_extend (b : Board.t) (pkg : ET.element) :
  gives (parse_package b pkg) (Delta.extend b (package_delta pkg)).
Proof.
  unfold parse_package. cbv zeta.
  eapply gives_bind;
    [exact (fold_extend_shapes pkg_wire _ _ pkg_wire_extend _ b [])|].
  eapply gives_bind;
    [exact (fold_extend_shapes pkg_pad _ _ pkg_pad_extend _ _ _)|].
  eapply gives_bind;
    [exact (fold_extend_shapes pkg_smd _ _ pkg_smd_extend _ _ _)|].
  eapply gives_bind;
    [exact (fold_extend_shapes pkg_circle _ _ pkg_circle_extend _ _ _)|].
  eapply gives_bind;
    [exact (fold_extend_shapes pkg_rect _ _ pkg_rect_extend _ _ _)|].
  eapply gives_bind;
    [exact (fold_extend_shapes pkg_polygon _ _ pkg_polygon_extend _ _ _)|].
  right. f_equal. cbn [fst snd].
  rewrite !concat_empty, !extend_empty, concat_of_wires, concat_of_pads,
    concat_of_smds, !bind_fmap_result_list, !extend_app, app_nil_l,
    <- !app_assoc.
  unfold package_delta, pkg_shapes, pkg_wires, pkg_pads, pkg_smds,
    pkg_circles, pkg_rects, pkg_polygons, read.
  set (shapes := _ ++ _).
  destruct b. unfold Delta.extend, Delta.enter_layers, Delta.enter_packages.
  cbn. rewrite ?app_nil_r. reflexivity.
Qed.

Lemma parse_library_extend (b : Board.t) (lib : ET.element) :
  gives (parse_library b lib)
        (Delta.extend b (Delta.concat (package_delta <$> library_packages lib))).
Proof.
  unfold parse_library, library_packages.
  destruct (ET.find lib "packages") as [packages|].
  - apply fold_extend. exact parse_package_extend.
  - right. rewrite extend_empty. reflexivity.
Qed.

Lemma delta_app_assoc (d1 d2 d3 : Delta.t) :
  Delta.app d1 (Delta.app d2 d3) = Delta.app (Delta.app d1 d2) d3.
Proof. unfold Delta.app. cbn. rewrite !app_assoc. reflexivity. Qed.

Lemma concat_app (l1 l2 : list Delta.t) :
  Delta.concat (l1 ++ l2) = Delta.app (Delta.concat l1) (Delta.concat l2).
Proof.
  induction l1 as [|d l1 IH]; cbn.
  - symmetry. apply app_empty_l.
  - fold (Delta.concat (l1 ++ l2)). fold (Delta.concat l1).
    rewrite IH. apply delta_app_assoc.
Qed.

Lemma concat_bind {A} (f : A -> list ET.element) (l : list A) :
  Delta.concat ((fun x => Delta.concat (package_delta <$> f x)) <$> l)
  = Delta.concat (package_delta <$> (l ≫= f)).
Proof.
  induction l as [|x l IH]; [reflexivity|].
  rewrite bind_cons, fmap_app, concat_app, <- IH. reflexivity.
Qed.

Lemma parse_libraries_extend (b : Board.t) (brd : ET.element) :
  gives (_parse_libraries b brd) (Delta.extend b (libraries_delta brd)).
Proof.
  unfold _parse_libraries, libraries_delta, lib_packages.
  destruct (ET.find brd "libraries") as [libraries|].
  - rewrite <- concat_bind.
    apply (fold_extend parse_library _ parse_library_extend).
  - right. rewrite extend_empty. reflexivity.
Qed.

Ltac delta_norm :=
  f_equal;
  unfold Delta.app, Delta.of_layers, Delta.of_wires, Delta.of_vias,
    Delta.of_pads, Delta.of_smds, Delta.of_elements, Delta.of_polygons,
    Delta.of_texts, Delta.of_packages;
  cbn [Delta.layers Delta.wires Delta.vias Delta.pads Delta.smds
       Delta.elements Delta.polygons Delta.texts Delta.packages app];
  rewrite ?app_nil_r; reflexivity.

Lemma parse_layers_extend (b : Board.t) (drawing : ET.element) :
  gives (_parse_layers b drawing) (Delta.extend b (layers_delta drawing)).
Proof.
  unfold _parse_layers, layers_delta, read.
  destruct (ET.find drawing "layers") as [layers|].
  - rewrite <- concat_of_layers. apply fold_extend.
    intros b0 x. destruct (layer_of_xml x); step_of b0.
  - right. rewrite extend_empty. reflexivity.
Qed.

Lemma parse_plain_extend (b : Board.t) (brd : ET.element) :
  gives (_parse_plain b brd) (Delta.extend b (plain_delta brd)).
Proof.
  unfold _parse_plain, plain_delta, read.
  destruct (ET.find brd "plain") as [plain|];
    [|right; rewrite extend_empty; reflexivity].
  eapply gives_to; cycle 1.
  - eapply gives_bind;
      [exact (fold_extend _ _ (fun b0 x => add_wire_extend b0 x "plain") _ _)|].
    eapply gives_bind;
      [exact (fold_extend _ _ (fun b0 x => add_pad_extend b0 x) _ _)|].
    eapply gives_bind;
      [exact (fold_extend _ _ (fun b0 x => add_smd_extend b0 x) _ _)|].
    eapply gives_bind;
      [exact (fold_extend _ _ (fun b0 x => add_polygon_extend b0 x "") _ _)|].
    apply fold_extend. exact add_text_extend.
  - rewrite concat_of_wires, concat_of_pads, concat_of_smds,
      concat_of_polygons, concat_of_texts, !extend_app.
    delta_norm.
Qed.

Lemma parse_elements_extend (b : Board.t) (brd : ET.element) :
  gives (_parse_elements b brd) (Delta.extend b (elements_delta brd)).
Proof.
  unfold _parse_elements, elements_delta, read.
  destruct (ET.find brd "elements") as [elements|].
  - rewrite <- concat_of_elements. apply fold_extend.
    intros b0 x. destruct (element_of_xml x); step_of b0.
  - right. rewrite extend_empty. reflexivity.
Qed.

Lemma parse_signal_extend (b : Board.t) (s : ET.element) :
  gives (parse_signal b s) (Delta.extend b (signal_delta s)).
Proof.
  unfold parse_signal, signal_delta, read. cbv zeta.
  eapply gives_to; cycle 1.
  - eapply gives_bind;
      [exact (fold_extend _ _ (signal_wire_extend (ET.get s "name" "")) _ _)|].
    eapply gives_bind;
      [exact (fold_extend _ _
                (fun b0 x => add_via_extend b0 x (ET.get s "name" "")) _ _)|].
    apply fold_extend. intros b0 x. apply add_polygon_extend.
  - rewrite concat_of_wires, concat_of_vias, concat_of_polygons, !extend_app.
    delta_norm.
Qed.

Lemma parse_signals_extend (b : Board.t) (brd : ET.element) :
  gives (_parse_signals b brd) (Delta.extend b (signals_delta brd)).
Proof.
  unfold _parse_signals, signals_delta.
  destruct (ET.find brd "signals") as [signals|].
  - apply fold_extend. exact parse_signal_extend.
  - right. rewrite extend_empty. reflexivity.
Qed.

Ltac pass H :=
  destruct H as [->| ->]; [left; reflexivity|]; cbn [mbind result_bind].

(** [parse] on a tree with both root containers, wherever the model follows
    it. *)
Lemma parse_tree (root drawing brd : ET.element) :
  ET.find root "drawing" = Some drawing ->
  ET.find drawing "board" = Some brd ->
  parse (SrcTree root) = OutOfModel \/
  parse (SrcTree root)
  = match _compute_bounds (parsed_board drawing brd) with
    | Ok b => Returns b
    | Except => Raises ValueError
    | Beyond => OutOfModel
    end.
Proof.
  intros Hd Hb. unfold parse. rewrite Hd, Hb. cbv zeta.
  unfold parsed_board, doc_delta. rewrite !delta_app_assoc, <- !extend_app.
  pass (parse_layers_extend Board.empty drawing).
  match goal with
  | |- context [_parse_libraries ?b brd] => pass (parse_libraries_extend b brd)
  end.
  match goal with
  | |- context [_parse_plain ?b brd] => pass (parse_plain_extend b brd)
  end.
  match goal with
  | |- context [_parse_elements ?b brd] => pass (parse_elements_extend b brd)
  end.
  match goal with
  | |- context [_parse_signals ?b brd] => pass (parse_signals_extend b brd)
  end.
  right. reflexivity.
Qed.

(** A file within the model is parsed as its parsed board is measured. *)
Lemma parse_in_model (root drawing brd : ET.element) :
  ET.find root "drawing" = Some drawing ->
  ET.find drawing "board" = Some brd ->
  parse (SrcTree root) <> OutOfModel ->
  parse (SrcTree root)
  = match _compute_bounds (parsed_board drawing brd) with
    | Ok b => Returns b
    | Except => Raises ValueError
    | Beyond => OutOfModel
    end.
Proof.
  intros Hd Hb Hin.
  destruct (parse_tree root drawing brd Hd Hb) as [H|H];
    [contradiction | exact H].
Qed.

(** A returned board is the parsed board with its bounds set. *)
Lemma parse_returns (src : source) (b : Board.t) :
  parse src = Returns b ->
  exists root drawing brd c,
    src = SrcTree root /\
    ET.find root "drawing" = Some drawing /\
    ET.find drawing "board" = Some brd /\
    scan (parsed_board drawing brd) = Ok c /\
    b = Board.set_bounds (parsed_board drawing brd) (Some (bounds_of c)).
Proof.
  intros H. destruct src as [| |root]; try discriminate.
  destruct (ET.find root "drawing") as [drawing|] eqn:Hd;
    [|unfold parse in H; rewrite Hd in H; discriminate].
  destruct (ET.find drawing "board") as [brd|] eqn:Hb;
    [|unfold parse in H; rewrite Hd, Hb in H; discriminate].
  rewrite (parse_in_model root drawing brd Hd Hb) in H
    by (rewrite H; discriminate).
  unfold _compute_bounds in H.
  destruct (scan (parsed_board drawing brd)) as [c| |] eqn:Hs;
    try discriminate.
  cbn in H. injection H as <-.
  exists root, drawing, brd, c. auto.
Qed.

End ParserModel.

(* ===================================================================== *)
(** * What a parsed board holds *)
(* ===================================================================== *)

Section ParsedBoard.
Import Py EagleParser Doc.

Lemma libraries_delta_fields (brd : ET.element) :
  libraries_delta brd
  = Delta.mk [] (lib_packages brd ≫= pkg_wires) []
             (lib_packages brd ≫= pkg_pads) (lib_packages brd ≫= pkg_smds)
             [] [] []
             (lib_packages brd
                ≫= fun pkg => [(ET.get pkg "name" "", pkg_shapes pkg)]).
Proof.
  unfold libraries_delta. rewrite concat_fields, !list_fmap_bind.
  f_equal; exact (bind_nil_fun _).
Qed.

Lemma signals_delta_fields (brd : ET.element) :
  exists ws vs ps,
    signals_delta brd = Delta.mk [] ws vs [] [] [] ps [] [] /\
    (forall p, p ∈ ps ->
               exists el net, polygon_of_xml el net = Ok p).
Proof.
  unfold signals_delta.
  destruct (ET.find brd "signals") as [signals|].
  - rewrite concat_fields, !list_fmap_bind.
    do 3 eexists. split.
    + f_equal; exact (bind_nil_fun _).
    + intros p Hp. apply list_elem_of_bind in Hp as (s & Hp & _).
      cbn in Hp. unfold read in Hp.
      apply list_elem_of_bind in Hp as (el & Hp & _).
      exists el, (ET.get s "name" "").
      destruct (polygon_of_xml el (ET.get s "name" "")) as [p'| |]; cbn in Hp.
      * apply list_elem_of_singleton in Hp. congruence.
      * apply elem_of_nil in Hp. destruct Hp.
      * apply elem_of_nil in Hp. destruct Hp.
  - exists [], [], []. split; [reflexivity|].
    intros p Hp. apply elem_of_nil in Hp. destruct Hp.
Qed.

Lemma plain_delta_fields (brd : ET.element) :
  exists ws ps ss gs ts,
    plain_delta brd = Delta.mk [] ws [] ps ss [] gs ts [] /\
    (forall p, p ∈ gs -> exists el, polygon_of_xml el "" = Ok p).
Proof.
  unfold plain_delta.
  destruct (ET.find brd "plain") as [plain|].
  - do 5 eexists. split; [reflexivity|].
    intros p Hp. unfold read in Hp.
    apply list_elem_of_bind in Hp as (el & Hp & _).
    exists el. destruct (polygon_of_xml el "") as [p'| |]; cbn in Hp.
    + apply list_elem_of_singleton in Hp. congruence.
    + apply elem_of_nil in Hp. destruct Hp.
    + apply elem_of_nil in Hp. destruct Hp.
  - exists [], [], [], [], []. split; [reflexivity|].
    intros p Hp. apply elem_of_nil in Hp. destruct Hp.
Qed.

Lemma layers_delta_fields (drawing : ET.element) :
  exists ls, layers_delta drawing = Delta.of_layers ls.
Proof.
  unfold layers_delta. destruct (ET.find drawing "layers"); eexists; reflexivity.
Qed.

Lemma elements_delta_fields (brd : ET.element) :
  exists es, elements_delta brd = Delta.of_elements es.
Proof.
  unfold elements_delta. destruct (ET.find brd "elements"); eexists; reflexivity.
Qed.

(** The flat lists and the package table of the parsed board. *)
Lemma parsed_board_fields (drawing brd : ET.element) :
  let b := parsed_board drawing brd in
  Board.wires b = (lib_packages brd ≫= pkg_wires)
                  ++ Delta.wires (plain_delta brd)
                  ++ Delta.wires (signals_delta brd) /\
  Board.pads b = (lib_packages brd ≫= pkg_pads) ++ Delta.pads (plain_delta brd) /\
  Board.smds b = (lib_packages brd ≫= pkg_smds) ++ Delta.smds (plain_delta brd) /\
  Board.polygons b = Delta.polygons (plain_delta brd)
                     ++ Delta.polygons (signals_delta brd) /\
  Board.packages b
  = Delta.enter_packages
      (lib_packages brd ≫= fun pkg => [(ET.get pkg "name" "", pkg_shapes pkg)]) ∅.
Proof.
  unfold parsed_board, doc_delta.
  rewrite libraries_delta_fields.
  destruct (layers_delta_fields drawing) as (ls & ->).
  destruct (elements_delta_fields brd) as (es & ->).
  destruct (signals_delta_fields brd) as (ws & vs & ps & -> & _).
  destruct (plain_delta_fields brd) as (ws' & ps' & ss' & gs' & ts' & -> & _).
  cbn. rewrite ?app_nil_r. repeat split; reflexivity.
Qed.

(** A table filled from a list holds only entries of the list. *)
Lemma enter_packages_lookup (ps : list (string * list shape))
    (m : gmap string (list shape)) (name : string) (shapes : list shape) :
  Delta.enter_packages ps m !! name = Some shapes ->
  (name, shapes) ∈ ps \/ m !! name = Some shapes.
Proof.
  revert m. induction ps as [|[k v] ps IH]; intros m H; cbn in H.
  - right. exact H.
  - apply IH in H as [H|H].
    + left. apply elem_of_cons. auto.
    + destruct (decide (k = name)) as [->|Hne].
      * rewrite lookup_insert_eq in H. injection H as ->.
        left. apply elem_of_cons. auto.
      * rewrite lookup_insert_ne in H by exact Hne. auto.
Qed.

Lemma parsed_board_package (drawing brd : ET.element) (name : string)
    (shapes : list shape) :
  Board.packages (parsed_board drawing brd) !! name = Some shapes ->
  exists pkg, pkg ∈ lib_packages brd /\
              name = ET.get pkg "name" "" /\ shapes = pkg_shapes pkg.
Proof.
  intros H. destruct (parsed_board_fields drawing brd) as (_ & _ & _ & _ & Hp).
  rewrite Hp in H. apply enter_packages_lookup in H as [H|H].
  - apply list_elem_of_bind in H as (pkg & H & Hpkg).
    apply list_elem_of_singleton in H. injection H as -> ->. eauto.
  - rewrite lookup_empty in H. discriminate.
Qed.

(** Which shapes of a package are of which kind. *)
Lemma pkg_shapes_wire (pkg : ET.element) (w : Wire.t) :
  SWire w ∈ pkg_shapes pkg <-> w ∈ pkg_wires pkg.
Proof.
  unfold pkg_shapes. rewrite !elem_of_app, !list_elem_of_fmap. split.
  - intros [(x & Hx & Hin)|[(x & Hx & _)|[(x & Hx & _)|[(x & Hx & _)|[(x & Hx & _)|(x & Hx & _)]]]]];
      try discriminate. injection Hx as ->. exact Hin.
  - intros H. left. eauto.
Qed.

Lemma pkg_shapes_pad (pkg : ET.element) (p : Pad.t) :
  SPad p ∈ pkg_shapes pkg <-> p ∈ pkg_pads pkg.
Proof.
  unfold pkg_shapes. rewrite !elem_of_app, !list_elem_of_fmap. split.
  - intros [(x & Hx & _)|[(x & Hx & Hin)|[(x & Hx & _)|[(x & Hx & _)|[(x & Hx & _)|(x & Hx & _)]]]]];
      try discriminate. injection Hx as ->. exact Hin.
  - intros H. right. left. eauto.
Qed.

Lemma pkg_shapes_smd (pkg : ET.element) (s : SMD.t) :
  SSMD s ∈ pkg_shapes pkg <-> s ∈ pkg_smds pkg.
Proof.
  unfold pkg_shapes. rewrite !elem_of_app, !list_elem_of_fmap. split.
  - intros [(x & Hx & _)|[(x & Hx & _)|[(x & Hx & Hin)|[(x & Hx & _)|[(x & Hx & _)|(x & Hx & _)]]]]];
      try discriminate. injection Hx as ->. exact Hin.
  - intros H. right. right. left. eauto.
Qed.

Lemma pkg_shapes_polygon (pkg : ET.element) (p : Polygon.t) :
  SPolygon p ∈ pkg_shapes pkg <-> p ∈ pkg_polygons pkg.
Proof.
  unfold pkg_shapes. rewrite !elem_of_app, !list_elem_of_fmap. split.
  - intros [(x & Hx & _)|[(x & Hx & _)|[(x & Hx & _)|[(x & Hx & _)|[(x & Hx & _)|(x & Hx & Hin)]]]]];
      try discriminate. injection Hx as ->. exact Hin.
  - intros H. do 5 right. eauto.
Qed.

(** What [polygon_of_xml] builds obeys the classification rule and carries
    the net it was given. *)
Lemma polygon_of_xml_classified (el : ET.element) (net : string) (p : Polygon.t) :
  polygon_of_xml el net = Ok p -> classified p /\ Polygon.net p = net.
Proof.
  unfold polygon_of_xml. intros H.
  destruct (py_int _) as [layer| |]; [|discriminate|discriminate].
  destruct (py_float _) as [width| |]; [|discriminate|discriminate].
  destruct (vertices_of_xml _) as [verts| |]; [|discriminate|discriminate].
  cbn [mbind result_bind] in H.
  destruct (2 <? length verts)%nat; [|discriminate].
  injection H as <-. unfold classified. cbn. split; [split|reflexivity].
  - apply Z.eqb_eq.
  - rewrite andb_true_iff, !negb_true_iff, String.eqb_neq. reflexivity.
Qed.

End ParsedBoard.

(* ===================================================================== *)
(** * Polygons and package shapes of a parsed board *)
(* ===================================================================== *)

Section ParsedBoardClaims.
Import Py EagleParser Doc Examples.


Lemma returned_board_of (src : source) :
  returned (parse src) = true -> parse src = Returns (board_of src).
Proof.
  unfold board_of. destruct (parse src); [reflexivity | discriminate..].
Qed.


End ParsedBoardClaims.

(* ===================================================================== *)
(** * The bounds scan *)
(* ===================================================================== *)

Section Bounds.
Import Py Geometry EagleParser.
Local Open Scope R_scope.

Lemma bind_singleton_id {A} (l : list A) : l ≫= (fun x => [x]) = l.
Proof.
  induction l as [|x l IH]; [reflexivity|]. rewrite bind_cons, IH. reflexivity.
Qed.

Lemma fmap_as_bind {A B} (f : A -> B) (l : list A) :
  l ≫= (fun x => [f x]) = f <$> l.
Proof.
  induction l as [|x l IH]; [reflexivity|]. rewrite bind_cons, IH. reflexivity.
Qed.

(** The scan of one placement. *)
Lemma scan_element_points (packages : gmap string (list shape))
    (pts : list point) (e : Element.t) :
  is_Ok (_parse_rot (Element.rot e)) ->
  scan_element packages (pts.*1, pts.*2) e
  = Ok ((pts ++ element_points packages e).*1,
          (pts ++ element_points packages e).*2).
Proof.
  intros [a Ha]. unfold scan_element, element_points. rewrite Ha.
  cbn [mbind result_bind]. f_equal.
  change (pts.*1 ++ [Element.x e]) with (pts.*1 ++ [position e].*1).
  change (pts.*2 ++ [Element.y e]) with (pts.*2 ++ [position e].*2).
  rewrite <- !fmap_app.
  rewrite (fold_coords _ (shape_points e (radians a) (contains "M" (Element.rot e))))
    by (intros pts0 sh; apply scan_shape_points).
  rewrite <- app_assoc. reflexivity.
Qed.

Lemma scan_elements_points (packages : gmap string (list shape))
    (es : list Element.t) :
  Forall (fun e => is_Ok (_parse_rot (Element.rot e))) es ->
  forall pts : list point,
    scan_elements packages es (pts.*1, pts.*2)
    = Ok ((pts ++ es ≫= element_points packages).*1,
            (pts ++ es ≫= element_points packages).*2).
Proof.
  induction 1 as [|e es He _ IH]; intros pts; cbn [scan_elements].
  - rewrite app_nil_r. reflexivity.
  - rewrite (scan_element_points _ _ _ He). cbn [mbind result_bind].
    rewrite IH, bind_cons, <- app_assoc. reflexivity.
Qed.

(** The scan raises at the first placement whose descriptor is no number,
    the ones before it being readable. *)
Lemma scan_elements_fails (packages : gmap string (list shape))
    (es1 es2 : list Element.t) (e : Element.t) (acc : coords) :
  Forall (fun e => is_Ok (_parse_rot (Element.rot e))) es1 ->
  _parse_rot (Element.rot e) = Except ->
  scan_elements packages (es1 ++ e :: es2) acc = Except.
Proof.
  intros H He. revert acc.
  induction H as [|e1 es1 [a Ha] _ IH]; intros [xs ys]; cbn [app scan_elements].
  - unfold scan_element. rewrite He. reflexivity.
  - unfold scan_element at 1. rewrite Ha. cbn [mbind result_bind]. apply IH.
Qed.

(** When the scan of the placements raises, some descriptor is no
    number. *)
Lemma scan_elements_except (packages : gmap string (list shape))
    (es : list Element.t) (acc : coords) :
  scan_elements packages es acc = Except ->
  Exists (fun e => _parse_rot (Element.rot e) = Except) es.
Proof.
  revert acc. induction es as [|e es IH]; intros [xs ys]; cbn [scan_elements];
    [discriminate|].
  unfold scan_element at 1.
  destruct (_parse_rot (Element.rot e)) as [a| |] eqn:Ha;
    cbn [mbind result_bind].
  - intros H. apply Exists_cons_tl. exact (IH _ H).
  - intros _. apply Exists_cons_hd. exact Ha.
  - discriminate.
Qed.

(** With readable descriptors the scan returns the coordinates of the
    observed points. *)
Lemma scan_observed (b : Board.t) :
  rotations_readable b ->
  scan b = Ok ((observed_points b).*1, (observed_points b).*2).
Proof.
  intros Hrot. unfold scan, observed_points.
  change (@nil R, @nil R) with ((@nil point).*1, (@nil point).*2).
  rewrite (fold_coords _
             (fun w => [(Wire.x1 w, Wire.y1 w); (Wire.x2 w, Wire.y2 w)]))
    by (intros pts0 w; rewrite !fmap_app; reflexivity).
  rewrite (fold_coords _ (fun v => [(Via.x v, Via.y v)]))
    by (intros pts0 v; rewrite !fmap_app; reflexivity).
  rewrite (fold_coords _ (fun p => [(Pad.x p, Pad.y p)]))
    by (intros pts0 p; rewrite !fmap_app; reflexivity).
  rewrite (fold_coords _ (fun s => [(SMD.x s, SMD.y s)]))
    by (intros pts0 s; rewrite !fmap_app; reflexivity).
  rewrite (scan_elements_points _ _ Hrot). cbn [mbind result_bind].
  rewrite (fold_coords _ Polygon.vertices).
  - rewrite !fmap_as_bind, <- !app_assoc. reflexivity.
  - intros pts0 poly.
    rewrite (fold_coords _ (fun v => [v]))
      by (intros pts1 [vx vy]; rewrite !fmap_app; reflexivity).
    rewrite bind_singleton_id. reflexivity.
Qed.

(** [min] and [max] of a non-empty list. *)
Lemma py_min_le (l : list R) : forall x y, y ∈ x :: l -> py_min x l <= y.
Proof.
  unfold py_min. induction l as [|a l IH]; intros x y Hy; cbn [fold_left].
  - apply list_elem_of_singleton in Hy as ->. apply Rle_refl.
  - apply elem_of_cons in Hy as [->|Hy].
    + eapply Rle_trans; [apply IH, list_elem_of_here | apply Rmin_l].
    + apply elem_of_cons in Hy as [->|Hy].
      * eapply Rle_trans; [apply IH, list_elem_of_here | apply Rmin_r].
      * apply IH. apply list_elem_of_further. exact Hy.
Qed.

Lemma py_min_in (l : list R) : forall x, py_min x l ∈ x :: l.
Proof.
  unfold py_min. induction l as [|a l IH]; intros x; cbn [fold_left].
  - apply list_elem_of_here.
  - specialize (IH (Rmin x a)). apply elem_of_cons in IH as [IH|IH].
    + rewrite IH. unfold Rmin. destruct (Rle_dec x a).
      * apply list_elem_of_here.
      * apply list_elem_of_further, list_elem_of_here.
    + do 2 apply list_elem_of_further. exact IH.
Qed.

Lemma py_max_ge (l : list R) : forall x y, y ∈ x :: l -> y <= py_max x l.
Proof.
  unfold py_max. induction l as [|a l IH]; intros x y Hy; cbn [fold_left].
  - apply list_elem_of_singleton in Hy as ->. apply Rle_refl.
  - apply elem_of_cons in Hy as [->|Hy].
    + eapply Rle_trans; [apply Rmax_l | apply IH, list_elem_of_here].
    + apply elem_of_cons in Hy as [->|Hy].
      * eapply Rle_trans; [apply Rmax_r | apply IH, list_elem_of_here].
      * apply IH. apply list_elem_of_further. exact Hy.
Qed.

Lemma py_max_in (l : list R) : forall x, py_max x l ∈ x :: l.
Proof.
  unfold py_max. induction l as [|a l IH]; intros x; cbn [fold_left].
  - apply list_elem_of_here.
  - specialize (IH (Rmax x a)). apply elem_of_cons in IH as [IH|IH].
    + rewrite IH. unfold Rmax. destruct (Rle_dec x a).
      * apply list_elem_of_further, list_elem_of_here.
      * apply list_elem_of_here.
    + do 2 apply list_elem_of_further. exact IH.
Qed.

(** The rectangle computed from a non-empty list of points is tight. *)
Lemma bounds_of_tight (pts : list point) (minX minY maxX maxY : R) :
  pts <> [] ->
  bounds_of (pts.*1, pts.*2) = (minX, minY, maxX, maxY) ->
  (forall p, p ∈ pts -> minX <= p.1 <= maxX /\ minY <= p.2 <= maxY) /\
  (exists p, p ∈ pts /\ p.1 = minX) /\
  (exists p, p ∈ pts /\ p.2 = minY) /\
  (exists p, p ∈ pts /\ p.1 = maxX) /\
  (exists p, p ∈ pts /\ p.2 = maxY).
Proof.
  intros Hne H. destruct pts as [|p0 ps]; [congruence|].
  cbn [fmap list_fmap bounds_of] in H. injection H as <- <- <- <-.
  assert (Hin : forall (f : point -> R) (v : R),
             v ∈ f p0 :: (f <$> ps) -> exists p, p ∈ p0 :: ps /\ f p = v).
  { intros f v Hv. change (f p0 :: (f <$> ps)) with (f <$> p0 :: ps) in Hv.
    apply list_elem_of_fmap in Hv as (p & -> & Hp). eauto. }
  split; [|repeat split].
  - intros p Hp.
    pose proof (list_elem_of_fmap_2 fst _ _ Hp) as H1.
    pose proof (list_elem_of_fmap_2 snd _ _ Hp) as H2.
    cbn [fmap list_fmap] in H1, H2.
    repeat split;
      [apply py_min_le | apply py_max_ge | apply py_min_le | apply py_max_ge];
      assumption.
  - apply (Hin fst), py_min_in.
  - apply (Hin snd), py_min_in.
  - apply (Hin fst), py_max_in.
  - apply (Hin snd), py_max_in.
Qed.

(** Which points the scan observes. *)
Lemma observed_points_spec (b : Board.t) (p : point) :
  p ∈ observed_points b <->
  (exists w, w ∈ Board.wires b /\
             (p = (Wire.x1 w, Wire.y1 w) \/ p = (Wire.x2 w, Wire.y2 w))) \/
  (exists v, v ∈ Board.vias b /\ p = (Via.x v, Via.y v)) \/
  (exists q, q ∈ Board.pads b /\ p = (Pad.x q, Pad.y q)) \/
  (exists s, s ∈ Board.smds b /\ p = (SMD.x s, SMD.y s)) \/
  (exists e, e ∈ Board.elements b /\
     (p = position e \/
      exists a shapes sh,
        _parse_rot (Element.rot e) = Ok a /\
        Board.packages b !! Element.package e = Some shapes /\
        sh ∈ shapes /\
        p ∈ shape_points e (radians a) (contains "M" (Element.rot e)) sh)) \/
  (exists poly, poly ∈ Board.polygons b /\ p ∈ Polygon.vertices poly).
Proof.
  unfold observed_points.
  rewrite !elem_of_app, !list_elem_of_bind, !list_elem_of_fmap.
  assert (He : forall e,
    p ∈ element_points (Board.packages b) e <->
    (p = position e \/
      exists a shapes sh,
        _parse_rot (Element.rot e) = Ok a /\
        Board.packages b !! Element.package e = Some shapes /\
        sh ∈ shapes /\
        p ∈ shape_points e (radians a) (contains "M" (Element.rot e)) sh)).
  { intros e. unfold element_points. rewrite elem_of_cons.
    destruct (_parse_rot (Element.rot e)) as [a| |].
    - rewrite list_elem_of_bind.
      destruct (Board.packages b !! Element.package e) as [shapes|]; cbn [default].
      + split; (intros [H|H]; [left; exact H | right]).
        * destruct H as (sh & H1 & H2). exists a, shapes, sh. auto.
        * destruct H as (a' & shapes' & sh & Ha & Hs & H1 & H2).
          injection Ha as <-. injection Hs as <-. eauto.
      + split; (intros [H|H]; [left; exact H | exfalso]).
        * destruct H as (sh & _ & H). apply elem_of_nil in H. exact H.
        * destruct H as (? & ? & ? & _ & H & _). discriminate.
    - split; (intros [H|H]; [left; exact H | exfalso]).
      + apply elem_of_nil in H. exact H.
      + destruct H as (? & ? & ? & H & _). discriminate.
    - split; (intros [H|H]; [left; exact H | exfalso]).
      + apply elem_of_nil in H. exact H.
      + destruct H as (? & ? & ? & H & _). discriminate. }
  split.
  - intros [(w & Hp & Hw)|[(v & -> & Hv)|[(q & -> & Hq)|[(s & -> & Hs)|[(e & Hp & Hel)|(poly & Hp & Hpoly)]]]]].
    + left. exists w. split; [exact Hw|].
      rewrite !elem_of_cons, elem_of_nil in Hp. tauto.
    + right; left. eauto.
    + do 2 right; left. eauto.
    + do 3 right; left. eauto.
    + do 4 right; left. exists e. split; [exact Hel|]. apply He. exact Hp.
    + do 5 right. eauto.
  - intros [(w & Hw & Hp)|[(v & Hv & ->)|[(q & Hq & ->)|[(s & Hs & ->)|[(e & Hel & Hp)|(poly & Hpoly & Hp)]]]]].
    + left. exists w. split; [|exact Hw].
      rewrite !elem_of_cons, elem_of_nil. tauto.
    + right; left. eauto.
    + do 2 right; left. eauto.
    + do 3 right; left. eauto.
    + do 4 right; left. exists e. split; [|exact Hel]. apply He. exact Hp.
    + do 5 right. eauto.
Qed.

End Bounds.

(* ===================================================================== *)
(** * The bounds rectangle *)
(* ===================================================================== *)

Section BoundsClaim.
Import Py Geometry EagleParser Examples.
Local Open Scope R_scope.

(** The empty board gets the default rectangle. *)
Lemma compute_bounds_empty :
  _compute_bounds Board.empty
  = Ok (Board.set_bounds Board.empty (Some (0, 0, 100, 100))).
Proof. reflexivity. Qed.

(** When the scan of the placements returns, every descriptor was
    readable. *)
Lemma scan_elements_ok (packages : gmap string (list shape))
    (es : list Element.t) (acc c : coords) :
  scan_elements packages es acc = Ok c ->
  Forall (fun e => is_Ok (_parse_rot (Element.rot e))) es.
Proof.
  revert acc. induction es as [|e es IH]; intros [xs ys]; cbn [scan_elements];
    [constructor|].
  unfold scan_element at 1.
  destruct (_parse_rot (Element.rot e)) as [a| |] eqn:Ha;
    cbn [mbind result_bind]; try discriminate.
  intros H. constructor; [exists a; exact Ha | exact (IH _ H)].
Qed.

(** [_compute_bounds] returns exactly when every placement has a readable
    rotation descriptor. *)
Lemma compute_bounds_returns (b : Board.t) :
  is_Ok (_compute_bounds b) <-> rotations_readable b.
Proof.
  unfold _compute_bounds. split.
  - intros [b' Hb']. unfold scan in Hb'.
    destruct (scan_elements _ _ _) as [c| |] eqn:Hs; try discriminate.
    exact (scan_elements_ok _ _ _ _ Hs).
  - intros Hr. rewrite (scan_observed b Hr). eexists. reflexivity.
Qed.

(** It raises exactly when some placement has a descriptor that is no
    number and every placement before it has a readable one. *)
Lemma compute_bounds_raises (b : Board.t) :
  (exists es1 e es2,
     Board.elements b = es1 ++ e :: es2 /\
     Forall (fun e => is_Ok (_parse_rot (Element.rot e))) es1 /\
     _parse_rot (Element.rot e) = Except) ->
  _compute_bounds b = Except.
Proof.
  intros (es1 & e & es2 & Hel & Hok & He). unfold _compute_bounds, scan.
  rewrite Hel, (scan_elements_fails _ _ _ _ _ Hok He). reflexivity.
Qed.

Lemma compute_bounds_except (b : Board.t) :
  _compute_bounds b = Except ->
  Exists (fun e => _parse_rot (Element.rot e) = Except) (Board.elements b).
Proof.
  unfold _compute_bounds, scan. intros H.
  destruct (scan_elements _ _ _) as [c| |] eqn:Hs; try discriminate.
  exact (scan_elements_except _ _ _ Hs).
Qed.

(** C7, at the failing input: the board with the single placement
    [<element name="U1" package="P" x="1" y="2" rot="Rx90"/>] and nothing
    else, as [parse] builds it from a file that holds this element.  The
    position (1, 2) of the placement is a scanned coordinate, so the
    specified bounds are (1, 2, 1, 2); [_compute_bounds] raises
    [ValueError] instead and stores no bounds, and so does [parse].  With
    "R90" in place of "Rx90" the bounds are (1, 2, 1, 2). *)
Theorem C7_unreadable_rot_no_bounds :
  Board.elements (one_element_board "Rx90")
  = [Element.mk "U1" "" "" "P" 1 2 "Rx90"] /\
  _parse_rot "Rx90" = Except /\
  _compute_bounds (one_element_board "Rx90") = Except /\
  parse (SrcTree (one_element_doc "Rx90")) = Raises ValueError /\
  _compute_bounds (one_element_board "R90")
  = Ok (Board.set_bounds (one_element_board "R90") (Some (1, 2, 1, 2))) /\
  parse (SrcTree (one_element_doc "R90"))
  = Returns (Board.set_bounds (one_element_board "R90") (Some (1, 2, 1, 2))).
Proof.
  repeat split; reflexivity.
Qed.

End BoundsClaim.

(* ===================================================================== *)
(** * When [parse] fails *)
(* ===================================================================== *)

Section ParseOutcome.
Import Py Geometry EagleParser Doc Examples.

(** The placements of the parsed board are the [<element>] entries whose
    coordinates could be read; their rotation strings are stored unread. *)
Lemma parsed_board_elements (drawing brd : ET.element) :
  Board.elements (parsed_board drawing brd) = Delta.elements (elements_delta brd).
Proof.
  unfold parsed_board, doc_delta.
  rewrite libraries_delta_fields.
  destruct (layers_delta_fields drawing) as (ls & ->).
  destruct (signals_delta_fields brd) as (ws & vs & ps & -> & _).
  destruct (plain_delta_fields brd) as (ws' & ps' & ss' & gs' & ts' & -> & _).
  cbn. rewrite ?app_nil_r. reflexivity.
Qed.

(** With both root containers present, and wherever the model follows the
    program (no float that is no real number is read), [parse] returns a
    board when every stored placement has a readable rotation descriptor
    and raises [ValueError] otherwise. *)
Lemma parse_value_error_iff (root drawing brd : ET.element) :
  ET.find root "drawing" = Some drawing ->
  ET.find drawing "board" = Some brd ->
  parse (SrcTree root) <> OutOfModel ->
  (parse (SrcTree root) = Raises ValueError <->
   Exists (fun e => _parse_rot (Element.rot e) = Except)
          (Board.elements (parsed_board drawing brd))) /\
  ((exists b, parse (SrcTree root) = Returns b) <->
   rotations_readable (parsed_board drawing brd)).
Proof.
  intros Hd Hb Hin. pose proof (parse_in_model root drawing brd Hd Hb Hin) as Hp.
  rewrite Hp in Hin |- *.
  destruct (_compute_bounds (parsed_board drawing brd)) as [b| |] eqn:Hc.
  - assert (Hr : rotations_readable (parsed_board drawing brd))
      by (apply compute_bounds_returns; exists b; exact Hc).
    split; split; try discriminate; eauto.
    intros Hex. exfalso. unfold rotations_readable in Hr.
    apply Exists_exists in Hex as (e & He & Hnone).
    rewrite Forall_forall in Hr. destruct (Hr e He) as [a Ha]. congruence.
  - split; split; auto.
    + intros _. apply compute_bounds_except. exact Hc.
    + intros [b Hb']. discriminate.
    + intros Hr. apply compute_bounds_returns in Hr as [b Hb'].
      rewrite Hc in Hb'. discriminate.
  - contradiction.
Qed.

(** C6, at the failing input: a board file whose only flaw is the rotation
    string "Rx90" of one placement has both root containers, yet [parse]
    raises [ValueError] out of [_compute_bounds] and returns no board; the
    placement is not skipped.  With "R90" in its place the file parses.
    In general [parse] raises its [RuntimeError] exactly when the file is
    unreadable or a root container is missing, and with the containers
    present, on a file whose numbers are all real numbers, it raises
    [ValueError] exactly when a stored placement has a rotation string that
    [_parse_rot] cannot read. *)
Theorem C6_bad_placement_rot_is_fatal :
  has_containers (SrcTree (one_element_doc "Rx90")) /\
  parse (SrcTree (one_element_doc "Rx90")) = Raises ValueError /\
  (exists b, parse (SrcTree (one_element_doc "R90")) = Returns b) /\
  (forall src, (exists msg, parse src = Raises (RuntimeError msg))
               <-> ~ has_containers src) /\
  (forall root drawing brd,
     ET.find root "drawing" = Some drawing ->
     ET.find drawing "board" = Some brd ->
     parse (SrcTree root) <> OutOfModel ->
     (parse (SrcTree root) = Raises ValueError <->
      Exists (fun e => _parse_rot (Element.rot e) = Except)
             (Board.elements (parsed_board drawing brd))) /\
     ((exists b, parse (SrcTree root) = Returns b) <->
      rotations_readable (parsed_board drawing brd))).
Proof.
  split; [|split; [|split; [|split]]].
  - do 3 eexists. repeat split; reflexivity.
  - reflexivity.
  - eexists. reflexivity.
  - exact parse_runtime_error_iff.
  - exact parse_value_error_iff.
Qed.

End ParseOutcome.

(* ===================================================================== *)
(** * The view: coordinates, zooming and panning *)
(* ===================================================================== *)

Section ViewTransform.
Import BRDViewer Examples.
Local Open Scope R_scope.

Lemma screen_to_world_some (self : self_t) (sx sy : R) :
  scale self <> 0 ->
  screen_to_world self sx sy
  = Some ((sx - offset_x self) / scale self, - (sy - offset_y self) / scale self).
Proof.
  intros Hs. unfold screen_to_world.
  destruct (Req_dec_T (scale self) 0); [contradiction | reflexivity].
Qed.

Lemma screen_to_world_zero (self : self_t) (sx sy : R) :
  scale self = 0 -> screen_to_world self sx sy = None.
Proof.
  intros Hs. unfold screen_to_world.
  destruct (Req_dec_T (scale self) 0); [reflexivity | contradiction].
Qed.

(** X1: with a non-zero scale the two coordinate maps are inverse to each
    other: a world point sent to the screen comes back as itself, and a
    screen point sent to the world goes back to where it was. *)
Theorem X1_screen_world_round_trip (self : self_t) (x y sx sy : R) :
  scale self <> 0 ->
  screen_to_world self (world_to_screen self x y).1 (world_to_screen self x y).2
  = Some (x, y) /\
  exists p, screen_to_world self sx sy = Some p /\
            world_to_screen self p.1 p.2 = (sx, sy).
Proof.
  intros Hs. split.
  - rewrite screen_to_world_some by exact Hs.
    unfold world_to_screen. cbn [fst snd]. f_equal.
    apply (f_equal2 pair); field; exact Hs.
  - eexists. split; [apply screen_to_world_some; exact Hs|].
    unfold world_to_screen. cbn [fst snd].
    apply (f_equal2 pair); field; exact Hs.
Qed.

Lemma X1_screen_world_round_trip_witness :
  screen_to_world init (world_to_screen init 3 4).1 (world_to_screen init 3 4).2
  = Some (3, 4) /\
  exists p, screen_to_world init 120 80 = Some p /\
            world_to_screen init p.1 p.2 = (120, 80).
Proof.
  apply (X1_screen_world_round_trip init 3 4 120 80).
  cbn [init scale]. lra.
Defined.

Lemma clamp_bounds (lo hi v : R) :
  lo <= hi -> lo <= Rmax lo (Rmin v hi) <= hi.
Proof.
  intros H. split; [apply Rmax_l|].
  apply Rmax_lub; [exact H | apply Rmin_r].
Qed.

(** X2: turning the wheel with a non-zero scale zooms about the pointer:
    the new scale is the old one times 1.1 (wheel up) or 0.9 (wheel down),
    kept within 0.05 and 200, and the world point that was under the pointer
    is under it still.  With a zero scale the handler raises. *)
Theorem X2_wheel_zooms_about_pointer (self : self_t) (ev : event) :
  (scale self = 0 -> _on_mouse_wheel self ev = None) /\
  (scale self <> 0 ->
   exists self' p factor,
     _on_mouse_wheel self ev = Some self' /\
     (factor = 1 + 1 / 10 \/ factor = 1 + - (1 / 10)) /\
     scale self' = Rmax (5 / 100) (Rmin (scale self * factor) 200) /\
     5 / 100 <= scale self' <= 200 /\
     screen_to_world self (IZR (ev_x ev)) (IZR (ev_y ev)) = Some p /\
     world_to_screen self' p.1 p.2 = (IZR (ev_x ev), IZR (ev_y ev)) /\
     screen_to_world self' (IZR (ev_x ev)) (IZR (ev_y ev)) = Some p).
Proof.
  split.
  - intros Hs. unfold _on_mouse_wheel.
    rewrite (screen_to_world_zero _ _ _ Hs). reflexivity.
  - intros Hs. unfold _on_mouse_wheel.
    set (delta := match ev_delta ev with
                  | Some d => _
                  | None => _
                  end).
    set (factor := 1 + (if (0 <? delta)%Z then 1 / 10 else - (1 / 10))).
    rewrite (screen_to_world_some _ _ _ Hs). cbn [mbind option_bind].
    set (s' := Rmax (5 / 100) (Rmin (scale self * factor) 200)).
    assert (Hb : 5 / 100 <= s' <= 200) by (apply clamp_bounds; lra).
    assert (Hs' : s' <> 0) by lra.
    rewrite (screen_to_world_some
               (set_view self s' (offset_x self) (offset_y self)) _ _ Hs').
    cbn [mbind option_bind].
    eexists _, _, factor. split; [reflexivity|].
    split; [subst factor; destruct (0 <? delta)%Z; auto|].
    split; [reflexivity|]. split; [exact Hb|]. split; [reflexivity|].
    cbn [set_view scale offset_x offset_y fst snd]. split.
    + unfold world_to_screen. cbn [set_view scale offset_x offset_y fst snd].
      apply (f_equal2 pair); field; auto.
    + rewrite screen_to_world_some by exact Hs'.
      cbn [set_view scale offset_x offset_y]. f_equal.
      apply (f_equal2 pair); field; auto.
Qed.

Lemma X2_wheel_zooms_about_pointer_witness :
  exists self' p factor,
    _on_mouse_wheel init (Event 120 80 (Some 120%Z) None) = Some self' /\
    (factor = 1 + 1 / 10 \/ factor = 1 + - (1 / 10)) /\
    scale self' = Rmax (5 / 100) (Rmin (scale init * factor) 200) /\
    5 / 100 <= scale self' <= 200 /\
    screen_to_world init (IZR 120) (IZR 80) = Some p /\
    world_to_screen self' p.1 p.2 = (IZR 120, IZR 80) /\
    screen_to_world self' (IZR 120) (IZR 80) = Some p.
Proof.
  apply (X2_wheel_zooms_about_pointer init (Event 120 80 (Some 120%Z) None)).
  cbn [init scale]. lra.
Defined.


(** X4: dragging pans the view: after a press at one pixel and a drag to
    another, the world point under the pointer is the one that was under it
    at the press, and the scale is unchanged; this holds for the middle
    button and, outside measure mode, for the left button.  A drag without
    a press changes nothing. *)
Theorem X4_drag_pans (self : self_t) (ev0 ev : event) :
  (let self2 := _on_mid_drag (_on_mid_down self ev0) ev in
   screen_to_world self2 (IZR (ev_x ev)) (IZR (ev_y ev))
   = screen_to_world self (IZR (ev_x ev0)) (IZR (ev_y ev0))
   /\ scale self2 = scale self) /\
  (measure_mode self = false ->
   exists self1,
     _on_left_down self ev0 = Some self1 /\
     screen_to_world (_on_left_drag self1 ev) (IZR (ev_x ev)) (IZR (ev_y ev))
     = screen_to_world self (IZR (ev_x ev0)) (IZR (ev_y ev0)) /\
     scale (_on_left_drag self1 ev) = scale self) /\
  (_drag_start self = None ->
   _on_left_drag self ev = self /\ _on_mid_drag self ev = self).
Proof.
  assert (Hpan : forall self1,
            self1 = set_drag_start self
                      (Some (ev_x ev0, ev_y ev0, offset_x self, offset_y self)) ->
            screen_to_world (_on_mid_drag self1 ev) (IZR (ev_x ev)) (IZR (ev_y ev))
            = screen_to_world self (IZR (ev_x ev0)) (IZR (ev_y ev0))
            /\ scale (_on_mid_drag self1 ev) = scale self).
  { intros self1 ->. unfold _on_mid_drag.
    cbn [set_drag_start _drag_start scale offset_x offset_y set_view].
    split; [|reflexivity].
    unfold screen_to_world.
    cbn [set_view set_drag_start scale offset_x offset_y].
    destruct (Req_dec_T (scale self) 0) as [|Hs]; [reflexivity|].
    f_equal. rewrite !minus_IZR. apply (f_equal2 pair); field; exact Hs. }
  split; [|split].
  - apply Hpan. reflexivity.
  - intros Hm. unfold _on_left_down. rewrite Hm.
    eexists. split; [reflexivity|]. apply (Hpan _ eq_refl).
  - intros Hd. unfold _on_left_drag, _on_mid_drag. rewrite Hd. auto.
Qed.

Lemma X4_drag_pans_witness :
  (let self2 := _on_mid_drag (_on_mid_down init (Event 10 20 None None))
                             (Event 30 50 None None) in
   screen_to_world self2 (IZR 30) (IZR 50)
   = screen_to_world init (IZR 10) (IZR 20)
   /\ scale self2 = scale init) /\
  (exists self1,
     _on_left_down init (Event 10 20 None None) = Some self1 /\
     screen_to_world (_on_left_drag self1 (Event 30 50 None None))
                     (IZR 30) (IZR 50)
     = screen_to_world init (IZR 10) (IZR 20) /\
     scale (_on_left_drag self1 (Event 30 50 None None)) = scale init) /\
  (_on_left_drag init (Event 30 50 None None) = init /\
   _on_mid_drag init (Event 30 50 None None) = init).
Proof.
  destruct (X4_drag_pans init (Event 10 20 None None) (Event 30 50 None None))
    as (H1 & H2 & H3).
  split; [exact H1|]. split; [apply H2 | apply H3]; reflexivity.
Defined.




End ViewTransform.

(* ===================================================================== *)
(** * Measuring and exporting *)
(* ===================================================================== *)

Section MeasureAndExport.
Import Py Geometry EagleParser BRDViewer Examples.
Local Open Scope R_scope.

Lemma last_two_snoc2 {A} (l : list A) (q p : A) :
  last_two (l ++ [q; p]) = [q; p].
Proof.
  unfold last_two. rewrite length_app. cbn [length].
  replace (length l + 2 - 2)%nat with (length l + 0)%nat by lia.
  rewrite drop_app_add. reflexivity.
Qed.

(** X6: a left click in measure mode (with a non-zero scale) appends the
    world point under the pointer to the measured points and keeps the last
    two only: afterwards the list holds at most two points, the clicked
    point is the last of them, and the point measured just before, if there
    is one, is the other.  The view and a pending drag are left alone.  With
    a zero scale the handler raises. *)
Theorem X6_measure_keeps_last_two (self : self_t) (ev : event) :
  measure_mode self = true ->
  (scale self = 0 -> _on_left_down self ev = None) /\
  (scale self <> 0 ->
   exists self' p,
     _on_left_down self ev = Some self' /\
     screen_to_world self (IZR (ev_x ev)) (IZR (ev_y ev)) = Some p /\
     (length (measure_points self') <= 2)%nat /\
     (measure_points self = [] -> measure_points self' = [p]) /\
     (forall q, last (measure_points self) = Some q ->
                measure_points self' = [q; p]) /\
     scale self' = scale self /\
     offset_x self' = offset_x self /\
     offset_y self' = offset_y self /\
     _drag_start self' = _drag_start self /\
     measure_mode self' = true).
Proof.
  intros Hm. unfold _on_left_down. rewrite Hm. split.
  - intros Hs. rewrite (screen_to_world_zero _ _ _ Hs). reflexivity.
  - intros Hs. rewrite (screen_to_world_some _ _ _ Hs).
    cbn [mbind option_bind].
    set (p := ((IZR (ev_x ev) - offset_x self) / scale self,
               - (IZR (ev_y ev) - offset_y self) / scale self)).
    eexists _, p. split; [reflexivity|]. split; [reflexivity|].
    cbn [set_measure_points measure_points scale offset_x offset_y
         _drag_start measure_mode].
    assert (Hq : forall q, last (measure_points self) = Some q ->
              (if (2 <? length (measure_points self ++ [p]))%nat
               then last_two (measure_points self ++ [p])
               else measure_points self ++ [p]) = [q; p]).
    { intros q Hq. apply last_Some in Hq as [l Hl]. rewrite Hl.
      rewrite <- app_assoc. cbn [app].
      destruct (2 <? length (l ++ [q; p]))%nat eqn:Hlen.
      - apply last_two_snoc2.
      - apply Nat.ltb_ge in Hlen. rewrite length_app in Hlen.
        cbn [length] in Hlen. destruct l; [reflexivity|cbn in Hlen; lia]. }
    split; [|split; [|split; [exact Hq|repeat split; auto]]].
    + destruct (last (measure_points self)) as [q|] eqn:Hl.
      * rewrite (Hq q eq_refl). cbn. lia.
      * apply last_None in Hl. rewrite Hl. cbn. lia.
    + intros Hnil. rewrite Hnil. reflexivity.
Qed.

Lemma X6_measure_keeps_last_two_witness :
  exists self' p,
    _on_left_down measuring (Event 150 50 None None) = Some self' /\
    screen_to_world measuring (IZR 150) (IZR 50) = Some p /\
    (length (measure_points self') <= 2)%nat /\
    (measure_points measuring = [] -> measure_points self' = [p]) /\
    (forall q, last (measure_points measuring) = Some q ->
               measure_points self' = [q; p]) /\
    scale self' = scale measuring /\
    offset_x self' = offset_x measuring /\
    offset_y self' = offset_y measuring /\
    _drag_start self' = _drag_start measuring /\
    measure_mode self' = true.
Proof.
  apply (X6_measure_keeps_last_two measuring (Event 150 50 None None)).
  - reflexivity.
  - cbn [measuring scale]. lra.
Defined.






(** The scan of a board succeeds only when every placement is readable. *)
Lemma scan_readable (b : Board.t) (c : coords) :
  scan b = Ok c -> rotations_readable b.
Proof.
  intros Hs. apply compute_bounds_returns. unfold _compute_bounds.
  rewrite Hs. eexists. reflexivity.
Qed.




End MeasureAndExport.

(* ===================================================================== *)
(** * Mirrored placements: layers and the mirror test *)
(* ===================================================================== *)

Section MirroredPlacements.
Import Py Geometry Examples.
Local Open Scope Z_scope.

Lemma flip_layer_other (layer : Z) :
  layer ∉ [1; 16; 21; 22; 25; 26; 29; 30] ->
  BRDViewer._flip_layer layer = layer.
Proof.
  intros H. unfold BRDViewer._flip_layer, BRDViewer.flip_map.
  rewrite (not_elem_of_list_to_map_1 _ layer); [reflexivity|exact H].
Qed.

Lemma flip_layer_cases (layer : Z) :
  layer ∈ [1; 16; 21; 22; 25; 26; 29; 30] \/
  layer ∉ [1; 16; 21; 22; 25; 26; 29; 30].
Proof.
  destruct (decide (layer ∈ [1; 16; 21; 22; 25; 26; 29; 30])); auto.
Qed.

(** X9: [_flip_layer] swaps the layers of the four top/bottom pairs
    1/16, 21/22, 25/26 and 29/30 and leaves every other layer where it is;
    flipping twice gives the layer back, and no two layers flip to the
    same one. *)
Theorem X9_flip_layer_involution (layer : Z) :
  BRDViewer._flip_layer (BRDViewer._flip_layer layer) = layer /\
  (BRDViewer._flip_layer layer <> layer
   <-> layer ∈ [1; 16; 21; 22; 25; 26; 29; 30]) /\
  (forall other,
     BRDViewer._flip_layer other = BRDViewer._flip_layer layer ->
     other = layer) /\
  (BRDViewer._flip_layer 1, BRDViewer._flip_layer 21,
   BRDViewer._flip_layer 25, BRDViewer._flip_layer 29) = (16, 22, 26, 30).
Proof.
  assert (Hinv : forall l, BRDViewer._flip_layer (BRDViewer._flip_layer l) = l).
  { intros l. destruct (flip_layer_cases l) as [H|H].
    - rewrite !elem_of_cons, elem_of_nil in H.
      destruct H as [->|[->|[->|[->|[->|[->|[->|[->|[]]]]]]]]]; reflexivity.
    - rewrite !(flip_layer_other l H). reflexivity. }
  split; [apply Hinv|]. split; [|split; [|reflexivity]].
  - split.
    + intros Hne. destruct (flip_layer_cases layer) as [H|H]; [exact H|].
      exfalso. apply Hne, flip_layer_other, H.
    + intros H. rewrite !elem_of_cons, elem_of_nil in H.
      destruct H as [->|[->|[->|[->|[->|[->|[->|[->|[]]]]]]]]]; discriminate.
  - intros other Heq.
    rewrite <- (Hinv other), Heq. apply Hinv.
Qed.

Lemma contains_head (s : string) :
  contains "M" (lstrip "M" s) = false ->
  contains "M" s = match s with
                   | String c _ => Ascii.eqb c "M"
                   | EmptyString => false
                   end.
Proof.
  destruct s as [|c s]; [reflexivity|]. cbn [lstrip contains].
  destruct (Ascii.eqb c "M"); [reflexivity|].
  cbn [contains]. intros H. apply orb_false_iff in H as [_ H].
  rewrite H. apply orb_false_r.
Qed.

(** X10: on every descriptor that [_parse_rot] can read, the mirror test of
    the bounds scan and of the drawing ('M' occurs in the descriptor) agrees
    with the test inside [_parse_rot] (the first character is 'M'); the two
    copies of [_parse_rot] return the same angle, which is the number left
    after the leading 'M's and 'R's (0 when nothing is left after the 'M's),
    negated exactly when the placement is mirrored. *)
Theorem X10_mirror_tests_agree (s : string) (a : R) :
  EagleParser._parse_rot s = Ok a ->
  BRDViewer._parse_rot s = Ok a /\
  contains "M" s = match s with
                   | String c _ => Ascii.eqb c "M"
                   | EmptyString => false
                   end /\
  exists d : R,
    (lstrip "M" s = "" /\ d = 0%R \/
     lstrip "M" s <> "" /\ py_float (lstrip "R" (lstrip "M" s)) = Ok d) /\
    a = (if contains "M" s then - d else d)%R.
Proof.
  intros Ha. split; [exact Ha|].
  destruct (parse_rot_degrees s a Ha) as (d & Hd & HM & Heq).
  split; [apply contains_head; exact HM|].
  exists d. split; [|exact Heq].
  unfold EagleParser._parse_rot in Hd.
  destruct (lstrip "M" s) as [|u t] eqn:Ht.
  - left. split; [reflexivity|]. injection Hd as <-. reflexivity.
  - right. split; [discriminate|].
    rewrite (lstrip_absent "M" _ HM) in Hd.
    cbn [contains] in HM. apply orb_false_iff in HM as [Hu _].
    rewrite Hu in Hd.
    destruct (py_float (lstrip "R" (String u t))) as [r| |];
      [|discriminate|discriminate].
    cbn in Hd. injection Hd as <-. reflexivity.
Qed.

Lemma X10_mirror_tests_agree_witness :
  BRDViewer._parse_rot "MR90" = Ok (- (90))%R /\
  contains "M" "MR90" = Ascii.eqb "M" "M" /\
  exists d : R,
    (lstrip "M" "MR90" = "" /\ d = 0%R \/
     lstrip "M" "MR90" <> "" /\ py_float (lstrip "R" (lstrip "M" "MR90")) = Ok d) /\
    (- (90))%R = (if contains "M" "MR90" then - d else d)%R.
Proof.
  apply (X10_mirror_tests_agree "MR90" (- (90))%R). reflexivity.
Defined.

Local Open Scope R_scope.

(** What is drawn for a package shape is drawn once, on the layer the
    shape is placed on, and that layer is visible. *)
Lemma draw_shape_item (e : Element.t) (prot angle : R) (m : bool)
    (vis : gset Z) (sh : shape) (d : BRDViewer.drawn) :
  d ∈ BRDViewer.draw_shape e prot angle m vis sh ->
  BRDViewer.draw_shape e prot angle m vis sh = [d] /\
  drawn_layer d = placed_layer m sh /\
  placed_layer m sh ∈ vis.
Proof.
  intros Hd.
  destruct (decide (placed_layer m sh ∈ vis)) as [Hv|Hv];
    [|rewrite (draw_shape_hidden _ _ _ _ _ _ Hv) in Hd;
      apply elem_of_nil in Hd; destruct Hd].
  pose proof Hv as Hv'. unfold placed_layer in Hv.
  destruct sh as [w|p|s|c|r|p]; unfold BRDViewer.draw_shape in *;
    cbn [shape_layer Wire.layer] in *.
  - rewrite decide_True in * by exact Hv.
    apply list_elem_of_singleton in Hd. subst d.
    split; [reflexivity|]. split; [destruct m; reflexivity | exact Hv'].
  - rewrite decide_False in * by (intros H; exact (H Hv)).
    apply list_elem_of_singleton in Hd. subst d.
    split; [reflexivity|]. split; [destruct m; reflexivity | exact Hv'].
  - rewrite decide_False in * by (intros H; exact (H Hv)).
    apply list_elem_of_singleton in Hd. subst d.
    split; [reflexivity|]. split; [destruct m; reflexivity | exact Hv'].
  - rewrite decide_True in * by exact Hv.
    apply list_elem_of_singleton in Hd. subst d.
    split; [reflexivity|]. split; [destruct m; reflexivity | exact Hv'].
  - rewrite decide_True in * by exact Hv.
    apply list_elem_of_singleton in Hd. subst d.
    split; [reflexivity|]. split; [destruct m; reflexivity | exact Hv'].
  - rewrite decide_True in * by exact Hv.
    apply list_elem_of_singleton in Hd. subst d.
    split; [reflexivity|]. split; [destruct m; reflexivity | exact Hv'].
Qed.

(** X11: an instanced package shape is drawn exactly when its layer
    (flipped by [_flip_layer] under a mirrored placement) is visible; it is
    then drawn once, on that layer, and for every shape but a rectangle at
    the very points the bounds scan observes for it. *)
Theorem X11_instanced_shape_drawn_iff_visible (e : Element.t) (prot angle : R)
    (m : bool) (vis : gset Z) (sh : shape) :
  (placed_layer m sh ∉ vis -> BRDViewer.draw_shape e prot angle m vis sh = []) /\
  (placed_layer m sh ∈ vis ->
   exists d,
     BRDViewer.draw_shape e prot angle m vis sh = [d] /\
     drawn_layer d = placed_layer m sh /\
     ((forall r, sh <> SRect r) ->
      drawn_points d = instance_points e angle m sh)).
Proof.
  split; [apply draw_shape_hidden|].
  intros Hv.
  pose proof (draw_points_visible e prot angle m vis sh Hv) as Hpts.
  unfold draw_points in Hpts. unfold placed_layer in Hv.
  destruct sh as [w|p|s|c|r|p]; unfold BRDViewer.draw_shape in *;
    cbn [shape_layer Wire.layer] in *.
  - rewrite decide_True in * by exact Hv. eexists. split; [reflexivity|].
    split; [destruct m; reflexivity|]. intros _.
    cbn [mbind list_bind] in Hpts. rewrite app_nil_r in Hpts.
    rewrite Hpts, instance_points_closed. reflexivity.
  - rewrite decide_False in * by (intros H; exact (H Hv)).
    eexists. split; [reflexivity|].
    split; [destruct m; reflexivity|]. intros _.
    cbn [mbind list_bind] in Hpts. rewrite app_nil_r in Hpts.
    rewrite Hpts, instance_points_closed. reflexivity.
  - rewrite decide_False in * by (intros H; exact (H Hv)).
    eexists. split; [reflexivity|].
    split; [destruct m; reflexivity|]. intros _.
    cbn [mbind list_bind] in Hpts. rewrite app_nil_r in Hpts.
    rewrite Hpts, instance_points_closed. reflexivity.
  - rewrite decide_True in * by exact Hv. eexists. split; [reflexivity|].
    split; [destruct m; reflexivity|]. intros _.
    cbn [mbind list_bind] in Hpts. rewrite app_nil_r in Hpts.
    rewrite Hpts, instance_points_closed. reflexivity.
  - rewrite decide_True in * by exact Hv. eexists. split; [reflexivity|].
    split; [destruct m; reflexivity|]. intros Hr.
    exfalso. exact (Hr r eq_refl).
  - rewrite decide_True in * by exact Hv. eexists. split; [reflexivity|].
    split; [destruct m; reflexivity|]. intros _.
    cbn [mbind list_bind] in Hpts. rewrite app_nil_r in Hpts.
    rewrite Hpts, instance_points_closed. reflexivity.
Qed.

Lemma X11_instanced_shape_drawn_iff_visible_witness :
  (placed_layer true (SPad pad_east) ∉ ({[ 16%Z ]} : gset Z) ->
   BRDViewer.draw_shape e_MR90 (- (90)) (radians (- (90))) true {[ 16%Z ]}
                        (SPad pad_east) = []) /\
  exists d,
    BRDViewer.draw_shape e_MR90 (- (90)) (radians (- (90))) true {[ 16%Z ]}
                         (SPad pad_east) = [d] /\
    drawn_layer d = placed_layer true (SPad pad_east) /\
    ((forall r, SPad pad_east <> SRect r) ->
     drawn_points d
     = instance_points e_MR90 (radians (- (90))) true (SPad pad_east)).
Proof.
  destruct (X11_instanced_shape_drawn_iff_visible
              e_MR90 (- (90)) (radians (- (90))) true {[ 16%Z ]} (SPad pad_east))
    as [H1 H2].
  split; [exact H1|]. apply H2.
  apply elem_of_singleton. reflexivity.
Defined.

End MirroredPlacements.

(* ===================================================================== *)
(** * The tables and the records of a parsed board *)
(* ===================================================================== *)

Section ParsedTables.
Import Py Geometry EagleParser Doc Examples.

(** A table filled entry by entry holds, under each key, the last entry
    made under it. *)
Lemma enter_layers_last (ls : list Layer.t) (n : Z) :
  Delta.enter_layers ls ∅ !! n
  = last (filter (fun L => Layer.number L = n) ls).
Proof.
  induction ls as [|L ls IH] using rev_ind; [apply lookup_empty|].
  unfold Delta.enter_layers in *. rewrite fold_left_app. cbn [fold_left].
  rewrite filter_app.
  destruct (decide (Layer.number L = n)) as [Heq|Hne].
  - rewrite Heq, lookup_insert_eq.
    rewrite filter_cons_True by exact Heq. cbn [filter list_filter].
    rewrite last_snoc. reflexivity.
  - rewrite lookup_insert_ne by exact Hne.
    rewrite filter_cons_False by exact Hne. cbn [filter list_filter].
    rewrite app_nil_r. exact IH.
Qed.

Lemma enter_packages_last {A} (key : A -> string) (val : A -> list shape)
    (l : list A) (name : string) :
  Delta.enter_packages (l ≫= fun x => [(key x, val x)]) ∅ !! name
  = val <$> last (filter (fun x => key x = name) l).
Proof.
  induction l as [|x l IH] using rev_ind; [apply lookup_empty|].
  unfold Delta.enter_packages in *.
  rewrite bind_app, fold_left_app. cbn [mbind list_bind app fold_left fst snd].
  rewrite filter_app.
  destruct (decide (key x = name)) as [Heq|Hne].
  - rewrite Heq, lookup_insert_eq.
    rewrite filter_cons_True by exact Heq. cbn [filter list_filter].
    rewrite last_snoc. reflexivity.
  - rewrite lookup_insert_ne by exact Hne.
    rewrite filter_cons_False by exact Hne. cbn [filter list_filter].
    rewrite app_nil_r. exact IH.
Qed.

Lemma parsed_board_layers (drawing brd : ET.element) :
  Board.layers (parsed_board drawing brd)
  = Delta.enter_layers (declared_layers drawing) ∅.
Proof.
  unfold parsed_board, doc_delta, declared_layers, layer_elements.
  rewrite libraries_delta_fields.
  destruct (elements_delta_fields brd) as (es & ->).
  destruct (signals_delta_fields brd) as (ws & vs & ps & -> & _).
  destruct (plain_delta_fields brd) as (ws' & ps' & ss' & gs' & ts' & -> & _).
  unfold layers_delta. destruct (ET.find drawing "layers"); cbn;
    rewrite ?app_nil_r; reflexivity.
Qed.

Lemma parsed_board_vias (drawing brd : ET.element) :
  Board.vias (parsed_board drawing brd)
  = signal_elements brd
      ≫= fun s => read (fun el => via_of_xml el (ET.get s "name" "")) s "via".
Proof.
  unfold parsed_board, doc_delta, signal_elements.
  rewrite libraries_delta_fields.
  destruct (layers_delta_fields drawing) as (ls & ->).
  destruct (elements_delta_fields brd) as (es & ->).
  destruct (plain_delta_fields brd) as (ws' & ps' & ss' & gs' & ts' & -> & _).
  unfold signals_delta. destruct (ET.find brd "signals") as [signals|].
  - rewrite concat_fields, !list_fmap_bind. cbn. reflexivity.
  - reflexivity.
Qed.

Lemma signals_delta_wires (brd : ET.element) :
  Delta.wires (signals_delta brd)
  = signal_elements brd
      ≫= fun s => read (fun el => (fun w => Wire.set_net w (ET.get s "name" ""))
                                    <$> wire_of_xml el "signal") s "wire".
Proof.
  unfold signals_delta, signal_elements.
  destruct (ET.find brd "signals") as [signals|]; [|reflexivity].
  rewrite concat_fields, !list_fmap_bind. reflexivity.
Qed.

Lemma signals_delta_polygons (brd : ET.element) :
  Delta.polygons (signals_delta brd)
  = signal_elements brd
      ≫= fun s => read (fun el => polygon_of_xml el (ET.get s "name" "")) s "polygon".
Proof.
  unfold signals_delta, signal_elements.
  destruct (ET.find brd "signals") as [signals|]; [|reflexivity].
  rewrite concat_fields, !list_fmap_bind. reflexivity.
Qed.

(** What [read] collects. *)
Lemma elem_of_read {A} (f : ET.element -> result A) (el : ET.element)
    (t : string) (x : A) :
  x ∈ read f el t <-> exists c, c ∈ ET.findall el t /\ f c = Ok x.
Proof.
  unfold read. rewrite list_elem_of_bind. split.
  - intros (c & Hx & Hc). exists c. split; [exact Hc|].
    destruct (f c) as [y| |]; cbn in Hx.
    + apply list_elem_of_singleton in Hx. congruence.
    + apply elem_of_nil in Hx. destruct Hx.
    + apply elem_of_nil in Hx. destruct Hx.
  - intros (c & Hc & Hf). exists c. split; [|exact Hc].
    rewrite Hf. apply list_elem_of_here.
Qed.

Lemma wire_of_xml_kind (el : ET.element) (kind : string) (w : Wire.t) :
  wire_of_xml el kind = Ok w -> Wire.kind w = kind /\ Wire.net w = "".
Proof.
  unfold wire_of_xml. intros H.
  repeat (match type of H with
          | context [py_float ?s] =>
              destruct (py_float s); [|discriminate|discriminate]
          | context [py_int ?s] =>
              destruct (py_int s); [|discriminate|discriminate]
          end; cbn [mbind result_bind] in H).
  injection H as <-. auto.
Qed.

Lemma via_of_xml_net (el : ET.element) (net : string) (v : Via.t) :
  via_of_xml el net = Ok v -> Via.net v = net.
Proof.
  unfold via_of_xml. intros H.
  destruct (py_float (ET.get el "x" "0")); [|discriminate|discriminate].
  destruct (py_float (ET.get el "y" "0")); [|discriminate|discriminate].
  destruct (py_float (ET.get el "drill" "0")); [|discriminate|discriminate].
  cbn [mbind result_bind] in H.
  destruct (match ET.get_opt el "diameter" with
            | Some (String _ _) => py_float (ET.get el "diameter" "0")
            | _ => Ok 0%R
            end); [|discriminate|discriminate].
  cbn [mbind result_bind] in H. injection H as <-. reflexivity.
Qed.

Lemma vertices_of_xml_length (vs : list ET.element) (verts : list (R * R)) :
  vertices_of_xml vs = Ok verts -> length verts = length vs.
Proof.
  revert verts. induction vs as [|v vs IH]; intros verts H; cbn in H.
  - injection H as <-. reflexivity.
  - destruct (py_float (ET.get v "x" "0")); [|discriminate|discriminate].
    destruct (py_float (ET.get v "y" "0")); [|discriminate|discriminate].
    cbn [mbind result_bind] in H.
    destruct (vertices_of_xml vs) as [rest| |]; [|discriminate|discriminate].
    cbn in H. injection H as <-. cbn. rewrite (IH rest eq_refl). reflexivity.
Qed.

Lemma polygon_of_xml_vertices (el : ET.element) (net : string) (p : Polygon.t) :
  polygon_of_xml el net = Ok p ->
  (3 <= length (Polygon.vertices p))%nat /\
  length (Polygon.vertices p) = length (ET.findall el "vertex").
Proof.
  unfold polygon_of_xml. intros H.
  destruct (py_int _) as [layer| |]; [|discriminate|discriminate].
  destruct (py_float _) as [width| |]; [|discriminate|discriminate].
  cbn [mbind result_bind] in H.
  destruct (vertices_of_xml _) as [verts| |] eqn:Hv;
    [|discriminate|discriminate].
  cbn [mbind result_bind] in H.
  destruct (2 <? length verts)%nat eqn:Hlen; [|discriminate].
  injection H as <-. cbn [Polygon.vertices].
  apply Nat.ltb_lt in Hlen. split; [lia|].
  apply vertices_of_xml_length. exact Hv.
Qed.

(** X12: in the board [parse] returns, the layer table holds under each
    number the last layer the file declares readably with that number (and
    nothing under a number no readable declaration has); so every entry is
    filed under its own number and a later declaration of a number replaces
    an earlier one. *)
Theorem X12_layer_table_last_wins (root drawing brd : ET.element) (b : Board.t) :
  ET.find root "drawing" = Some drawing ->
  ET.find drawing "board" = Some brd ->
  parse (SrcTree root) = Returns b ->
  (forall n : Z,
     Board.layers b !! n
     = last (filter (fun L => Layer.number L = n) (declared_layers drawing))) /\
  (forall n L, Board.layers b !! n = Some L ->
     Layer.number L = n /\
     exists l, l ∈ layer_elements drawing /\ layer_of_xml l = Ok L).
Proof.
  intros Hd Hb Hp.
  apply parse_returns in Hp as (root' & drawing' & brd' & c & Hsrc & Hd' & Hb' & _ & ->).
  injection Hsrc as <-. rewrite Hd in Hd'. injection Hd' as <-.
  rewrite Hb in Hb'. injection Hb' as <-.
  cbn [Board.set_bounds Board.layers].
  assert (Hl : forall n, Board.layers (parsed_board drawing brd) !! n
             = last (filter (fun L => Layer.number L = n) (declared_layers drawing))).
  { intros n. rewrite parsed_board_layers. apply enter_layers_last. }
  split; [exact Hl|].
  intros n L HL. rewrite Hl in HL.
  apply last_Some in HL as [l' Hl'].
  assert (Hin : L ∈ filter (fun L => Layer.number L = n) (declared_layers drawing)).
  { rewrite Hl'. apply elem_of_app. right. apply list_elem_of_here. }
  apply list_elem_of_filter in Hin as [Hn Hin]. split; [exact Hn|].
  unfold declared_layers in Hin.
  apply list_elem_of_bind in Hin as (l & HL & Hlin).
  exists l. split; [exact Hlin|].
  destruct (layer_of_xml l) as [L'| |]; cbn in HL.
  - apply list_elem_of_singleton in HL. congruence.
  - apply elem_of_nil in HL. destruct HL.
  - apply elem_of_nil in HL. destruct HL.
Qed.

Lemma X12_layer_table_last_wins_witness :
  exists drawing brd,
    ET.find board_xml "drawing" = Some drawing /\
    ET.find drawing "board" = Some brd /\
    (forall n : Z,
       Board.layers (board_of (SrcTree board_xml)) !! n
       = last (filter (fun L => Layer.number L = n) (declared_layers drawing))) /\
    (forall n L, Board.layers (board_of (SrcTree board_xml)) !! n = Some L ->
       Layer.number L = n /\
       exists l, l ∈ layer_elements drawing /\ layer_of_xml l = Ok L).
Proof.
  eexists _, _. split; [reflexivity|]. split; [reflexivity|].
  eapply (X12_layer_table_last_wins board_xml).
  - reflexivity.
  - reflexivity.
  - apply returned_board_of. reflexivity.
Defined.

(** The packages of the file that bear a given name, in document order. *)
Lemma parsed_board_packages_last (drawing brd : ET.element) (name : string) :
  Board.packages (parsed_board drawing brd) !! name
  = pkg_shapes <$> last (filter (fun pkg => ET.get pkg "name" "" = name)
                                (lib_packages brd)).
Proof.
  destruct (parsed_board_fields drawing brd) as (_ & _ & _ & _ & ->).
  apply (enter_packages_last (fun pkg => ET.get pkg "name" "")).
Qed.

(** X13: in the board [parse] returns, the package table is keyed by the
    package name alone: under each name it holds the shapes of the last
    package of that name in the file, whichever library declares it.  A
    placement whose package name no library declares is drawn with no shape
    at all, and the bounds scan takes just its position from it. *)
Theorem X13_package_table_last_wins (root drawing brd : ET.element) (b : Board.t) :
  ET.find root "drawing" = Some drawing ->
  ET.find drawing "board" = Some brd ->
  parse (SrcTree root) = Returns b ->
  (forall name : string,
     Board.packages b !! name
     = pkg_shapes <$> last (filter (fun pkg => ET.get pkg "name" "" = name)
                                   (lib_packages brd))) /\
  (forall e vis xs ys,
     e ∈ Board.elements b ->
     (forall pkg, pkg ∈ lib_packages brd ->
                  ET.get pkg "name" "" <> Element.package e) ->
     BRDViewer._draw_element_shapes b e vis = Ok [] /\
     scan_element (Board.packages b) (xs, ys) e
     = Ok (xs ++ [Element.x e], ys ++ [Element.y e])).
Proof.
  intros Hd Hb Hp.
  pose proof Hp as Hret.
  apply parse_returns in Hp as (root' & drawing' & brd' & c & Hsrc & Hd' & Hb' & Hs & ->).
  injection Hsrc as <-. rewrite Hd in Hd'. injection Hd' as <-.
  rewrite Hb in Hb'. injection Hb' as <-.
  cbn [Board.set_bounds Board.packages Board.elements].
  split; [apply parsed_board_packages_last|].
  intros e vis xs ys He Hno.
  assert (Hnone : Board.packages (parsed_board drawing brd) !! Element.package e
                  = None).
  { rewrite parsed_board_packages_last.
    destruct (last _) as [pkg|] eqn:Hl; [|reflexivity]. exfalso.
    apply last_Some in Hl as [l' Hl'].
    assert (Hin : pkg ∈ filter (fun pkg => ET.get pkg "name" "" = Element.package e)
                               (lib_packages brd)).
    { rewrite Hl'. apply elem_of_app. right. apply list_elem_of_here. }
    apply list_elem_of_filter in Hin as [Hn Hin]. exact (Hno pkg Hin Hn). }
  pose proof (scan_readable _ _ Hs) as Hr.
  unfold rotations_readable in Hr. rewrite Forall_forall in Hr.
  destruct (Hr e He) as [a Ha].
  unfold BRDViewer._draw_element_shapes, scan_element.
  cbn [Board.set_bounds Board.packages].
  rewrite Hnone. change (BRDViewer._parse_rot (Element.rot e))
    with (EagleParser._parse_rot (Element.rot e)).
  rewrite Ha. split; reflexivity.
Qed.

Lemma X13_package_table_last_wins_witness :
  exists drawing brd,
    ET.find (one_element_doc "R90") "drawing" = Some drawing /\
    ET.find drawing "board" = Some brd /\
    (forall name : string,
       Board.packages (board_of (SrcTree (one_element_doc "R90"))) !! name
       = pkg_shapes <$> last (filter (fun pkg => ET.get pkg "name" "" = name)
                                     (lib_packages brd))) /\
    BRDViewer._draw_element_shapes
      (board_of (SrcTree (one_element_doc "R90")))
      (Element.mk "U1" "" "" "P" 1 2 "R90") ∅ = Ok [] /\
    scan_element (Board.packages (board_of (SrcTree (one_element_doc "R90"))))
                 ([], []) (Element.mk "U1" "" "" "P" 1 2 "R90")
    = Ok ([] ++ [1%R], [] ++ [2%R]).
Proof.
  eexists _, _. split; [reflexivity|]. split; [reflexivity|].
  edestruct (X13_package_table_last_wins (one_element_doc "R90")) as [H1 H2];
    [reflexivity | reflexivity | apply returned_board_of; reflexivity |].
  split; [exact H1|].
  apply (H2 (Element.mk "U1" "" "" "P" 1 2 "R90") ∅ [] []).
  - apply list_elem_of_here.
  - intros pkg Hpkg. destruct (not_elem_of_nil _ Hpkg).
Defined.

(** X14: every polygon of the board [parse] returns, and every polygon in
    its package table, has at least three vertices, as many as its
    [<polygon>] element has [<vertex>] children: a polygon one of whose
    vertices cannot be read is dropped as a whole, not stored without that
    vertex. *)
Theorem X14_polygons_keep_all_vertices (src : source) (b : Board.t) :
  parse src = Returns b ->
  (forall p, p ∈ Board.polygons b ->
     (3 <= length (Polygon.vertices p))%nat /\
     exists el net,
       polygon_of_xml el net = Ok p /\
       length (Polygon.vertices p) = length (ET.findall el "vertex")) /\
  (forall name shapes p,
     Board.packages b !! name = Some shapes -> SPolygon p ∈ shapes ->
     (3 <= length (Polygon.vertices p))%nat /\
     exists el,
       polygon_of_xml el "" = Ok p /\
       length (Polygon.vertices p) = length (ET.findall el "vertex")).
Proof.
  intros Hp.
  apply parse_returns in Hp as (root & drawing & brd & c & _ & _ & _ & _ & ->).
  cbn [Board.set_bounds Board.polygons Board.packages].
  destruct (parsed_board_fields drawing brd) as (_ & _ & _ & Hpolys & _).
  split.
  - intros p Hin. rewrite Hpolys in Hin.
    destruct (signals_delta_fields brd) as (ws & vs & ps & Hsig & Hps).
    destruct (plain_delta_fields brd) as (ws' & ps' & ss' & gs' & ts' & Hpl & Hgs).
    rewrite Hsig, Hpl in Hin. cbn [Delta.polygons] in Hin.
    apply elem_of_app in Hin as [Hin|Hin].
    + destruct (Hgs p Hin) as (el & Hel).
      destruct (polygon_of_xml_vertices el "" p Hel) as [H3 Hlen]. eauto.
    + destruct (Hps p Hin) as (el & net & Hel).
      destruct (polygon_of_xml_vertices el net p Hel) as [H3 Hlen]. eauto.
  - intros name shapes p Hlook Hin.
    apply parsed_board_package in Hlook as (pkg & _ & _ & ->).
    apply pkg_shapes_polygon in Hin. unfold pkg_polygons in Hin.
    apply elem_of_read in Hin as (el & _ & Hel).
    destruct (polygon_of_xml_vertices el "" p Hel) as [H3 Hlen]. eauto.
Qed.

Lemma X14_polygons_keep_all_vertices_witness :
  length (Board.polygons (board_of (SrcTree board_xml))) = 3%nat /\
  (forall p, p ∈ Board.polygons (board_of (SrcTree board_xml)) ->
     (3 <= length (Polygon.vertices p))%nat /\
     exists el net,
       polygon_of_xml el net = Ok p /\
       length (Polygon.vertices p) = length (ET.findall el "vertex")) /\
  (forall name shapes p,
     Board.packages (board_of (SrcTree board_xml)) !! name = Some shapes ->
     SPolygon p ∈ shapes ->
     (3 <= length (Polygon.vertices p))%nat /\
     exists el,
       polygon_of_xml el "" = Ok p /\
       length (Polygon.vertices p) = length (ET.findall el "vertex")).
Proof.
  split; [reflexivity|].
  apply (X14_polygons_keep_all_vertices (SrcTree board_xml)).
  apply returned_board_of. reflexivity.
Defined.

(** Which names [_populate_nets] collects. *)
Lemma collect_nets_spec (b : Board.t) (n : string) :
  n ∈ BRDViewer.collect_nets b <->
  n <> "" /\
  ((exists w, w ∈ Board.wires b /\ Wire.net w = n) \/
   (exists v, v ∈ Board.vias b /\ Via.net v = n) \/
   (exists p, p ∈ Board.polygons b /\ Polygon.net p = n)).
Proof.
  unfold BRDViewer.collect_nets.
  rewrite (collect_loop Polygon.net), (collect_loop Via.net),
          (collect_loop Wire.net), elem_of_empty.
  tauto.
Qed.

(** X15: in the board [parse] returns, net names come from [<signal>]
    elements only: a wire is of kind "package", "plain" or "signal", and
    only a signal wire carries a net, the name of its signal; every via
    carries the name of its signal; a polygon carries no net or the name of
    its signal.  So every entry of the net list box is the non-empty name of
    a signal of the file. *)
Theorem X15_nets_come_from_signals (root drawing brd : ET.element) (b : Board.t) :
  ET.find root "drawing" = Some drawing ->
  ET.find drawing "board" = Some brd ->
  parse (SrcTree root) = Returns b ->
  (forall w, w ∈ Board.wires b ->
     (Wire.kind w = "package" /\ Wire.net w = "") \/
     (Wire.kind w = "plain" /\ Wire.net w = "") \/
     (Wire.kind w = "signal" /\
      exists s, s ∈ signal_elements brd /\ Wire.net w = ET.get s "name" "")) /\
  (forall v, v ∈ Board.vias b ->
     exists s, s ∈ signal_elements brd /\ Via.net v = ET.get s "name" "") /\
  (forall p, p ∈ Board.polygons b ->
     Polygon.net p = "" \/
     exists s, s ∈ signal_elements brd /\ Polygon.net p = ET.get s "name" "") /\
  (forall n, n ∈ BRDViewer._populate_nets (Some b) ->
     n <> "" /\ exists s, s ∈ signal_elements brd /\ n = ET.get s "name" "").
Proof.
  intros Hd Hb Hp.
  apply parse_returns in Hp as (root' & drawing' & brd' & c & Hsrc & Hd' & Hb' & _ & ->).
  injection Hsrc as <-. rewrite Hd in Hd'. injection Hd' as <-.
  rewrite Hb in Hb'. injection Hb' as <-.
  set (b0 := parsed_board drawing brd).
  assert (Hw : forall w, w ∈ Board.wires b0 ->
     (Wire.kind w = "package" /\ Wire.net w = "") \/
     (Wire.kind w = "plain" /\ Wire.net w = "") \/
     (Wire.kind w = "signal" /\
      exists s, s ∈ signal_elements brd /\ Wire.net w = ET.get s "name" "")).
  { intros w Hin. subst b0.
    destruct (parsed_board_fields drawing brd) as (Hws & _).
    rewrite Hws, signals_delta_wires in Hin.
    apply elem_of_app in Hin as [Hin|Hin]; [|apply elem_of_app in Hin as [Hin|Hin]].
    - left. apply list_elem_of_bind in Hin as (pkg & Hin & _).
      unfold pkg_wires in Hin. apply elem_of_read in Hin as (el & _ & Hel).
      apply (wire_of_xml_kind _ _ _ Hel).
    - right; left. unfold plain_delta in Hin.
      destruct (ET.find brd "plain") as [plain|]; cbn [Delta.wires Delta.empty] in Hin.
      + apply elem_of_read in Hin as (el & _ & Hel).
        apply (wire_of_xml_kind _ _ _ Hel).
      + apply elem_of_nil in Hin. destruct Hin.
    - right; right. apply list_elem_of_bind in Hin as (s & Hin & Hs).
      apply elem_of_read in Hin as (el & _ & Hel).
      destruct (wire_of_xml el "signal") as [w0| |] eqn:Hw0;
        [|discriminate|discriminate].
      cbn in Hel. injection Hel as <-.
      destruct (wire_of_xml_kind _ _ _ Hw0) as [Hk _].
      split; [exact Hk|]. exists s. split; [exact Hs|reflexivity]. }
  assert (Hv : forall v, v ∈ Board.vias b0 ->
     exists s, s ∈ signal_elements brd /\ Via.net v = ET.get s "name" "").
  { intros v Hin. subst b0. rewrite parsed_board_vias in Hin.
    apply list_elem_of_bind in Hin as (s & Hin & Hs).
    apply elem_of_read in Hin as (el & _ & Hel).
    exists s. split; [exact Hs|]. apply (via_of_xml_net _ _ _ Hel). }
  assert (Hg : forall p, p ∈ Board.polygons b0 ->
     Polygon.net p = "" \/
     exists s, s ∈ signal_elements brd /\ Polygon.net p = ET.get s "name" "").
  { intros p Hin. subst b0.
    destruct (parsed_board_fields drawing brd) as (_ & _ & _ & Hps & _).
    rewrite Hps, signals_delta_polygons in Hin.
    apply elem_of_app in Hin as [Hin|Hin].
    - left. destruct (plain_delta_fields brd)
        as (ws' & ps' & ss' & gs' & ts' & Hpl & Hgs).
      rewrite Hpl in Hin. cbn [Delta.polygons] in Hin.
      destruct (Hgs p Hin) as (el & Hel).
      apply (polygon_of_xml_classified _ _ _ Hel).
    - right. apply list_elem_of_bind in Hin as (s & Hin & Hs).
      apply elem_of_read in Hin as (el & _ & Hel).
      exists s. split; [exact Hs|].
      apply (polygon_of_xml_classified _ _ _ Hel). }
  change (Board.wires (Board.set_bounds b0 _)) with (Board.wires b0).
  change (Board.vias (Board.set_bounds b0 _)) with (Board.vias b0).
  change (Board.polygons (Board.set_bounds b0 _)) with (Board.polygons b0).
  split; [exact Hw|]. split; [exact Hv|]. split; [exact Hg|].
  intros n Hn. unfold BRDViewer._populate_nets in Hn.
  rewrite merge_sort_Permutation in Hn. apply elem_of_elements in Hn.
  apply collect_nets_spec in Hn as (Hne & Hn). split; [exact Hne|].
  change (Board.wires (Board.set_bounds b0 _)) with (Board.wires b0) in Hn.
  change (Board.vias (Board.set_bounds b0 _)) with (Board.vias b0) in Hn.
  change (Board.polygons (Board.set_bounds b0 _)) with (Board.polygons b0) in Hn.
  destruct Hn as [(w & Hin & Heq)|[(v & Hin & Heq)|(p & Hin & Heq)]].
  - destruct (Hw w Hin) as [[_ H]|[[_ H]|(_ & s & Hs & H)]]; try congruence.
    exists s. split; [exact Hs|congruence].
  - destruct (Hv v Hin) as (s & Hs & H). exists s. split; [exact Hs|congruence].
  - destruct (Hg p Hin) as [H|(s & Hs & H)]; [congruence|].
    exists s. split; [exact Hs|congruence].
Qed.

Lemma X15_nets_come_from_signals_witness :
  BRDViewer._populate_nets (Some (board_of (SrcTree board_xml))) = ["GND"] /\
  exists drawing brd,
    ET.find board_xml "drawing" = Some drawing /\
    ET.find drawing "board" = Some brd /\
    (forall w, w ∈ Board.wires (board_of (SrcTree board_xml)) ->
       (Wire.kind w = "package" /\ Wire.net w = "") \/
       (Wire.kind w = "plain" /\ Wire.net w = "") \/
       (Wire.kind w = "signal" /\
        exists s, s ∈ signal_elements brd /\ Wire.net w = ET.get s "name" "")) /\
    (forall v, v ∈ Board.vias (board_of (SrcTree board_xml)) ->
       exists s, s ∈ signal_elements brd /\ Via.net v = ET.get s "name" "") /\
    (forall p, p ∈ Board.polygons (board_of (SrcTree board_xml)) ->
       Polygon.net p = "" \/
       exists s, s ∈ signal_elements brd /\ Polygon.net p = ET.get s "name" "") /\
    (forall n, n ∈ BRDViewer._populate_nets (Some (board_of (SrcTree board_xml))) ->
       n <> "" /\ exists s, s ∈ signal_elements brd /\ n = ET.get s "name" "").
Proof.
  split; [vm_compute; reflexivity|].
  eexists _, _. split; [reflexivity|]. split; [reflexivity|].
  eapply (X15_nets_come_from_signals board_xml).
  - reflexivity.
  - reflexivity.
  - apply returned_board_of. reflexivity.
Defined.

End ParsedTables.

(* ===================================================================== *)
(** * The net list, searching and selecting *)
(* ===================================================================== *)

Section SearchAndSelect.
Import Py Geometry EagleParser BRDViewer Examples.

(** The order of [sorted] on strings is a total preorder. *)
Lemma str_leb_trans (a b c : string) :
  String.leb a b = true -> String.leb b c = true -> String.leb a c = true.
Proof.
  unfold String.leb. revert b c.
  induction a as [|x a IH]; intros [|y b] [|z c]; cbn; try congruence.
  unfold Ascii.compare.
  destruct (N.compare_spec (N_of_ascii x) (N_of_ascii y)) as [Hxy|Hxy|Hxy],
           (N.compare_spec (N_of_ascii y) (N_of_ascii z)) as [Hyz|Hyz|Hyz],
           (N.compare_spec (N_of_ascii x) (N_of_ascii z)) as [Hxz|Hxz|Hxz];
    try congruence; try lia.
  apply IH.
Qed.

#[local] Instance str_le_trans : Transitive str_le.
Proof. intros a b c. unfold str_le. apply str_leb_trans. Qed.

#[local] Instance str_le_total : Total str_le.
Proof. intros a b. unfold str_le. apply String.leb_total. Qed.

Lemma StronglySorted_filter {A} (R : relation A) (f : A -> bool) (l : list A) :
  StronglySorted R l -> StronglySorted R (List.filter f l).
Proof.
  induction 1 as [|x l Hl IH Hx]; cbn; [constructor|].
  destruct (f x); [|exact IH]. constructor; [exact IH|].
  rewrite List.Forall_forall in *. intros y Hy.
  apply List.filter_In in Hy as [Hy _]. auto.
Qed.

Lemma NoDup_filter_bool {A} (f : A -> bool) (l : list A) :
  NoDup l -> NoDup (List.filter f l).
Proof.
  induction 1 as [|x l Hx Hl IH]; cbn; [constructor|].
  destruct (f x); [|exact IH]. constructor; [|exact IH].
  intros Hin. apply Hx. apply list_elem_of_In in Hin.
  apply List.filter_In in Hin as [Hin _]. apply list_elem_of_In. exact Hin.
Qed.

Lemma filter_all {A} (f : A -> bool) (l : list A) :
  (forall x, f x = true) -> List.filter f l = l.
Proof.
  intros Hf. induction l as [|x l IH]; cbn; [reflexivity|].
  rewrite Hf, IH. reflexivity.
Qed.

Lemma elem_of_filter_bool {A} (f : A -> bool) (l : list A) (x : A) :
  x ∈ List.filter f l <-> x ∈ l /\ f x = true.
Proof. rewrite !list_elem_of_In. apply List.filter_In. Qed.

(** X16: the net list box is in ascending order without repetition, and a
    search keeps, in that order, exactly the nets whose lower-cased name
    contains the lower-cased, stripped query; an empty or blank query keeps
    them all. *)
Theorem X16_net_search (self : self_t) (b : Board.t) (shown : list string) :
  board self = Some b ->
  let all := _populate_nets (Some b) in
  let found := _on_net_search self shown in
  let q := lower (strip (net_search_var self)) in
  StronglySorted str_le all /\ NoDup all /\
  StronglySorted str_le found /\ NoDup found /\ sublist found all /\
  (forall net, net ∈ found <->
               net ∈ all /\ (q = "" \/ str_in q (lower net) = true)) /\
  (q = "" -> found = all).
Proof.
  intros Hb all found q.
  assert (Hall : StronglySorted str_le all)
    by (apply StronglySorted_merge_sort; apply _).
  assert (Hnd : NoDup all).
  { unfold all, _populate_nets. rewrite merge_sort_Permutation.
    apply NoDup_elements. }
  assert (Hfound : found
            = List.filter (fun net => (q =? "")%string || str_in q (lower net)) all).
  { unfold found, _on_net_search. rewrite Hb. reflexivity. }
  split; [exact Hall|]. split; [exact Hnd|]. rewrite Hfound.
  split; [apply StronglySorted_filter; exact Hall|].
  split; [apply NoDup_filter_bool; exact Hnd|].
  split; [|split].
  - clear. induction all as [|x l IH]; cbn; [constructor|].
    destruct (_ || _); [apply sublist_skip | apply sublist_cons]; exact IH.
  - intros net. rewrite elem_of_filter_bool, orb_true_iff, String.eqb_eq.
    reflexivity.
  - intros Hq. rewrite Hq. apply filter_all. intros net. reflexivity.
Qed.

Lemma X16_net_search_witness :
  let self := searching (board_of (SrcTree board_xml)) "" " Gn " in
  let all := _populate_nets (Some (board_of (SrcTree board_xml))) in
  let found := _on_net_search self [] in
  let q := lower (strip (net_search_var self)) in
  (q = "gn" /\ found = ["GND"]) /\
  StronglySorted str_le all /\ NoDup all /\
  StronglySorted str_le found /\ NoDup found /\ sublist found all /\
  (forall net, net ∈ found <->
               net ∈ all /\ (q = "" \/ str_in q (lower net) = true)) /\
  (q = "" -> found = all).
Proof.
  split; [split; vm_compute; reflexivity|].
  apply (X16_net_search
           (searching (board_of (SrcTree board_xml)) "" " Gn ")
           (board_of (SrcTree board_xml)) []).
  reflexivity.
Defined.

Lemma index_Some {A} (l : list A) (i : Z) (x : A) :
  index l i = Some x -> x ∈ l /\ (0 <= i < Z.of_nat (length l))%Z.
Proof.
  unfold index. intros H.
  destruct ((0 <=? i)%Z && (i <? Z.of_nat (length l))%Z) eqn:Hi; [|discriminate].
  apply andb_true_iff in Hi as [H0 H1].
  apply Z.leb_le in H0. apply Z.ltb_lt in H1. split; [|lia].
  apply list_elem_of_In. eapply nth_error_In. exact H.
Qed.

(** X17: a click on a row of the net list box, as [_on_net_search] fills it
    for the current query, selects the net shown in that row: a non-empty
    net name of the board; it drops the selected component and leaves the
    view alone.  A row past the end of the list, or no row, changes
    nothing. *)
Theorem X17_net_select_picks_shown_row (self : self_t) (b : Board.t)
    (shown : list string) (idx : Z) :
  board self = Some b ->
  (forall n, index (_on_net_search self shown) idx = Some n ->
     let self' := _on_net_select self (Some idx) in
     selected_net self' = Some n /\ selected_element self' = None /\
     n <> "" /\ n ∈ collect_nets b /\
     ((exists w, w ∈ Board.wires b /\ Wire.net w = n) \/
      (exists v, v ∈ Board.vias b /\ Via.net v = n) \/
      (exists p, p ∈ Board.polygons b /\ Polygon.net p = n)) /\
     self' = set_selection self None (Some n)) /\
  (index (_on_net_search self shown) idx = None ->
   _on_net_select self (Some idx) = self) /\
  _on_net_select self None = self.
Proof.
  intros Hb. unfold _on_net_search, _on_net_select. rewrite Hb.
  split; [|split; [|reflexivity]].
  - intros n Hn. cbn zeta. rewrite Hn. cbn [set_selection selected_net selected_element].
    apply index_Some in Hn as [Hn _].
    apply elem_of_filter_bool in Hn as [Hn _].
    rewrite merge_sort_Permutation in Hn. apply elem_of_elements in Hn.
    pose proof (proj1 (collect_nets_spec b n) Hn) as [Hne Hsrc].
    repeat split; auto.
  - intros Hn. rewrite Hn. reflexivity.
Qed.

Lemma X17_net_select_picks_shown_row_witness :
  let self := searching (board_of (SrcTree board_xml)) "" "gn" in
  _on_net_search self [] = ["GND"] /\
  (forall n, index (_on_net_search self []) 0 = Some n ->
     let self' := _on_net_select self (Some 0%Z) in
     selected_net self' = Some n /\ selected_element self' = None /\
     n <> "" /\ n ∈ collect_nets (board_of (SrcTree board_xml)) /\
     ((exists w, w ∈ Board.wires (board_of (SrcTree board_xml)) /\ Wire.net w = n) \/
      (exists v, v ∈ Board.vias (board_of (SrcTree board_xml)) /\ Via.net v = n) \/
      (exists p, p ∈ Board.polygons (board_of (SrcTree board_xml))
                 /\ Polygon.net p = n)) /\
     self' = set_selection self None (Some n)) /\
  (index (_on_net_search self []) 0 = None ->
   _on_net_select self (Some 0%Z) = self) /\
  _on_net_select self None = self.
Proof.
  split; [vm_compute; reflexivity|].
  apply (X17_net_select_picks_shown_row
           (searching (board_of (SrcTree board_xml)) "" "gn")
           (board_of (SrcTree board_xml)) [] 0).
  reflexivity.
Defined.

Local Open Scope R_scope.



End SearchAndSelect.

(* ===================================================================== *)
(** * Opening a file and colouring its layers *)
(* ===================================================================== *)

Section OpenAndColour.
Import Py Geometry EagleParser BRDViewer Examples.




Lemma endswith_brd_nonempty (s : string) :
  endswith (lower s) ".brd" = true -> exists a s', s = String a s'.
Proof. destruct s as [|a s']; [discriminate | eauto]. Qed.

Lemma palette_hex (i : Z) (c : string) :
  palette !! i = Some c -> is_hex_color c = true.
Proof.
  intros H. apply elem_of_list_to_map_2 in H.
  repeat (apply elem_of_cons in H as [H|H];
          [injection H as _ ->; reflexivity|]).
  apply elem_of_nil in H. destruct H.
Qed.

Lemma map_hex (i : Z) (c : string) :
  map_ !! i = Some c -> is_hex_color c = true.
Proof.
  intros H. apply elem_of_list_to_map_2 in H.
  repeat (apply elem_of_cons in H as [H|H];
          [injection H as _ ->; reflexivity|]).
  apply elem_of_nil in H. destruct H.
Qed.

Lemma eagle_palette_hex (i : Z) : is_hex_color (_get_eagle_palette_color i) = true.
Proof.
  unfold _get_eagle_palette_color.
  destruct (palette !! i) as [c|] eqn:E; [exact (palette_hex _ _ E) | reflexivity].
Qed.

Lemma kicad_colour_hex (i : Z) : is_hex_color (_get_kicad_layer_color i) = true.
Proof.
  unfold _get_kicad_layer_color.
  destruct (map_ !! i) as [c|] eqn:E; [exact (map_hex _ _ E) | reflexivity].
Qed.

Lemma eagle_palette_outside (i : Z) :
  ~ 1 <= i <= 15 -> _get_eagle_palette_color i = "#FFFFFF".
Proof.
  intros H. unfold _get_eagle_palette_color, palette.
  rewrite (not_elem_of_list_to_map_1 _ i); [reflexivity|].
  cbn [fmap list_fmap fst]. rewrite !not_elem_of_cons.
  repeat split; try lia. apply not_elem_of_nil.
Qed.

(** [_layer_color] while a board from a [.brd] file is shown. *)
Lemma layer_color_eagle (self : self_t) (b : Board.t) (p : string) (n : Z) :
  board self = Some b -> file_path self = Some p ->
  endswith (lower p) ".brd" = true ->
  _layer_color self n
  = Some (_get_eagle_palette_color
            (Layer.color (default (Layer.mk 0 "" 7 true true)
                                  (Board.layers b !! n)))).
Proof.
  intros Hb Hp He. unfold _layer_color. rewrite Hp.
  destruct (endswith_brd_nonempty _ He) as (a & s' & ->).
  rewrite He, Hb. reflexivity.
Qed.

(** X19: [_layer_color] raises only when a [.brd] path is set without a
    board; every colour it returns is ['#'] followed by six hexadecimal
    digits.  For a [.brd] file the colour is the palette entry of the layer's
    colour index, and white both for a layer the table does not hold and for
    a colour index outside 1..15; for any other path, or none, it is the
    KiCad colour of the layer number, whatever the layer table says. *)
Theorem X19_layer_colour (self : self_t) (n : Z) :
  (_layer_color self n = None <->
   board self = None /\
   exists p, file_path self = Some p /\ endswith (lower p) ".brd" = true) /\
  (forall c, _layer_color self n = Some c -> is_hex_color c = true) /\
  (forall b p,
     board self = Some b -> file_path self = Some p ->
     endswith (lower p) ".brd" = true ->
     (Board.layers b !! n = None -> _layer_color self n = Some "#FFFFFF") /\
     (forall L, Board.layers b !! n = Some L ->
        _layer_color self n = Some (_get_eagle_palette_color (Layer.color L)) /\
        (~ 1 <= Layer.color L <= 15 -> _layer_color self n = Some "#FFFFFF"))) /\
  (file_path self = None \/
   (exists p, file_path self = Some p /\ endswith (lower p) ".brd" = false) ->
   _layer_color self n = Some (_get_kicad_layer_color n)).
Proof.
  split; [|split; [|split]].
  - unfold _layer_color. split.
    + destruct (file_path self) as [[|a s]|] eqn:Hp; try discriminate.
      destruct (endswith (lower (String a s)) ".brd") eqn:He; [|discriminate].
      destruct (board self) eqn:Hb; [discriminate|]. eauto.
    + intros (Hb & p & Hp & He). rewrite Hp.
      destruct (endswith_brd_nonempty _ He) as (a & s' & ->).
      rewrite He, Hb. reflexivity.
  - intros c. unfold _layer_color.
    destruct (file_path self) as [[|a s]|].
    + intros [= <-]. apply kicad_colour_hex.
    + destruct (endswith (lower (String a s)) ".brd").
      * destruct (board self); [|discriminate].
        intros [= <-]. apply eagle_palette_hex.
      * intros [= <-]. apply kicad_colour_hex.
    + intros [= <-]. apply kicad_colour_hex.
  - intros b p Hb Hp He.
    rewrite (layer_color_eagle self b p n Hb Hp He). split.
    + intros ->. reflexivity.
    + intros L ->. split; [reflexivity|].
      intros H. f_equal. exact (eagle_palette_outside _ H).
  - unfold _layer_color. intros [->|(p & -> & He)]; [reflexivity|].
    destruct p as [|a s]; [reflexivity|]. rewrite He. reflexivity.
Qed.

Lemma X19_layer_colour_witness :
  _layer_color (viewing (board_of (SrcTree board_xml))) 1 = Some "#FF0000" /\
  _layer_color (viewing (board_of (SrcTree board_xml))) 16 = Some "#FFFFFF" /\
  is_hex_color "#FF0000" = true.
Proof.
  destruct (X19_layer_colour (viewing (board_of (SrcTree board_xml))) 1)
    as (_ & Hhex & H1 & _).
  destruct (X19_layer_colour (viewing (board_of (SrcTree board_xml))) 16)
    as (_ & _ & H16 & _).
  destruct (H1 (board_of (SrcTree board_xml)) "demo.brd" eq_refl eq_refl eq_refl)
    as [_ H1'].
  destruct (H1' (Layer.mk 1 "Top" 4 true true)) as [E1 _];
    [vm_compute; reflexivity|].
  destruct (H16 (board_of (SrcTree board_xml)) "demo.brd" eq_refl eq_refl eq_refl)
    as [E16 _].
  split; [exact E1|]. split; [apply E16; vm_compute; reflexivity|].
  apply Hhex. exact E1.
Defined.

Local Open Scope R_scope.



End OpenAndColour.

(* ===================================================================== *)
(** * Drawing the placements of a parsed board *)
(* ===================================================================== *)

Section DrawParsed.
Import Py Geometry EagleParser BRDViewer Examples.
Local Open Scope R_scope.







End DrawParsed.

(* ===================================================================== *)
(** * The grid *)
(* ===================================================================== *)

Section Grid.
Import Py Geometry EagleParser BRDViewer Examples.
Local Open Scope R_scope.

Section Loop.
Variable add : R -> R -> R.
Variables end_ step_world : R.




End Loop.






End Grid.

(* ===================================================================== *)
(** * The layer check boxes *)
(* ===================================================================== *)

Section LayerBoxes.
Import Py Geometry EagleParser BRDViewer Examples.

(** Entering boxes one by one: the last layer of a number decides. *)
Lemma fold_checks_last (ls : list Layer.t) (n : Z) :
  fold_left (fun layer_checks L =>
               <[Layer.number L := Layer.visible L]> layer_checks) ls
            (∅ : gmap Z bool) !! n
  = Layer.visible <$> last (filter (fun L => Layer.number L = n) ls).
Proof.
  induction ls as [|L ls IH] using rev_ind; [apply lookup_empty|].
  rewrite fold_left_app. cbn [fold_left]. rewrite filter_app.
  destruct (decide (Layer.number L = n)) as [Heq|Hne].
  - rewrite Heq, lookup_insert_eq.
    rewrite filter_cons_True by exact Heq. cbn [filter list_filter].
    rewrite last_snoc. reflexivity.
  - rewrite lookup_insert_ne by exact Hne.
    rewrite filter_cons_False by exact Hne. cbn [filter list_filter].
    rewrite app_nil_r. exact IH.
Qed.

(** Among layers of pairwise different numbers, the layer of a number. *)
Lemma last_of_number (ls : list Layer.t) (n : Z) (L : Layer.t) :
  NoDup (Layer.number <$> ls) ->
  L ∈ ls -> Layer.number L = n ->
  last (filter (fun L => Layer.number L = n) ls) = Some L.
Proof.
  intros Hnd HL Hn.
  assert (Hin : L ∈ filter (fun L => Layer.number L = n) ls)
    by (apply list_elem_of_filter; split; assumption).
  assert (Hnd' : NoDup (Layer.number <$>
                          filter (fun L => Layer.number L = n) ls)).
  { eapply sublist_NoDup; [exact Hnd|].
    apply fmap_sublist, sublist_filter. }
  assert (Hall : forall x, x ∈ filter (fun L => Layer.number L = n) ls ->
                           Layer.number x = n).
  { intros x Hx. apply list_elem_of_filter in Hx as [Hx _]. exact Hx. }
  destruct (filter (fun L => Layer.number L = n) ls) as [|a [|c l]].
  - apply elem_of_nil in Hin. destruct Hin.
  - apply list_elem_of_singleton in Hin. subst a. reflexivity.
  - exfalso. cbn [fmap list_fmap] in Hnd'.
    apply NoDup_cons in Hnd' as [Hnot _]. apply Hnot.
    rewrite (Hall a) by apply list_elem_of_here.
    rewrite <- (Hall c) by apply list_elem_of_further, list_elem_of_here.
    apply list_elem_of_here.
Qed.

(** A table that holds each layer under its own number gets one box per
    entry, ticked as the entry is visible. *)
Lemma populate_layers_lookup (b : Board.t) (n : Z) :
  (forall k L, Board.layers b !! k = Some L -> Layer.number L = k) ->
  _populate_layers (Some b) !! n = Layer.visible <$> (Board.layers b !! n).
Proof.
  intros Hkey. unfold _populate_layers. cbv zeta.
  rewrite fold_checks_last.
  set (vs := (map_to_list (Board.layers b)).*2).
  set (sorted := merge_sort layer_le vs).
  assert (Hperm : sorted ≡ₚ vs) by apply merge_sort_Permutation.
  assert (Hmem : forall L, L ∈ sorted <->
                           Board.layers b !! Layer.number L = Some L).
  { intros L. rewrite Hperm. unfold vs. rewrite list_elem_of_fmap. split.
    - intros ([k L'] & -> & Hin). apply elem_of_map_to_list in Hin.
      cbn [snd]. rewrite (Hkey k L' Hin). exact Hin.
    - intros HL. exists (Layer.number L, L). split; [reflexivity|].
      apply elem_of_map_to_list. exact HL. }
  assert (Hnd : NoDup (Layer.number <$> sorted)).
  { rewrite Hperm. unfold vs.
    assert (Heq : Layer.number <$> (map_to_list (Board.layers b)).*2
                  = (map_to_list (Board.layers b)).*1).
    { rewrite <- list_fmap_compose. apply list_fmap_ext.
      intros i [k L] Hi. cbn.
      apply list_elem_of_lookup_2, elem_of_map_to_list in Hi.
      exact (Hkey k L Hi). }
    rewrite Heq. apply NoDup_fst_map_to_list. }
  destruct (Board.layers b !! n) as [L|] eqn:HL.
  - pose proof (Hkey n L HL) as Hn.
    rewrite (last_of_number sorted n L Hnd); [reflexivity| |exact Hn].
    apply Hmem. rewrite Hn. exact HL.
  - destruct (last (filter (fun L => Layer.number L = n) sorted))
      as [L|] eqn:Hlast; [|reflexivity].
    exfalso. apply last_Some_elem_of, list_elem_of_filter in Hlast as [Hn HL'].
    apply Hmem in HL'. rewrite Hn, HL in HL'. discriminate HL'.
Qed.

Lemma parsed_layers_keyed (src : source) (b : Board.t) :
  parse src = Returns b ->
  forall k L, Board.layers b !! k = Some L -> Layer.number L = k.
Proof.
  intros Hp k L HL.
  apply parse_returns in Hp as (root & drawing & brd & c & _ & _ & _ & _ & ->).
  cbn [Board.layers Board.set_bounds] in HL.
  rewrite parsed_board_layers, enter_layers_last in HL.
  apply last_Some_elem_of, list_elem_of_filter in HL as [Hn _]. exact Hn.
Qed.

Lemma visible_layers_spec (layer_checks : gmap Z bool) (n : Z) :
  n ∈ visible_layers layer_checks <-> layer_checks !! n = Some true.
Proof.
  unfold visible_layers. rewrite elem_of_dom. split.
  - intros [v Hv]. apply map_lookup_filter_Some in Hv as [Hv Ht].
    cbn in Ht. rewrite Hv, Ht. reflexivity.
  - intros Hv. exists true. apply map_lookup_filter_Some.
    split; [exact Hv | reflexivity].
Qed.

(** Whatever is drawn for a placement is on a visible layer. *)
Lemma drawn_on_visible (b : Board.t) (e : Element.t) (vis : gset Z)
    (ds : list drawn) (d : drawn) :
  _draw_element_shapes b e vis = Ok ds -> d ∈ ds -> drawn_layer d ∈ vis.
Proof.
  unfold _draw_element_shapes.
  destruct (BRDViewer._parse_rot (Element.rot e)) as [a| |];
    [|discriminate|discriminate].
  cbn [mbind result_bind]. intros [= <-] Hd.
  apply list_elem_of_In, in_concat in Hd as (l & Hl & Hd).
  apply in_map_iff in Hl as (sh & <- & _).
  apply list_elem_of_In in Hd.
  destruct (draw_shape_item _ _ _ _ _ _ _ Hd) as (_ & -> & Hv). exact Hv.
Qed.

(** X23: for a board that [parse] returned, [_populate_layers] makes one
    check box for each layer of the table and no other, ticked exactly when
    the layer is declared visible; so at first the visible layers are the
    ones the table holds as visible.  However the boxes are ticked
    afterwards, only layers of the table can be visible, and whatever is
    drawn for a placement is on a layer of the table whose box is ticked:
    a package shape on a layer the file does not declare is never drawn. *)
Theorem X23_layer_boxes (src : source) (b : Board.t)
    (layer_checks : gmap Z bool) :
  parse src = Returns b ->
  dom layer_checks = dom (_populate_layers (Some b)) ->
  (forall n, _populate_layers (Some b) !! n
             = Layer.visible <$> (Board.layers b !! n)) /\
  (forall n, n ∈ visible_layers (_populate_layers (Some b)) <->
             exists L, Board.layers b !! n = Some L /\
                       Layer.visible L = true) /\
  visible_layers layer_checks ⊆ dom (Board.layers b) /\
  (forall e ds d,
     _draw_element_shapes b e (visible_layers layer_checks) = Ok ds ->
     d ∈ ds ->
     is_Some (Board.layers b !! drawn_layer d) /\
     layer_checks !! drawn_layer d = Some true).
Proof.
  intros Hp Hdom.
  pose proof (parsed_layers_keyed src b Hp) as Hkey.
  assert (Hpop : forall n, _populate_layers (Some b) !! n
                           = Layer.visible <$> (Board.layers b !! n))
    by (intros n; apply populate_layers_lookup; exact Hkey).
  assert (Hsub : visible_layers layer_checks ⊆ dom (Board.layers b)).
  { intros n Hn. apply visible_layers_spec in Hn.
    assert (Hd : n ∈ dom layer_checks) by (apply elem_of_dom; eauto).
    rewrite Hdom in Hd. apply elem_of_dom in Hd as [v Hv].
    rewrite Hpop in Hv. apply elem_of_dom.
    destruct (Board.layers b !! n) as [L|]; [eauto | discriminate Hv]. }
  split; [exact Hpop|]. split; [|split; [exact Hsub|]].
  - intros n. rewrite visible_layers_spec, Hpop. split.
    + destruct (Board.layers b !! n) as [L|]; [|discriminate].
      intros [= Hv]. eauto.
    + intros (L & -> & Hv). cbn. rewrite Hv. reflexivity.
  - intros e ds d Hds Hd.
    pose proof (drawn_on_visible b e _ ds d Hds Hd) as Hv.
    split.
    + apply elem_of_dom, Hsub, Hv.
    + apply visible_layers_spec, Hv.
Qed.

Lemma X23_layer_boxes_witness :
  _populate_layers (Some (board_of (SrcTree board_xml))) !! 1%Z = Some true /\
  _populate_layers (Some (board_of (SrcTree board_xml))) !! 16%Z = None /\
  visible_layers (<[1%Z := false]> (_populate_layers
                                      (Some (board_of (SrcTree board_xml)))))
  ⊆ dom (Board.layers (board_of (SrcTree board_xml))).
Proof.
  assert (Hp : parse (SrcTree board_xml)
               = Returns (board_of (SrcTree board_xml))).
  { apply returned_board_of. reflexivity. }
  destruct (X23_layer_boxes (SrcTree board_xml) (board_of (SrcTree board_xml))
              (<[1%Z := false]> (_populate_layers
                                   (Some (board_of (SrcTree board_xml)))))
              Hp) as (H1 & _ & H3 & _).
  - rewrite dom_insert_L.
    assert (Hin : 1%Z ∈ dom (_populate_layers
                               (Some (board_of (SrcTree board_xml))))).
    { apply elem_of_dom. exists true.
      destruct (X23_layer_boxes (SrcTree board_xml)
                  (board_of (SrcTree board_xml))
                  (_populate_layers (Some (board_of (SrcTree board_xml))))
                  Hp eq_refl) as (H1 & _).
      rewrite H1. vm_compute. reflexivity. }
    set_solver.
  - split; [rewrite H1; vm_compute; reflexivity|].
    split; [rewrite H1; vm_compute; reflexivity|]. exact H3.
Defined.

End LayerBoxes.

(* ===================================================================== *)
(** * Package shapes: the flat lists and the package table *)
(* ===================================================================== *)

Section PackageShapes.
Import Py Geometry EagleParser Doc Examples.

Lemma filter_none {A} (P : A -> Prop) `{forall x, Decision (P x)} (l : list A) :
  (forall x, x ∈ l -> ~ P x) -> filter P l = [].
Proof.
  induction l as [|a l IH]; intros Hl; [reflexivity|].
  rewrite filter_cons_False by (apply Hl, list_elem_of_here).
  apply IH. intros x Hx. apply Hl, list_elem_of_further, Hx.
Qed.

(** The last entry with a property is the one that no later entry shares
    it with. *)
Lemma last_filter_at {A} (P : A -> Prop) `{forall x, Decision (P x)}
    (l : list A) (i : nat) (x : A) :
  l !! i = Some x -> P x ->
  (forall j y, (i < j)%nat -> l !! j = Some y -> ~ P y) ->
  last (filter P l) = Some x.
Proof.
  intros Hi Hx Hlater.
  rewrite <- (take_drop_middle l i x Hi), filter_app.
  rewrite filter_cons_True by exact Hx.
  rewrite (filter_none P (drop (S i) l)).
  - apply last_snoc.
  - intros y Hy. apply list_elem_of_lookup in Hy as [k Hk].
    rewrite lookup_drop in Hk. apply (Hlater (S i + k)%nat); [lia | exact Hk].
Qed.

(** C10 as stated fails on a file with two packages of one name: the wire
    of the first package P is in the flat wire list of the returned board,
    but the table holds under P the shape list of the second package, so
    the wire is in no shape list that the board stores. *)
Lemma C10_counterexample :
  exists b,
    parse (SrcTree twin_packages_doc) = Returns b /\
    Board.wires b = [Wire.mk 0 0 1 0 (2 / 10) 21 "package" ""] /\
    Board.packages b !! "P"
    = Some [SCircle (Circle.mk 0 0 2 (1 / 10) 21)] /\
    forall name shapes,
      Board.packages b !! name = Some shapes ->
      SWire (Wire.mk 0 0 1 0 (2 / 10) 21 "package" "") ∉ shapes.
Proof.
  exists (board_of (SrcTree twin_packages_doc)).
  split; [apply returned_board_of; reflexivity|]. split; [reflexivity|].
  assert (Htab : Board.packages (board_of (SrcTree twin_packages_doc))
                 = <["P" := [SCircle (Circle.mk 0 0 2 (1 / 10) 21)]]> ∅)
    by reflexivity.
  rewrite Htab. split; [apply lookup_insert_eq|].
  intros name shapes H.
  destruct (decide (name = "P")) as [->|Hne].
  - rewrite lookup_insert_eq in H. injection H as <-.
    intros Hin. apply list_elem_of_singleton in Hin. discriminate Hin.
  - rewrite lookup_insert_ne, lookup_empty in H by congruence.
    discriminate H.
Qed.

(** C10, amended: in a board that [parse] returns, every wire, pad and
    surface-mount pad read from a package of a library is in the board's
    flat list of its kind, as read (package coordinates, nothing applied).
    The shape list of the package - its wires, pads, surface-mount pads,
    circles, rectangles and polygons, in this order - is what the package
    table holds under the package's name, unless a later package of the
    file has the same name and replaces it.  Each entry of the table is the
    shape list of a package of the file.  The flat lists are, in full, the
    package records followed by those of [plain] (and, for wires, of the
    signals), while the polygon list holds the polygons of [plain] and of
    the signals only: circles, rectangles and polygons of a package are in
    its shape list and nowhere else. *)
Theorem C10_package_shapes_in_flat_lists (src : source) (b : Board.t) :
  parse src = Returns b ->
  exists root drawing brd,
    src = SrcTree root /\
    ET.find root "drawing" = Some drawing /\
    ET.find drawing "board" = Some brd /\
    (forall i pkg, lib_packages brd !! i = Some pkg ->
       (forall el w, el ∈ ET.findall pkg "wire" ->
                     wire_of_xml el "package" = Ok w -> w ∈ Board.wires b) /\
       (forall el p, el ∈ ET.findall pkg "pad" ->
                     pad_of_xml el = Ok p -> p ∈ Board.pads b) /\
       (forall el s, el ∈ ET.findall pkg "smd" ->
                     smd_of_xml el = Ok s -> s ∈ Board.smds b) /\
       ((forall j pkg', (i < j)%nat -> lib_packages brd !! j = Some pkg' ->
                        ET.get pkg' "name" "" <> ET.get pkg "name" "") ->
        Board.packages b !! ET.get pkg "name" ""
        = Some ((SWire <$> read (fun el => wire_of_xml el "package") pkg "wire")
                ++ (SPad <$> read pad_of_xml pkg "pad")
                ++ (SSMD <$> read smd_of_xml pkg "smd")
                ++ (SCircle <$> read _add_circle_from_xml pkg "circle")
                ++ (SRect <$> read _add_rect_from_xml pkg "rectangle")
                ++ (SPolygon
                      <$> read (fun el => polygon_of_xml el "") pkg "polygon")))) /\
    (forall name shapes,
       Board.packages b !! name = Some shapes ->
       (exists pkg, pkg ∈ lib_packages brd /\
                    name = ET.get pkg "name" "" /\ shapes = pkg_shapes pkg) /\
       (forall w, SWire w ∈ shapes -> w ∈ Board.wires b) /\
       (forall p, SPad p ∈ shapes -> p ∈ Board.pads b) /\
       (forall s, SSMD s ∈ shapes -> s ∈ Board.smds b)) /\
    Board.wires b = (lib_packages brd ≫= pkg_wires)
                    ++ Delta.wires (plain_delta brd)
                    ++ Delta.wires (signals_delta brd) /\
    Board.pads b = (lib_packages brd ≫= pkg_pads) ++ Delta.pads (plain_delta brd) /\
    Board.smds b = (lib_packages brd ≫= pkg_smds) ++ Delta.smds (plain_delta brd) /\
    Board.polygons b = Delta.polygons (plain_delta brd)
                       ++ Delta.polygons (signals_delta brd).
Proof.
  intros H.
  apply parse_returns in H as (root & drawing & brd & c & -> & Hd & Hb & Hs & ->).
  exists root, drawing, brd.
  split; [reflexivity|]. split; [exact Hd|]. split; [exact Hb|].
  destruct (parsed_board_fields drawing brd) as (Hw & Hp & Hsm & Hpoly & Hpk).
  cbn [Board.wires Board.pads Board.smds Board.polygons Board.packages
       Board.set_bounds].
  assert (Hdecl : forall pkg, pkg ∈ lib_packages brd ->
       (forall w, w ∈ pkg_wires pkg ->
                  w ∈ Board.wires (parsed_board drawing brd)) /\
       (forall p, p ∈ pkg_pads pkg ->
                  p ∈ Board.pads (parsed_board drawing brd)) /\
       (forall s, s ∈ pkg_smds pkg ->
                  s ∈ Board.smds (parsed_board drawing brd))).
  { intros pkg Hpkg. split; [|split].
    - intros w Hin.
      rewrite Hw. apply elem_of_app. left. apply list_elem_of_bind. eauto.
    - intros p Hin.
      rewrite Hp. apply elem_of_app. left. apply list_elem_of_bind. eauto.
    - intros s Hin.
      rewrite Hsm. apply elem_of_app. left. apply list_elem_of_bind. eauto. }
  split; [|split; [|auto]].
  - intros i pkg Hi.
    assert (Hpkg : pkg ∈ lib_packages brd)
      by (apply list_elem_of_lookup; eauto).
    destruct (Hdecl pkg Hpkg) as (H1 & H2 & H3).
    split; [|split; [|split]].
    + intros el w Hel Hr. apply H1. unfold pkg_wires.
      apply elem_of_read. eauto.
    + intros el p Hel Hr. apply H2. unfold pkg_pads.
      apply elem_of_read. eauto.
    + intros el s Hel Hr. apply H3. unfold pkg_smds.
      apply elem_of_read. eauto.
    + intros Hlast. rewrite parsed_board_packages_last.
      rewrite (last_filter_at _ _ i pkg Hi eq_refl Hlast). reflexivity.
  - intros name shapes Hlook.
    apply parsed_board_package in Hlook as (pkg & Hpkg & -> & ->).
    destruct (Hdecl pkg Hpkg) as (H1 & H2 & H3).
    split; [eauto|]. split; [|split].
    + intros w Hin. apply pkg_shapes_wire in Hin. apply H1, Hin.
    + intros p Hin. apply pkg_shapes_pad in Hin. apply H2, Hin.
    + intros s Hin. apply pkg_shapes_smd in Hin. apply H3, Hin.
Qed.

Lemma C10_package_shapes_in_flat_lists_witness :
  parse (SrcTree board_xml) = Returns (board_of (SrcTree board_xml)) /\
  length (Board.wires (board_of (SrcTree board_xml))) = 3%nat /\
  length (Board.pads (board_of (SrcTree board_xml))) = 1%nat /\
  length (Board.smds (board_of (SrcTree board_xml))) = 1%nat /\
  (length <$> Board.packages (board_of (SrcTree board_xml)) !! "P")
  = Some 6%nat /\
  exists root drawing brd,
    SrcTree board_xml = SrcTree root /\
    ET.find root "drawing" = Some drawing /\
    ET.find drawing "board" = Some brd /\
    (forall i pkg, lib_packages brd !! i = Some pkg ->
       (forall el w, el ∈ ET.findall pkg "wire" ->
                     wire_of_xml el "package" = Ok w ->
                     w ∈ Board.wires (board_of (SrcTree board_xml))) /\
       (forall el p, el ∈ ET.findall pkg "pad" ->
                     pad_of_xml el = Ok p ->
                     p ∈ Board.pads (board_of (SrcTree board_xml))) /\
       (forall el s, el ∈ ET.findall pkg "smd" ->
                     smd_of_xml el = Ok s ->
                     s ∈ Board.smds (board_of (SrcTree board_xml))) /\
       ((forall j pkg', (i < j)%nat -> lib_packages brd !! j = Some pkg' ->
                        ET.get pkg' "name" "" <> ET.get pkg "name" "") ->
        Board.packages (board_of (SrcTree board_xml)) !! ET.get pkg "name" ""
        = Some ((SWire <$> read (fun el => wire_of_xml el "package") pkg "wire")
                ++ (SPad <$> read pad_of_xml pkg "pad")
                ++ (SSMD <$> read smd_of_xml pkg "smd")
                ++ (SCircle <$> read _add_circle_from_xml pkg "circle")
                ++ (SRect <$> read _add_rect_from_xml pkg "rectangle")
                ++ (SPolygon
                      <$> read (fun el => polygon_of_xml el "") pkg "polygon")))) /\
    (forall name shapes,
       Board.packages (board_of (SrcTree board_xml)) !! name = Some shapes ->
       (exists pkg, pkg ∈ lib_packages brd /\
                    name = ET.get pkg "name" "" /\ shapes = pkg_shapes pkg) /\
       (forall w, SWire w ∈ shapes -> w ∈ Board.wires (board_of (SrcTree board_xml))) /\
       (forall p, SPad p ∈ shapes -> p ∈ Board.pads (board_of (SrcTree board_xml))) /\
       (forall s, SSMD s ∈ shapes -> s ∈ Board.smds (board_of (SrcTree board_xml)))) /\
    Board.wires (board_of (SrcTree board_xml))
    = (lib_packages brd ≫= pkg_wires)
      ++ Delta.wires (plain_delta brd) ++ Delta.wires (signals_delta brd) /\
    Board.pads (board_of (SrcTree board_xml))
    = (lib_packages brd ≫= pkg_pads) ++ Delta.pads (plain_delta brd) /\
    Board.smds (board_of (SrcTree board_xml))
    = (lib_packages brd ≫= pkg_smds) ++ Delta.smds (plain_delta brd) /\
    Board.polygons (board_of (SrcTree board_xml))
    = Delta.polygons (plain_delta brd) ++ Delta.polygons (signals_delta brd).
Proof.
  split; [apply returned_board_of; reflexivity|]. split; [reflexivity|].
  split; [reflexivity|]. split; [reflexivity|]. split; [reflexivity|].
  apply (C10_package_shapes_in_flat_lists (SrcTree board_xml)).
  apply returned_board_of. reflexivity.
Defined.

End PackageShapes.

(* ===================================================================== *)
(** * Mirrored and unmirrored placements of one package *)
(* ===================================================================== *)

Section MirrorFormula.
Import Py Geometry Examples.
Local Open Scope R_scope.

(** A shape on a visible layer is drawn as one item, at the points
    [render_points] lists. *)
Lemma draw_shape_single (e : Element.t) (prot angle : R) (m : bool)
    (vis : gset Z) (sh : shape) :
  placed_layer m sh ∈ vis ->
  exists d, BRDViewer.draw_shape e prot angle m vis sh = [d] /\
            drawn_points d = render_points e angle m sh.
Proof.
  intros Hv.
  pose proof (draw_points_visible e prot angle m vis sh Hv) as Hpts.
  unfold draw_points in Hpts.
  destruct (BRDViewer.draw_shape e prot angle m vis sh) as [|d l] eqn:E.
  - exfalso. apply (draw_shape_visible_iff e prot angle m vis sh) in Hv.
    exact (Hv E).
  - destruct (draw_shape_item e prot angle m vis sh d) as [E' _].
    { rewrite E. apply list_elem_of_here. }
    rewrite E in E'. injection E' as ->.
    exists d. split; [reflexivity|].
    cbn [mbind list_bind] in Hpts. rewrite app_nil_r in Hpts. exact Hpts.
Qed.

Lemma render_points_other (e : Element.t) (angle : R) (m : bool) (sh : shape) :
  (forall r, sh <> SRect r) ->
  render_points e angle m sh = place e angle m <$> local_points sh.
Proof.
  intros Hr. destruct sh; try reflexivity. exfalso. exact (Hr _ eq_refl).
Qed.

(** X24: a placement whose descriptor is the marker M followed by [s] and
    the placement with descriptor [s] at the same position.  On the bounds
    path every local point (x, y) of a package shape goes to
    (P.x - rx, P.y + ry) under the first and to (P.x + rx, P.y + ry) under
    the second, (rx, ry) being the point rotated by the degree value of
    [s]; so the two point sets are mirror images across the vertical line
    through P.x.  On the drawing path a shape visible in both is drawn as
    one item in each, the two items are mirror images of each other across
    that line, and for every shape but a rectangle their points are given
    by the same two formulas. *)
Theorem X24_mirror_is_reflection (e_u e_m : Element.t) (s : string) (d : R)
    (sh : shape) (vis_u vis_m : gset Z) :
  contains "M" s = false ->
  EagleParser._parse_rot s = Ok d ->
  Element.rot e_u = s ->
  Element.rot e_m = String "M" s ->
  position e_m = position e_u ->
  exists a,
    BRDViewer._parse_rot (Element.rot e_m) = Ok a /\
    contains "M" (Element.rot e_m) = true /\
    BRDViewer._parse_rot (Element.rot e_u) = Ok d /\
    contains "M" (Element.rot e_u) = false /\
    (forall q : point,
        q ∈ instance_points e_m (radians a) true sh <->
        exists p, p ∈ local_points sh /\
                  q = (Element.x e_m - (rotate (radians d) p).1,
                       Element.y e_m + (rotate (radians d) p).2)) /\
    (forall q : point,
        q ∈ instance_points e_u (radians d) false sh <->
        exists p, p ∈ local_points sh /\
                  q = (Element.x e_u + (rotate (radians d) p).1,
                       Element.y e_u + (rotate (radians d) p).2)) /\
    (forall q : point,
        q ∈ instance_points e_m (radians a) true sh <->
        reflect_about (Element.x e_u) q ∈ instance_points e_u (radians d) false sh) /\
    (placed_layer true sh ∈ vis_m ->
     placed_layer false sh ∈ vis_u ->
     exists d_m d_u,
       BRDViewer.draw_shape e_m a (radians a) true vis_m sh = [d_m] /\
       BRDViewer.draw_shape e_u d (radians d) false vis_u sh = [d_u] /\
       (forall q : point,
          q ∈ drawn_points d_m <->
          reflect_about (Element.x e_u) q ∈ drawn_points d_u) /\
       ((forall r, sh <> SRect r) ->
        (forall q : point,
           q ∈ drawn_points d_m <->
           exists p, p ∈ local_points sh /\
                     q = (Element.x e_m - (rotate (radians d) p).1,
                          Element.y e_m + (rotate (radians d) p).2)) /\
        (forall q : point,
           q ∈ drawn_points d_u <->
           exists p, p ∈ local_points sh /\
                     q = (Element.x e_u + (rotate (radians d) p).1,
                          Element.y e_u + (rotate (radians d) p).2)))).
Proof.
  intros HM Hd Hu Hm Hpos.
  exists (- d). rewrite Hu, Hm, radians_opp.
  assert (Hmir : forall q : point,
            q ∈ place e_m (- radians d) true <$> local_points sh <->
            exists p, p ∈ local_points sh /\
                      q = (Element.x e_m - (rotate (radians d) p).1,
                           Element.y e_m + (rotate (radians d) p).2)).
  { intros q. rewrite list_elem_of_fmap.
    split; intros (p & H1 & H2).
    - exists p. split; [exact H2|]. rewrite H1. apply place_mirrored_opp.
    - exists p. split; [|exact H1]. rewrite H2. symmetry.
      apply place_mirrored_opp. }
  assert (Hunm : forall q : point,
            q ∈ place e_u (radians d) false <$> local_points sh <->
            exists p, p ∈ local_points sh /\
                      q = (Element.x e_u + (rotate (radians d) p).1,
                           Element.y e_u + (rotate (radians d) p).2)).
  { intros q. rewrite list_elem_of_fmap.
    split; intros (p & H1 & H2); exists p; auto. }
  split; [apply parse_rot_marked; assumption|].
  split; [reflexivity|]. split; [exact Hd|]. split; [exact HM|].
  split; [|split; [|split]].
  - intros q. rewrite instance_points_closed, shape_points_spec.
    split; intros (p & Hp & ->); exists p; (split; [exact Hp|]).
    + apply place_mirrored_opp.
    + symmetry. apply place_mirrored_opp.
  - intros q. rewrite instance_points_closed. apply shape_points_spec.
  - rewrite !instance_points_closed. apply reflect_set.
    intros q. apply shape_points_reflect. exact Hpos.
  - intros Hvm Hvu.
    destruct (draw_shape_single e_m (- d) (- radians d) true vis_m sh Hvm)
      as (d_m & Em & Pm).
    destruct (draw_shape_single e_u d (radians d) false vis_u sh Hvu)
      as (d_u & Eu & Pu).
    exists d_m, d_u. split; [exact Em|]. split; [exact Eu|].
    rewrite Pm, Pu. split.
    + apply reflect_set. intros q. apply render_points_reflect. exact Hpos.
    + intros Hr. rewrite !(render_points_other _ _ _ _ Hr).
      split; [exact Hmir | exact Hunm].
Qed.

Lemma X24_mirror_is_reflection_witness :
  exists a,
    BRDViewer._parse_rot (Element.rot e_MR0) = Ok a /\
    contains "M" (Element.rot e_MR0) = true /\
    BRDViewer._parse_rot (Element.rot e_R0) = Ok 0 /\
    contains "M" (Element.rot e_R0) = false /\
    (forall q : point,
        q ∈ instance_points e_MR0 (radians a) true (SPad pad_east) <->
        exists p, p ∈ local_points (SPad pad_east) /\
                  q = (Element.x e_MR0 - (rotate (radians 0) p).1,
                       Element.y e_MR0 + (rotate (radians 0) p).2)) /\
    (forall q : point,
        q ∈ instance_points e_R0 (radians 0) false (SPad pad_east) <->
        exists p, p ∈ local_points (SPad pad_east) /\
                  q = (Element.x e_R0 + (rotate (radians 0) p).1,
                       Element.y e_R0 + (rotate (radians 0) p).2)) /\
    (forall q : point,
        q ∈ instance_points e_MR0 (radians a) true (SPad pad_east) <->
        reflect_about (Element.x e_R0) q
          ∈ instance_points e_R0 (radians 0) false (SPad pad_east)) /\
    (placed_layer true (SPad pad_east) ∈ ({[ 16%Z ]} : gset Z) ->
     placed_layer false (SPad pad_east) ∈ ({[ 1%Z ]} : gset Z) ->
     exists d_m d_u,
       BRDViewer.draw_shape e_MR0 a (radians a) true {[ 16%Z ]} (SPad pad_east)
       = [d_m] /\
       BRDViewer.draw_shape e_R0 0 (radians 0) false {[ 1%Z ]} (SPad pad_east)
       = [d_u] /\
       (forall q : point,
          q ∈ drawn_points d_m <->
          reflect_about (Element.x e_R0) q ∈ drawn_points d_u) /\
       ((forall r, SPad pad_east <> SRect r) ->
        (forall q : point,
           q ∈ drawn_points d_m <->
           exists p, p ∈ local_points (SPad pad_east) /\
                     q = (Element.x e_MR0 - (rotate (radians 0) p).1,
                          Element.y e_MR0 + (rotate (radians 0) p).2)) /\
        (forall q : point,
           q ∈ drawn_points d_u <->
           exists p, p ∈ local_points (SPad pad_east) /\
                     q = (Element.x e_R0 + (rotate (radians 0) p).1,
                          Element.y e_R0 + (rotate (radians 0) p).2)))).
Proof.
  apply (X24_mirror_is_reflection e_R0 e_MR0 "R0" 0 (SPad pad_east)
           {[ 1%Z ]} {[ 16%Z ]}); reflexivity.
Defined.

End MirrorFormula.

(* ===================================================================== *)
(** * The bounds of a board whose placements are readable *)
(* ===================================================================== *)

Section BoundsTight.
Import Py Geometry EagleParser Examples.
Local Open Scope R_scope.

(** The observed points, each by where it comes from. *)
Lemma observed_points_placed (b : Board.t) (p : point) :
  p ∈ observed_points b <->
  (exists w, w ∈ Board.wires b /\
             (p = (Wire.x1 w, Wire.y1 w) \/ p = (Wire.x2 w, Wire.y2 w))) \/
  (exists v, v ∈ Board.vias b /\ p = (Via.x v, Via.y v)) \/
  (exists q, q ∈ Board.pads b /\ p = (Pad.x q, Pad.y q)) \/
  (exists s, s ∈ Board.smds b /\ p = (SMD.x s, SMD.y s)) \/
  (exists e, e ∈ Board.elements b /\
     (p = position e \/
      exists a shapes sh q,
        _parse_rot (Element.rot e) = Ok a /\
        Board.packages b !! Element.package e = Some shapes /\
        sh ∈ shapes /\ q ∈ local_points sh /\
        p = translate (position e)
              (rotate (radians a)
                 (if contains "M" (Element.rot e) then mirror_x q else q)))) \/
  (exists poly, poly ∈ Board.polygons b /\ p ∈ Polygon.vertices poly).
Proof.
  rewrite observed_points_spec.
  assert (He : forall e,
    (exists a shapes sh,
        _parse_rot (Element.rot e) = Ok a /\
        Board.packages b !! Element.package e = Some shapes /\
        sh ∈ shapes /\
        p ∈ shape_points e (radians a) (contains "M" (Element.rot e)) sh) <->
    (exists a shapes sh q,
        _parse_rot (Element.rot e) = Ok a /\
        Board.packages b !! Element.package e = Some shapes /\
        sh ∈ shapes /\ q ∈ local_points sh /\
        p = translate (position e)
              (rotate (radians a)
                 (if contains "M" (Element.rot e) then mirror_x q else q)))).
  { intros e. split.
    - intros (a & shapes & sh & H1 & H2 & H3 & H4).
      apply shape_points_spec in H4 as (q & Hq & ->).
      exists a, shapes, sh, q. auto.
    - intros (a & shapes & sh & q & H1 & H2 & H3 & Hq & ->).
      exists a, shapes, sh. repeat (split; [assumption|]).
      apply shape_points_spec. exists q. split; [exact Hq | reflexivity]. }
  split.
  - intros [H|[H|[H|[H|[(e & Hin & [H|H])|H]]]]]; auto 6.
    + do 4 right; left. exists e. split; [exact Hin|]. left. exact H.
    + do 4 right; left. exists e. split; [exact Hin|]. right.
      apply He. exact H.
  - intros [H|[H|[H|[H|[(e & Hin & [H|H])|H]]]]]; auto 6.
    + do 4 right; left. exists e. split; [exact Hin|]. left. exact H.
    + do 4 right; left. exists e. split; [exact Hin|]. right.
      apply He. exact H.
Qed.

(** X25: [_compute_bounds] comes to a board exactly when every placement
    of the board has a rotation descriptor that [_parse_rot] reads as a
    real number.  It then stores the rectangle (minX, minY, maxX, maxY) of the observed points:
    the end points of the wires, the centres of the vias, pads and
    surface-mount pads, the positions of the placements, the points of the
    shapes of their packages - mirrored if the descriptor holds an M,
    rotated by the angle of the descriptor, moved to the position - and the
    vertices of the polygons; these are the coordinates the scan collects.
    With no such point the rectangle is (0, 0, 100, 100); otherwise every
    observed point lies within the rectangle and each of its four edges is
    attained by an observed point. *)
Theorem X25_bounds_tight (b : Board.t) :
  (is_Ok (_compute_bounds b) <-> rotations_readable b) /\
  (forall b', _compute_bounds b = Ok b' ->
     exists minX minY maxX maxY,
       b' = Board.set_bounds b (Some (minX, minY, maxX, maxY)) /\
       scan b = Ok ((observed_points b).*1, (observed_points b).*2) /\
       (observed_points b = [] ->
          (minX, minY, maxX, maxY) = (0, 0, 100, 100)) /\
       (observed_points b <> [] ->
          (forall p, p ∈ observed_points b ->
                     minX <= p.1 <= maxX /\ minY <= p.2 <= maxY) /\
          (exists p, p ∈ observed_points b /\ p.1 = minX) /\
          (exists p, p ∈ observed_points b /\ p.2 = minY) /\
          (exists p, p ∈ observed_points b /\ p.1 = maxX) /\
          (exists p, p ∈ observed_points b /\ p.2 = maxY))) /\
  (forall p : point,
     p ∈ observed_points b <->
     (exists w, w ∈ Board.wires b /\
                (p = (Wire.x1 w, Wire.y1 w) \/ p = (Wire.x2 w, Wire.y2 w))) \/
     (exists v, v ∈ Board.vias b /\ p = (Via.x v, Via.y v)) \/
     (exists q, q ∈ Board.pads b /\ p = (Pad.x q, Pad.y q)) \/
     (exists s, s ∈ Board.smds b /\ p = (SMD.x s, SMD.y s)) \/
     (exists e, e ∈ Board.elements b /\
        (p = position e \/
         exists a shapes sh q,
           _parse_rot (Element.rot e) = Ok a /\
           Board.packages b !! Element.package e = Some shapes /\
           sh ∈ shapes /\ q ∈ local_points sh /\
           p = translate (position e)
                 (rotate (radians a)
                    (if contains "M" (Element.rot e) then mirror_x q else q)))) \/
     (exists poly, poly ∈ Board.polygons b /\ p ∈ Polygon.vertices poly)).
Proof.
  split; [apply compute_bounds_returns|]. split; [|apply observed_points_placed].
  intros b' Hb'.
  assert (Hr : rotations_readable b)
    by (apply compute_bounds_returns; exists b'; exact Hb').
  pose proof (scan_observed b Hr) as Hscan.
  unfold _compute_bounds in Hb'. rewrite Hscan in Hb'.
  change (Ok (Board.set_bounds b
                (Some (bounds_of ((observed_points b).*1,
                                  (observed_points b).*2)))) = Ok b') in Hb'.
  destruct (bounds_of ((observed_points b).*1, (observed_points b).*2))
    as [[[minX minY] maxX] maxY] eqn:Hb.
  injection Hb' as <-.
  exists minX, minY, maxX, maxY.
  split; [reflexivity|]. split; [exact Hscan|]. split.
  - intros Hnil. rewrite Hnil in Hb. cbn in Hb. congruence.
  - intros Hne. apply bounds_of_tight; assumption.
Qed.

Lemma X25_bounds_tight_witness :
  exists minX minY maxX maxY,
    _compute_bounds bounds_board
    = Ok (Board.set_bounds bounds_board (Some (minX, minY, maxX, maxY))) /\
    scan bounds_board
    = Ok ((observed_points bounds_board).*1, (observed_points bounds_board).*2) /\
    (observed_points bounds_board <> [] ->
       (forall p, p ∈ observed_points bounds_board ->
                  minX <= p.1 <= maxX /\ minY <= p.2 <= maxY) /\
       (exists p, p ∈ observed_points bounds_board /\ p.1 = minX) /\
       (exists p, p ∈ observed_points bounds_board /\ p.2 = minY) /\
       (exists p, p ∈ observed_points bounds_board /\ p.1 = maxX) /\
       (exists p, p ∈ observed_points bounds_board /\ p.2 = maxY)).
Proof.
  destruct (X25_bounds_tight bounds_board) as (Hret & Hb & _).
  assert (Hr : rotations_readable bounds_board).
  { unfold rotations_readable. cbn [bounds_board Board.elements].
    constructor; [|constructor]. exists (- (90)). reflexivity. }
  apply Hret in Hr as [b' Hb'].
  destruct (Hb b' Hb') as (minX & minY & maxX & maxY & -> & Hs & _ & Ht).
  exists minX, minY, maxX, maxY.
  split; [exact Hb'|]. split; [exact Hs | exact Ht].
Defined.

End BoundsTight.
